(** * Analytics report job: formatters, export aggregation, report lines and
      message chunking

    A shallow embedding of the reporting job of the repository (the module that
    builds the analytics messages, together with its [utils] helpers), and the
    properties of it that the specification states.

    Layout: the first part holds the embedding, one module per source unit;
    the second part holds the lemmas and theorems. *)

From Stdlib Require Import ZArith QArith Qround Qabs String Ascii List Bool Lia
  Lqa DecimalString SpecFloat.
Import ListNotations.

(* ===================================================================== *)
(** * Part I: the embedding                                               *)
(* ===================================================================== *)

(** ** Python values and arithmetic

    Python numbers are [int] (unbounded, hence [Z]) or [float].  A float is an
    IEEE 754 binary64 value, with the operations of [SpecFloat] at precision
    53; the operations on numbers below follow the [int] and [float] types of
    the interpreter, exceptions included. *)
Module Py.

Inductive exn : Type :=
| AttributeError
| TypeError
| ValueError
| JSONDecodeError
| OverflowError
| ZeroDivisionError.

Inductive result (A : Type) : Type :=
| Ok (a : A)
| Raise (e : exn).
Arguments Ok {A} a.
Arguments Raise {A} e.

Definition rbind {A B} (r : result A) (f : A -> result B) : result B :=
  match r with
  | Ok a => f a
  | Raise e => Raise e
  end.

Notation "'let*' x ':=' m 'in' k" := (rbind m (fun x => k))
  (at level 10, x name, m at level 100, k at level 200).

(** *** Floats: IEEE 754 binary64 *)
Definition float : Type := spec_float.
Definition prec : Z := 53.
Definition emax : Z := 1024.

Definition fadd : float -> float -> float := SFadd prec emax.
Definition fsub : float -> float -> float := SFsub prec emax.
Definition fmul : float -> float -> float := SFmul prec emax.
Definition fdiv : float -> float -> float := SFdiv prec emax.
Definition fabs : float -> float := SFabs.

(** The double nearest to an integer (ties to even); an infinity when the
    integer is too large. *)
Definition of_Z (z : Z) : float := binary_normalize prec emax z 0 false.

Definition is_finite (f : float) : bool :=
  match f with
  | S754_zero _ | S754_finite _ _ _ => true
  | _ => false
  end.

Definition is_zero (f : float) : bool :=
  match f with S754_zero _ => true | _ => false end.

(** The sign bit. *)
Definition sign_bit (f : float) : bool :=
  match f with
  | S754_zero s | S754_infinity s | S754_finite s _ _ => s
  | S754_nan => false
  end.

(** The rational a finite float stands for. *)
Definition float_val (f : float) : Q :=
  match f with
  | S754_finite s m e =>
      let n := if s then Zneg m else Zpos m in
      match e with
      | Z0 => inject_Z n
      | Zpos p => inject_Z (n * Z.pow_pos 2 p)
      | Zneg p => Qmake n (Pos.pow 2 p)
      end
  | _ => 0
  end.

(** The literals [0.1], [0.5] and [1.0]. *)
Definition f_0_1 : float := S754_finite false 7205759403792794 (-56).
Definition f_0_5 : float := S754_finite false 4503599627370496 (-53).
Definition f_1 : float := of_Z 1.

(** C's [fmod]: the remainder of the truncated quotient, which is exact. *)
Definition fmod (x y : float) : float :=
  match x, y with
  | S754_nan, _ | _, S754_nan => S754_nan
  | S754_infinity _, _ => S754_nan
  | _, S754_zero _ => S754_nan
  | S754_zero _, _ => x
  | S754_finite _ _ _, S754_infinity _ => x
  | S754_finite sx mx ex, S754_finite sy my ey =>
      let e := Z.min ex ey in
      let X := (Zpos mx * 2 ^ (ex - e))%Z in
      let Y := (Zpos my * 2 ^ (ey - e))%Z in
      binary_normalize prec emax (cond_Zopp sx (X mod Y)) e sx
  end.

(** C's [floor]. *)
Definition ffloor (f : float) : float :=
  match f with
  | S754_finite s m (Zneg p) =>
      binary_normalize prec emax
        ((if s then Zneg m else Zpos m) / Z.pow_pos 2 p) 0 s
  | _ => f
  end.

(** C's [copysign(0.0, f)]. *)
Definition zero_like (f : float) : float := S754_zero (sign_bit f).

(** C's [f < 0] and [f != 0]. *)
Definition fneg (f : float) : bool :=
  match f with
  | S754_finite true _ _ | S754_infinity true => true
  | _ => false
  end.

Inductive pynum : Type :=
| PInt (z : Z)
| PFloat (f : float).

(** A number on the extended line, for comparisons: Python compares an
    [int] with a [float] exactly. *)
Inductive ext : Type :=
| ext_nan
| ext_neg_inf
| ext_fin (q : Q)
| ext_pos_inf.

Definition float_ext (f : float) : ext :=
  match f with
  | S754_nan => ext_nan
  | S754_infinity s => if s then ext_neg_inf else ext_pos_inf
  | _ => ext_fin (float_val f)
  end.

Definition ext_compare (a b : ext) : option comparison :=
  match a, b with
  | ext_nan, _ | _, ext_nan => None
  | ext_neg_inf, ext_neg_inf => Some Eq
  | ext_neg_inf, _ => Some Lt
  | _, ext_neg_inf => Some Gt
  | ext_pos_inf, ext_pos_inf => Some Eq
  | ext_pos_inf, _ => Some Gt
  | _, ext_pos_inf => Some Lt
  | ext_fin p, ext_fin q => Some (p ?= q)
  end.

Definition float_compare (f g : float) : option comparison :=
  ext_compare (float_ext f) (float_ext g).

Definition fltb (f g : float) : bool :=
  match float_compare f g with Some Lt => true | _ => false end.

Definition num_compare (a b : pynum) : option comparison :=
  match a, b with
  | PInt x, PInt y => Some (x ?= y)%Z
  | PInt x, PFloat g => ext_compare (ext_fin (inject_Z x)) (float_ext g)
  | PFloat f, PInt y => ext_compare (float_ext f) (ext_fin (inject_Z y))
  | PFloat f, PFloat g => float_compare f g
  end.

(** [a < b], [a > b], [a >= b], [a == b], [a != b]. *)
Definition py_lt (a b : pynum) : bool :=
  match num_compare a b with Some Lt => true | _ => false end.
Definition py_gt (a b : pynum) : bool :=
  match num_compare a b with Some Gt => true | _ => false end.
Definition py_ge (a b : pynum) : bool :=
  match num_compare a b with Some Gt | Some Eq => true | _ => false end.
Definition py_eq (a b : pynum) : bool :=
  match num_compare a b with Some Eq => true | _ => false end.
Definition py_ne (a b : pynum) : bool := negb (py_eq a b).

(** [bool(x)] for a number: false exactly at zero. *)
Definition num_truthy (x : pynum) : bool :=
  match x with
  | PInt z => negb (z =? 0)%Z
  | PFloat f => negb (is_zero f)
  end.

(** [not v] where [v] is a number or [None]. *)
Definition falsy (v : option pynum) : bool :=
  match v with
  | None => true
  | Some x => negb (num_truthy x)
  end.

(** [float(z)] for an [int], which an operation mixing [int] and [float]
    applies to its [int] operand. *)
Definition int_to_float (z : Z) : result float :=
  let f := of_Z z in
  if is_finite f then Ok f else Raise OverflowError.

Definition to_float (x : pynum) : result float :=
  match x with
  | PInt z => int_to_float z
  | PFloat f => Ok f
  end.

(** [a / b] for two [int]s: the double nearest to the quotient. *)
Definition int_truediv (a b : Z) : result float :=
  if (b =? 0)%Z then Raise ZeroDivisionError
  else
    match a with
    | Z0 => Ok (S754_zero (b <? 0)%Z)
    | _ =>
        let f := fdiv (S754_finite (a <? 0)%Z (Z.to_pos (Z.abs a)) 0)
                      (S754_finite (b <? 0)%Z (Z.to_pos (Z.abs b)) 0) in
        if is_finite f then Ok f else Raise OverflowError
    end.

(** [a - b], [a * b], [a / b]. *)
Definition py_sub (a b : pynum) : result pynum :=
  match a, b with
  | PInt x, PInt y => Ok (PInt (x - y))
  | _, _ =>
      let* fa := to_float a in
      let* fb := to_float b in
      Ok (PFloat (fsub fa fb))
  end.

Definition py_mul (a b : pynum) : result pynum :=
  match a, b with
  | PInt x, PInt y => Ok (PInt (x * y))
  | _, _ =>
      let* fa := to_float a in
      let* fb := to_float b in
      Ok (PFloat (fmul fa fb))
  end.

Definition py_truediv (a b : pynum) : result pynum :=
  match a, b with
  | PInt x, PInt y => let* f := int_truediv x y in Ok (PFloat f)
  | _, _ =>
      let* fa := to_float a in
      let* fb := to_float b in
      if is_zero fb then Raise ZeroDivisionError
      else Ok (PFloat (fdiv fa fb))
  end.

(** The quotient and remainder of two floats, the divisor not zero: the
    [float] type's [divmod]. *)
Definition float_divmod (vx wx : float) : float * float :=
  let mod0 := fmod vx wx in
  let div0 := fdiv (fsub vx mod0) wx in
  let '(mod1, div1) :=
    if negb (is_zero mod0) then
      if xorb (fneg wx) (fneg mod0)
      then (fadd mod0 wx, fsub div0 f_1)
      else (mod0, div0)
    else (zero_like wx, div0) in
  let floordiv :=
    if negb (is_zero div1) then
      let fl := ffloor div1 in
      if fltb f_0_5 (fsub div1 fl) then fadd fl f_1 else fl
    else zero_like (fdiv vx wx) in
  (floordiv, mod1).

(** The [float] type's [%]. *)
Definition float_rem (vx wx : float) : float :=
  let mod0 := fmod vx wx in
  if negb (is_zero mod0) then
    if xorb (fneg wx) (fneg mod0) then fadd mod0 wx else mod0
  else zero_like wx.

(** [a // b] and [a % b]. *)
Definition floordiv (a b : pynum) : result pynum :=
  match a, b with
  | PInt x, PInt y =>
      if (y =? 0)%Z then Raise ZeroDivisionError else Ok (PInt (x / y))
  | _, _ =>
      let* fa := to_float a in
      let* fb := to_float b in
      if is_zero fb then Raise ZeroDivisionError
      else Ok (PFloat (fst (float_divmod fa fb)))
  end.

Definition pymod (a b : pynum) : result pynum :=
  match a, b with
  | PInt x, PInt y =>
      if (y =? 0)%Z then Raise ZeroDivisionError else Ok (PInt (x mod y))
  | _, _ =>
      let* fa := to_float a in
      let* fb := to_float b in
      if is_zero fb then Raise ZeroDivisionError
      else Ok (PFloat (float_rem fa fb))
  end.

(** [abs(x)]. *)
Definition py_abs (x : pynum) : pynum :=
  match x with
  | PInt z => PInt (Z.abs z)
  | PFloat f => PFloat (fabs f)
  end.

Definition Qltb (a b : Q) : bool := negb (Qle_bool b a).

(** The integer nearest to a rational, ties to the even one. *)
Definition round (x : Q) : Z :=
  let f := Qfloor x in
  let r := x - inject_Z f in
  if Qltb r (1 # 2) then f
  else if Qltb (1 # 2) r then (f + 1)%Z
  else if Z.even f then f else (f + 1)%Z.

(** [round(x)]. *)
Definition py_round (x : pynum) : result Z :=
  match x with
  | PInt z => Ok z
  | PFloat S754_nan => Raise ValueError
  | PFloat (S754_infinity _) => Raise OverflowError
  | PFloat f => Ok (round (float_val f))
  end.

(** [str(n)] for an [int]. *)
Definition str_of_Z (z : Z) : string := NilZero.string_of_int (Z.to_int z).

Fixpoint zeros (n : nat) : string :=
  match n with
  | O => EmptyString
  | S k => String "0"%char (zeros k)
  end.

(** Left padding with zeros up to width [d]. *)
Definition pad_left (d : nat) (s : string) : string :=
  (zeros (d - String.length s) ++ s)%string.

(** Fixed-point rendering of a rational with [d] decimals, ties to even. *)
Definition format_fixed (d : nat) (x : Q) : string :=
  let scale := (10 ^ Z.of_nat d)%Z in
  let n := round (Qabs x * inject_Z scale) in
  let sign := if Qltb x 0 then "-"%string else EmptyString in
  let int_part := str_of_Z (n / scale) in
  match d with
  | O => (sign ++ int_part)%string
  | _ => (sign ++ int_part ++ "." ++ pad_left d (str_of_Z (n mod scale)))%string
  end.

(** [f"{x:.<d>f}"] for a float: the digits of the exact value, with the sign
    of the sign bit. *)
Definition format_float (d : nat) (f : float) : string :=
  match f with
  | S754_nan => "nan"%string
  | S754_infinity s => if s then "-inf"%string else "inf"%string
  | _ =>
      ((if sign_bit f then "-" else "") ++ format_fixed d (Qabs (float_val f)))%string
  end.

(** [f"{x:.<d>f}"] for a number; an [int] is converted first. *)
Definition format_num (d : nat) (x : pynum) : result string :=
  let* f := to_float x in Ok (format_float d f).

(** How an f-string renders an optional string: [None] prints as "None". *)
Definition str_of_opt (o : option string) : string :=
  match o with
  | None => "None"%string
  | Some s => s
  end.

End Py.

(** ** [utils]: the formatters *)
Module Utils.
Import Py.
Local Open Scope string_scope.

(** [seconds_to_readable_time(seconds)]. *)
Definition seconds_to_readable_time (seconds : option pynum)
  : result (option string) :=
  if falsy seconds then Ok None
  else
    match seconds with
    | None => Ok None
    | Some seconds0 =>
        let* minutes0 := floordiv seconds0 (PInt 60) in
        let* hours := floordiv minutes0 (PInt 60) in
        let* seconds := pymod seconds0 (PInt 60) in
        let* minutes := pymod minutes0 (PInt 60) in
        let time_string := "" in
        let* time_string :=
          if py_gt hours (PInt 0)
          then let* r := py_round hours in Ok (time_string ++ str_of_Z r ++ "h")
          else Ok time_string in
        let* time_string :=
          if py_gt minutes (PInt 0)
          then let* r := py_round minutes in Ok (time_string ++ str_of_Z r ++ "m")
          else Ok time_string in
        let* time_string :=
          if py_gt seconds (PInt 0) || String.eqb time_string ""
          then let* r := py_round seconds in Ok (time_string ++ str_of_Z r ++ "s")
          else Ok time_string in
        Ok (Some time_string)
    end.

Definition up_100 : string := "(➚100%)".
Definition down_100 : string := "(➘100%)".
Definition approx_0 : string := "(≈0%)".

(** [format_percentage_change(daily_value, prev_period_value)]. *)
Definition format_percentage_change (daily_value prev_period_value : option pynum)
  : result (option string) :=
  if falsy daily_value || falsy prev_period_value then Ok None
  else
    match daily_value, prev_period_value with
    | Some d, Some p =>
        if py_eq p (PInt 0) then
          if py_gt d (PInt 0) then Ok (Some up_100)
          else if py_lt d (PInt 0) then Ok (Some down_100)
          else Ok (Some approx_0)
        else
          let* delta := py_sub d p in
          let* ratio := py_truediv delta p in
          let* difference := py_mul ratio (PInt 100) in
          if py_ge difference (PFloat f_0_1)
          then let* t := format_num 1 difference in Ok (Some ("(➚" ++ t ++ "%)"))
          else if py_lt difference (PInt 0)
          then let* t := format_num 1 (py_abs difference) in
               Ok (Some ("(➘" ++ t ++ "%)"))
          else Ok (Some approx_0)
    | _, _ => Ok None
    end.

Definition units : list string := ["TB"; "GB"; "MB"; "KB"].
Definition sizes : list Z := [1024 ^ 4; 1024 ^ 3; 1024 ^ 2; 1024 ^ 1]%Z.

(** The [for i in range(len(sizes))] loop of [format_bytes], over the two
    tables side by side. *)
Fixpoint format_bytes_loop (bytes : Z) (sz : list Z) (us : list string)
  : result (option string) :=
  match sz, us with
  | s :: sz', u :: us' =>
      if (s <=? bytes)%Z
      then let* q := py_truediv (PInt bytes) (PInt s) in
           let* t := format_num 2 q in
           Ok (Some (t ++ " " ++ u))
      else format_bytes_loop bytes sz' us'
  | _, _ => Ok None
  end.

(** [format_bytes(bytes)], at an [int] argument ([handle_export_event], its
    only caller, passes [int(...)]). *)
Definition format_bytes (bytes : Z) : result (option string) :=
  if (bytes =? 0)%Z then Ok None
  else
    let* found := format_bytes_loop bytes sizes units in
    match found with
    | Some s => Ok (Some s)
    | None => Ok (Some (str_of_Z bytes ++ " B"))
    end.


End Utils.

(** ** The message chunker

    The [while] loop at the end of [handle_send_message_by_thread].  A Python
    string is a sequence of code points; the loop only ever asks whether a
    character is the newline, so the text is a list over any character type
    with that test.  The messages handed to the chat client, in order, are
    the result. *)
Module Chunker.
Local Open Scope nat_scope.

Definition SLACK_MESSAGE_LIMIT : nat := 3000.

Section Loop.
Context {char : Type}.
Variable is_newline : char -> bool.
Variable limit : nat.

(** [s[i:j]] for [0 <= i], [0 <= j]. *)
Definition slice (s : list char) (i j : nat) : list char :=
  firstn (j - i) (skipn i s).

(** Position of the last newline of [l], if any. *)
Fixpoint last_newline (l : list char) : option nat :=
  match l with
  | [] => None
  | c :: t =>
      match last_newline t with
      | Some k => Some (S k)
      | None => if is_newline c then Some O else None
      end
  end.

(** [s.rfind("\n", i, j)]: the highest index in [i, j) holding a newline,
    [-1] when there is none. *)
Definition rfind (s : list char) (i j : nat) : Z :=
  match last_newline (slice s i j) with
  | Some k => Z.of_nat (i + k)
  | None => (-1)%Z
  end.

(** The value of [end_index] when the message is cut, from position [i]:
    the first three statements of the loop body. *)
Definition next_end (s : list char) (i : nat) : nat :=
  let end_index := Nat.min (i + limit) (length s) in
  if (end_index <? length s) && existsb is_newline (slice s i end_index)
  then Z.to_nat (rfind s i end_index + 1)
  else end_index.

(** The loop, from position [i]; [None] when the fuel runs out before the
    loop condition fails. *)
Fixpoint chunk_loop (fuel : nat) (s : list char) (i : nat)
  : option (list (list char)) :=
  if i <? length s then
    match fuel with
    | O => None
    | S fuel' =>
        let end_index := next_end s i in
        let message := slice s i end_index in
        option_map (cons message) (chunk_loop fuel' s end_index)
    end
  else Some [].

(** The window [s[i : min(i + limit, len(s))]] inspected at position [i]. *)
Definition window (s : list char) (i : nat) : list char :=
  slice s i (Nat.min (i + limit) (length s)).

End Loop.

Definition ascii_newline (c : ascii) : bool := Ascii.eqb c (ascii_of_nat 10).

End Chunker.

(** ** JSON values, Python dictionaries, exceptions *)
Module Json.
Import Py.
Local Open Scope string_scope.

(** A decoded JSON document.  Numbers are the integers (a number with a
    fraction is outside the model); a decoded object keeps its members in
    order, the first binding of a key being the one [get] finds. *)
#[local] Unset Elimination Schemes.
Inductive json : Type :=
| JNull
| JBool (b : bool)
| JInt (z : Z)
| JStr (s : string)
| JList (l : list json)
| JObj (o : list (string * json)).
#[local] Set Elimination Schemes.

Definition obj : Type := list (string * json).

(** [o.get(k, default)] with the default still to be chosen. *)
Fixpoint obj_get (k : string) (o : obj) : option json :=
  match o with
  | [] => None
  | (k', v) :: t => if String.eqb k' k then Some v else obj_get k t
  end.

(** [o.get(k)]: [None] (JSON null) when the key is absent. *)
Definition get (k : string) (o : obj) : json :=
  match obj_get k o with Some v => v | None => JNull end.

(** [o.get(k, d)]. *)
Definition get_default (k : string) (d : json) (o : obj) : json :=
  match obj_get k o with Some v => v | None => d end.

(** [bool(v)]. *)
Definition truthy (v : json) : bool :=
  match v with
  | JNull => false
  | JBool b => b
  | JInt z => negb (z =? 0)%Z
  | JStr s => negb (String.eqb s "")
  | JList l => match l with [] => false | _ => true end
  | JObj o => match o with [] => false | _ => true end
  end.

(** [a or b]. *)
Definition py_or (a b : json) : json := if truthy a then a else b.

(** Lists and dicts cannot be hashed. *)
Definition hashable (v : json) : bool :=
  match v with
  | JList _ | JObj _ => false
  | _ => true
  end.

Definition as_num (v : json) : option Z :=
  match v with
  | JBool b => Some (if b then 1 else 0)%Z
  | JInt z => Some z
  | _ => None
  end.

(** [a == b] on hashable values ([True == 1] and [False == 0] in Python). *)
Definition key_eqb (a b : json) : bool :=
  match a, b with
  | JNull, JNull => true
  | JStr s, JStr t => String.eqb s t
  | _, _ =>
      match as_num a, as_num b with
      | Some x, Some y => (x =? y)%Z
      | _, _ => false
      end
  end.

(** [v == "<t>"] for a string literal or a string-valued enum member. *)
Definition is_str (v : json) (t : string) : bool :=
  match v with
  | JStr s => String.eqb s t
  | _ => false
  end.

(** A list comprehension whose body can raise: left to right, the first
    exception ends it. *)
Fixpoint map_result {A B} (f : A -> result B) (l : list A) : result (list B) :=
  match l with
  | [] => Ok []
  | a :: t =>
      rbind (f a) (fun b => rbind (map_result f t) (fun bs => Ok (b :: bs)))
  end.

(** ["<sep>".join(l)]. *)
Fixpoint join (sep : string) (l : list string) : string :=
  match l with
  | [] => ""
  | [s] => s
  | s :: t => s ++ sep ++ join sep t
  end.

(** A Python [dict] keyed by hashable values: bindings in insertion order,
    keys pairwise different. *)
Definition pydict (V : Type) : Type := list (json * V).

Fixpoint dict_lookup {V} (k : json) (d : pydict V) : option V :=
  match d with
  | [] => None
  | (k', v) :: t => if key_eqb k' k then Some v else dict_lookup k t
  end.

(** [d[k] = v]: an existing key keeps its place (and its key object). *)
Fixpoint dict_store {V} (k : json) (v : V) (d : pydict V) : pydict V :=
  match d with
  | [] => [(k, v)]
  | (k', v') :: t =>
      if key_eqb k' k then (k', v) :: t else (k', v') :: dict_store k v t
  end.

(** [d.get(k)], which hashes [k] first. *)
Definition dict_get {V} (k : json) (d : pydict V) : result (option V) :=
  if hashable k then Ok (dict_lookup k d) else Raise TypeError.

Definition dict_set {V} (k : json) (v : V) (d : pydict V) : result (pydict V) :=
  if hashable k then Ok (dict_store k v d) else Raise TypeError.

(** The builtins of the Python runtime that the code calls and that are not
    spelled out here: the JSON decoder, the parsers behind [int(str)] and
    [float(str)], and [repr] for containers and floats. *)
Class Builtins : Type := {
  json_loads : string -> option json;       (* [None]: JSONDecodeError *)
  json_loads_empty_list : json_loads "[]" = Some (JList []);
  int_of_str : string -> option Z;          (* [None]: ValueError *)
  float_of_str : string -> option float;    (* [None]: ValueError *)
  repr_container : json -> string;
  repr_float : float -> string
}.

Section WithBuiltins.
Context {B : Builtins}.

(** [str(v)], which is what an f-string field without a format prints. *)
Definition py_str (v : json) : string :=
  match v with
  | JNull => "None"
  | JBool true => "True"
  | JBool false => "False"
  | JInt z => str_of_Z z
  | JStr s => s
  | JList _ | JObj _ => repr_container v
  end.

(** [int(v)]. *)
Definition py_int (v : json) : result Z :=
  match v with
  | JInt z => Ok z
  | JBool b => Ok (if b then 1 else 0)%Z
  | JStr s =>
      match int_of_str s with Some z => Ok z | None => Raise ValueError end
  | JNull | JList _ | JObj _ => Raise TypeError
  end.

(** [float(v)]. *)
Definition py_float (v : json) : result float :=
  match v with
  | JInt z => int_to_float z
  | JBool b => Ok (of_Z (if b then 1 else 0))
  | JStr s =>
      match float_of_str s with Some f => Ok f | None => Raise ValueError end
  | JNull | JList _ | JObj _ => Raise TypeError
  end.

(** [str(x)] for a number. *)
Definition str_of_num (x : pynum) : string :=
  match x with
  | PInt z => str_of_Z z
  | PFloat f => repr_float f
  end.

End WithBuiltins.

End Json.

(** ** The export aggregation: [handle_export_event] and [parse_export_data] *)
Module Aggregator.
Import Py Utils Json.
Local Open Scope string_scope.

(** The members of the [AmplitudeEvents] enumeration that the code compares
    event types with; the [enums] module is not part of the sources, so the
    tags are parameters. *)
Class AmplitudeEvents : Type := {
  user_submit_prompt : string;
  user_click_prompt_suggest : string;
  file_export_succeeded : string
}.

(** Modelled from the spec: the class [ExportInfo] of [models.export_model],
    one completed export with its layout, type, file name and rendered
    duration. *)
Record ExportInfo : Type := {
  export_layout : json;
  export_type : json;
  export_file_name : json;
  output_duration : option string
}.

(** Modelled from the spec: the class [ProjectInfo] of [models.project_model],
    with the project's key (the keyword the callers pass it under is spelled
    [projetc_id]), its name, the file-info summary, the prompts and the
    exports; an instance is truthy. *)
Record ProjectInfo : Type := {
  project_id : json;
  project_name : json;
  file_info : option string;
  prompts : list json;
  exports : list ExportInfo
}.

Definition set_file_info (p : ProjectInfo) (fi : option string) : ProjectInfo :=
  {| project_id := project_id p; project_name := project_name p;
     file_info := fi; prompts := prompts p; exports := exports p |}.

(** Modelled from the spec: [ProjectInfo.add_prompt], which appends to the
    prompt sequence. *)
Definition add_prompt (p : ProjectInfo) (prompt : json) : ProjectInfo :=
  {| project_id := project_id p; project_name := project_name p;
     file_info := file_info p; prompts := (prompts p ++ [prompt])%list;
     exports := exports p |}.

(** Modelled from the spec: [ProjectInfo.add_export], which appends to the
    export sequence. *)
Definition add_export (p : ProjectInfo) (e : ExportInfo) : ProjectInfo :=
  {| project_id := project_id p; project_name := project_name p;
     file_info := file_info p; prompts := prompts p;
     exports := (exports p ++ [e])%list |}.

(** Modelled from the spec: the class [UserActivity] of
    [models.user_activity_model], an identity key and a mapping from project
    id to [ProjectInfo] in first-seen order. *)
Record UserActivity : Type := {
  email : json;
  projects : pydict ProjectInfo
}.

(** Modelled from the spec: [UserActivity.add_project], which files the
    project under its id. *)
Definition add_project (ua : UserActivity) (p : ProjectInfo) : result UserActivity :=
  rbind (dict_set (project_id p) p (projects ua))
        (fun ps => Ok {| email := email ua; projects := ps |}).

(** Modelled from the spec: the class [UserActivityStore], a mapping from
    identity key to [UserActivity]. *)
Definition UserActivityStore : Type := pydict UserActivity.

Definition new_store : UserActivityStore := [].

(** Modelled from the spec: [UserActivityStore.get_activity], the stored
    instance if there is one, else a fresh empty one that is not stored. *)
Definition get_activity (store : UserActivityStore) (user_id : json)
  : result UserActivity :=
  rbind (dict_get user_id store)
        (fun found =>
           match found with
           | Some ua => Ok ua
           | None => Ok {| email := user_id; projects := [] |}
           end).

(** Modelled from the spec: [UserActivityStore.add_activity], which commits
    the activity under its identity key. *)
Definition add_activity (store : UserActivityStore) (ua : UserActivity)
  : result UserActivityStore :=
  dict_set (email ua) ua store.

(** Modelled from the spec: [UserActivityStore.get_all_activities], the
    stored activities in first-committed order. *)
Definition get_all_activities (store : UserActivityStore) : list UserActivity :=
  map snd store.

(** What the code prints. *)
Inductive log_line : Type :=
| ErrorParsingProjectFileInfo (e : exn).

(** Computations that print and may raise: the lines printed so far, and the
    outcome. *)
Definition M (A : Type) : Type := (list log_line * result A)%type.

Definition ret {A} (a : A) : M A := ([], Ok a).
Definition raise {A} (e : exn) : M A := ([], Raise e).
Definition lift {A} (r : result A) : M A := ([], r).
Definition bind {A B} (m : M A) (f : A -> M B) : M B :=
  match m with
  | (l, Ok a) => let (l', r) := f a in ((l ++ l')%list, r)
  | (l, Raise e) => (l, Raise e)
  end.

Arguments bind : simpl never.

Notation "x <- m ;; k" := (bind m (fun x => k))
  (at level 61, m at next level, right associativity).

Section Aggregation.
Context {B : Builtins} {E : AmplitudeEvents}.

(** One element of the list comprehension:
    [f"{file.get('filename')} ({format_bytes(int(file.get('filesize', 0)))})"]. *)
Definition file_entry (file : json) : result string :=
  match file with
  | JObj o =>
      let* size := py_int (get_default "filesize" (JInt 0) o) in
      let* shown := format_bytes size in
      Ok (py_str (get "filename" o) ++ " (" ++ str_of_opt shown ++ ")")
  | _ => Raise AttributeError
  end.

(** The body of the [try] block. *)
Definition files_info_body (event_properties : obj) : result (option string) :=
  let raw_files_info := get_default "projectFileInfo" (JStr "[]") event_properties in
  rbind
    (match raw_files_info with
     | JStr s =>
         match json_loads s with
         | Some v => Ok v
         | None => Raise JSONDecodeError
         end
     | _ => Ok raw_files_info
     end)
    (fun files_info =>
       match files_info with
       | JList ((_ :: _) as l) =>
           rbind (map_result file_entry l) (fun es => Ok (Some (join ", " es)))
       | _ => Ok None
       end).

(** The [try] ... [except (json.JSONDecodeError, TypeError)] statement. *)
Definition project_files_info (event_properties : obj) : M (option string) :=
  match files_info_body event_properties with
  | Ok v => ret v
  | Raise JSONDecodeError => ([ErrorParsingProjectFileInfo JSONDecodeError], Ok None)
  | Raise TypeError => ([ErrorParsingProjectFileInfo TypeError], Ok None)
  | Raise e => raise e
  end.

Definition is_prompt_event (event_type : json) : bool :=
  is_str event_type user_submit_prompt
  || is_str event_type user_click_prompt_suggest.

Definition is_export_event (event_type : json) : bool :=
  is_str event_type file_export_succeeded.

(** [handle_export_event(event, user_activity)].  The source updates a
    project that exists in place and returns it; its caller files the
    returned project under the same id at once, so the update is modelled by
    returning the new value. *)
Definition handle_export_event (event : obj) (user_activity : UserActivity)
  : M (option ProjectInfo) :=
  let event_type := get "event_type" event in
  match get "event_properties" event with
  | JObj event_properties =>
      let projectId := get "projectId" event_properties in
      let projectName := get "projectName" event_properties in
      project_files_info <- project_files_info event_properties ;;
      if negb (hashable event_type) then raise TypeError
      else if is_prompt_event event_type then
        let prompt :=
          if is_str event_type user_submit_prompt
          then get "prompt" event_properties
          else get "promptSuggest" event_properties in
        existing <- lift (dict_get projectId (projects user_activity)) ;;
        match existing with
        | Some project =>
            ret (Some (add_prompt (set_file_info project project_files_info) prompt))
        | None =>
            ret (Some {| project_id := projectId;
                         project_name := projectName;
                         file_info := project_files_info;
                         prompts := [prompt];
                         exports := [] |})
        end
      else if is_export_event event_type then
        let layout := get "layout" event_properties in
        let export_type := get "exportType" event_properties in
        let ouput_duration_str := get "outputDuration" event_properties in
        readable_duration <-
          lift (if truthy ouput_duration_str
                then let* f := py_float ouput_duration_str in
                     seconds_to_readable_time (Some (PFloat f))
                else Ok None) ;;
        let export_filename := get "exportFileName" event_properties in
        let export_info :=
          {| export_layout := layout; export_type := export_type;
             export_file_name := export_filename;
             output_duration := readable_duration |} in
        existing <- lift (dict_get projectId (projects user_activity)) ;;
        match existing with
        | Some project =>
            ret (Some (add_export (set_file_info project project_files_info) export_info))
        | None =>
            ret (Some {| project_id := projectId;
                         project_name := projectName;
                         file_info := project_files_info;
                         prompts := [];
                         exports := [export_info] |})
        end
      else ret None
  | _ => raise AttributeError
  end.

(** The identity key of the record at position [index] of its file. *)
Definition identity_key (index : nat) (event : obj) : json :=
  py_or (get "user_id" event)
        (JStr ("Anonymous (Amplitude ID-"
                 ++ py_str (get_default "amplitude_id" (JInt (Z.of_nat index)) event)
                 ++ ")")).

(** The body of the inner [for] loop. *)
Definition process_event (index : nat) (event : obj) (user_store : UserActivityStore)
  : M UserActivityStore :=
  if negb (is_str (get "data_type" event) "event") then ret user_store
  else
    let user_id := identity_key index event in
    user_activity <- lift (get_activity user_store user_id) ;;
    project <- handle_export_event event user_activity ;;
    match project with
    | Some project =>
        user_activity <- lift (add_project user_activity project) ;;
        lift (add_activity user_store user_activity)
    | None => ret user_store
    end.

(** [for index, event in enumerate(data, start=index)]. *)
Fixpoint process_file (index : nat) (data : list obj) (user_store : UserActivityStore)
  : M UserActivityStore :=
  match data with
  | [] => ret user_store
  | event :: rest =>
      user_store <- process_event index event user_store ;;
      process_file (S index) rest user_store
  end.

(** [for json_file in extracted_file_paths], each file already read and
    decoded into its list of records. *)
Fixpoint process_files (files : list (list obj)) (user_store : UserActivityStore)
  : M UserActivityStore :=
  match files with
  | [] => ret user_store
  | data :: rest =>
      user_store <- process_file 1 data user_store ;;
      process_files rest user_store
  end.

(** [parse_export_data(extracted_file_paths)]. *)
Definition parse_export_data (files : list (list obj)) : M (list UserActivity) :=
  user_store <- process_files files new_store ;;
  ret (get_all_activities user_store).

End Aggregation.

End Aggregator.

(** ** The report renderer: [build_analytics_message] *)
Module Report.
Import Py Utils Json.
Local Open Scope string_scope.

(** The enumerations [MetricCategory] and [MetricsName] of the [enums] module,
    which is not part of the sources: the types, their equality, how they
    print, and the members the renderer singles out. *)
Class Enums : Type := {
  MetricCategory : Type;
  category_eq_dec : forall a b : MetricCategory, {a = b} + {a <> b};
  category_value : MetricCategory -> string;          (* [metric_type.value] *)
  MetricsName : Type;
  name_eq_dec : forall a b : MetricsName, {a = b} + {a <> b};
  name_str : MetricsName -> string;                   (* [f"{metric_name}"] *)
  total_video_duration : MetricsName;
  export_mp4_landscape_with_captions : MetricsName;
  export_mp4_landscape_without_captions : MetricsName;
  export_mp4_vertical_with_captions : MetricsName;
  export_mp4_vertical_without_captions : MetricsName
}.

Definition newline : string := String (ascii_of_nat 10) EmptyString.

Section Render.
Context {B : Builtins} {En : Enums}.

(** Modelled from the spec: the class [MetricsData] of
    [models.metrics_model], a mapping from metric name to a number or
    [None], in insertion order; an instance is truthy. *)
Record MetricsData : Type := { metrics : list (MetricsName * option pynum) }.

(** Modelled from the spec: the class [ReportMetrics], a mapping from
    category to [MetricsData]. *)
Record ReportMetrics : Type := { data : list (MetricCategory * MetricsData) }.

Fixpoint lookup_category (c : MetricCategory) (d : list (MetricCategory * MetricsData))
  : option MetricsData :=
  match d with
  | [] => None
  | (c', m) :: t => if category_eq_dec c' c then Some m else lookup_category c t
  end.

Fixpoint lookup_metric (n : MetricsName) (d : list (MetricsName * option pynum))
  : option (option pynum) :=
  match d with
  | [] => None
  | (n', v) :: t => if name_eq_dec n' n then Some v else lookup_metric n t
  end.

Definition name_eqb (a b : MetricsName) : bool :=
  if name_eq_dec a b then true else false.

(** [v != 0] for a number or [None]. *)
Definition ne_zero (v : option pynum) : bool :=
  match v with
  | None => true
  | Some x => py_ne x (PInt 0)
  end.

(** [prev_period_value], as the two [get] calls leave it. *)
Definition prev_value (prev_period_metrics_data : ReportMetrics)
           (metric_type : MetricCategory) (metric_name : MetricsName)
  : option pynum :=
  match lookup_category metric_type (data prev_period_metrics_data) with
  | Some prev_period_data =>
      match lookup_metric metric_name (metrics prev_period_data) with
      | Some v => v
      | None => None
      end
  | None => None
  end.

Definition no_previous : string := "(No data for previous period)".

(** [compare_str]; [None] is the value that prints as "None". *)
Definition compare_str (value prev_period_value : option pynum)
  : result (option string) :=
  if falsy prev_period_value && ne_zero prev_period_value
  then Ok (Some no_previous)
  else format_percentage_change value prev_period_value.

Definition whitespace : string := "          ".

Definition doubles_indent (metric_name : MetricsName) : bool :=
  name_eqb metric_name export_mp4_landscape_with_captions
  || name_eqb metric_name export_mp4_landscape_without_captions
  || name_eqb metric_name export_mp4_vertical_with_captions
  || name_eqb metric_name export_mp4_vertical_without_captions.

(** [f"{value}"] for a number or [None]. *)
Definition str_of_value (v : option pynum) : string :=
  match v with
  | None => "None"
  | Some x => str_of_num x
  end.

(** [value] as the line shows it: the duration formatter is applied to the
    total-video-duration metric. *)
Definition rendered_value (metric_name : MetricsName) (value : option pynum)
  : result string :=
  if name_eqb metric_name total_video_duration
  then let* t := seconds_to_readable_time value in Ok (str_of_opt t)
  else Ok (str_of_value value).

(** [whitespace] as the line shows it: doubled for the four MP4 exports. *)
Definition indent (metric_name : MetricsName) : string :=
  if name_eqb metric_name total_video_duration then whitespace
  else if doubles_indent metric_name then whitespace ++ whitespace
  else whitespace.

Definition no_data_line (metric_name : MetricsName) : string :=
  newline ++ ">f" ++ whitespace ++ "- *" ++ name_str metric_name
    ++ ":* No data found".

Definition value_line (metric_name : MetricsName) (shown : string)
           (compare_str : option string) : string :=
  newline ++ ">" ++ indent metric_name ++ "- *" ++ name_str metric_name
    ++ ":* " ++ shown ++ " " ++ str_of_opt compare_str.

(** What one pass of the inner loop appends to [str_msg]. *)
Definition metric_line (prev_period_metrics_data : ReportMetrics)
           (metric_type : MetricCategory) (metric_name : MetricsName)
           (value : option pynum) : result string :=
  if falsy value && ne_zero value
  then Ok (no_data_line metric_name)
  else
    let prev_period_value :=
      prev_value prev_period_metrics_data metric_type metric_name in
    let* compare_str := compare_str value prev_period_value in
    let* shown := rendered_value metric_name value in
    Ok (value_line metric_name shown compare_str).

(** What the inner loop appends for the metrics [ms] of one category. *)
Fixpoint metric_lines (prev : ReportMetrics) (metric_type : MetricCategory)
         (ms : list (MetricsName * option pynum)) : result string :=
  match ms with
  | [] => Ok ""
  | (metric_name, value) :: t =>
      let* line := metric_line prev metric_type metric_name value in
      let* rest := metric_lines prev metric_type t in
      Ok (line ++ rest)
  end.

Definition category_header (metric_type : MetricCategory) : string :=
  newline ++ ">*" ++ category_value metric_type ++ ":*".

(** What the outer loop appends for the categories [cs]. *)
Fixpoint category_blocks (prev : ReportMetrics)
         (cs : list (MetricCategory * MetricsData)) : result string :=
  match cs with
  | [] => Ok ""
  | (metric_type, metric_data) :: t =>
      let* lines := metric_lines prev metric_type (metrics metric_data) in
      let* rest := category_blocks prev t in
      Ok (category_header metric_type ++ lines ++ rest)
  end.

(** [build_analytics_message(metrics_data, prev_period_metrics_data)]; the
    progress line it prints for each metric is left out. *)
Definition build_analytics_message (metrics_data prev_period_metrics_data : ReportMetrics)
  : result string :=
  category_blocks prev_period_metrics_data (data metrics_data).

End Render.

End Report.

(** ** Notions the statements about the aggregation use *)
Module AggregatorNotions.
Import Py Utils Json Aggregator.
Local Open Scope string_scope.

Section Notions.
Context {B : Builtins} {E : AmplitudeEvents}.

(** The record passes the [data_type] test of the loop. *)
Definition is_event (event : obj) : bool :=
  is_str (get "data_type" event) "event".

(** The record is a prompt-type or an export-succeeded event. *)
Definition recognized (event : obj) : bool :=
  is_prompt_event (get "event_type" event)
  || is_export_event (get "event_type" event).

(** The records of the input files with the index the loops give them:
    [enumerate(data, start=1)] starts again at 1 in every file. *)
Definition numbered (files : list (list obj)) : list (nat * obj) :=
  flat_map (fun data => combine (seq 1 (length data)) data) files.

(** The numbering the specification describes: the 1-based position of the
    record in the overall input, across all files. *)
Definition spec_numbered (files : list (list obj)) : list (nat * obj) :=
  combine (seq 1 (length (concat files))) (concat files).

(** The loop body run over a list of numbered records. *)
Fixpoint process_indexed (records : list (nat * obj)) (user_store : UserActivityStore)
  : M UserActivityStore :=
  match records with
  | [] => ret user_store
  | (index, event) :: rest =>
      user_store <- process_event index event user_store ;;
      process_indexed rest user_store
  end.

(** [event.get("event_properties").get("projectId")]. *)
Definition event_project_id (event : obj) : json :=
  match get "event_properties" event with
  | JObj props => get "projectId" props
  | _ => JNull
  end.

(** The numbered record is a recognized event of identity [k] on project
    [pid]. *)
Definition touches (k pid : json) (r : nat * obj) : bool :=
  is_event (snd r) && recognized (snd r)
  && key_eqb (identity_key (fst r) (snd r)) k
  && key_eqb (event_project_id (snd r)) pid.

(** The most recent such record. *)
Definition last_touch (k pid : json) (records : list (nat * obj))
  : option (nat * obj) :=
  find (touches k pid) (rev records).

(** The project [pid] of identity [k] in a store. *)
Definition stored_project (k pid : json) (user_store : UserActivityStore)
  : option ProjectInfo :=
  match dict_lookup k user_store with
  | Some ua => dict_lookup pid (projects ua)
  | None => None
  end.

(** The most recent record of identity [k] on project [pid] among those
    that carried file metadata, as the specification words the rule: a
    record carries file metadata when its summary is not [None]. *)
Definition carries_file_info (r : nat * obj) : bool :=
  match get "event_properties" (snd r) with
  | JObj props =>
      match project_files_info props with
      | (_, Ok (Some _)) => true
      | _ => false
      end
  | _ => false
  end.

Definition spec_last_file_info (k pid : json) (records : list (nat * obj))
  : option (nat * obj) :=
  find (fun r => touches k pid r && carries_file_info r) (rev records).



(** [readable_duration], as the conditional expression of the export branch
    leaves it. *)
Definition readable_duration (props : obj) : result (option string) :=
  if truthy (get "outputDuration" props)
  then let* f := py_float (get "outputDuration" props) in
       seconds_to_readable_time (Some (PFloat f))
  else Ok None.


(** The export built from the properties of an export event. *)
Definition export_of (props : obj) : ExportInfo :=
  {| export_layout := get "layout" props;
     export_type := get "exportType" props;
     export_file_name := get "exportFileName" props;
     output_duration :=
       match readable_duration props with
       | Ok r => r
       | Raise _ => None
       end |}.

(** The prompt a prompt-type event carries. *)
Definition prompt_of (event_type : json) (props : obj) : json :=
  if is_str event_type user_submit_prompt
  then get "prompt" props else get "promptSuggest" props.

(** Every project is filed under a key equal to its id. *)
Definition projects_ok (ua : UserActivity) : Prop :=
  forall k p, In (k, p) (projects ua) -> key_eqb k (project_id p) = true.

(** Every activity is filed under a key equal to its identity, and its
    projects are in order. *)
Definition store_ok (user_store : UserActivityStore) : Prop :=
  forall k ua, In (k, ua) user_store ->
               key_eqb k (email ua) = true /\ projects_ok ua.

(** The activity [process_event] works on: the stored one, or a fresh one. *)
Definition activity_of (user_store : UserActivityStore) (user_id : json)
  : UserActivity :=
  match dict_lookup user_id user_store with
  | Some ua => ua
  | None => {| email := user_id; projects := [] |}
  end.

End Notions.

End AggregatorNotions.

(** ** Sample parameters, for evaluating the embedding on concrete inputs *)
Module Samples.
Import Py Utils Json Aggregator Report.
Local Open Scope string_scope.

Fixpoint digits_value (acc : Z) (s : string) : option Z :=
  match s with
  | EmptyString => Some acc
  | String c t =>
      let n := Z.of_nat (nat_of_ascii c) in
      if ((48 <=? n) && (n <=? 57))%Z
      then digits_value (acc * 10 + (n - 48))%Z t
      else None
  end.

(** A decimal literal with an optional minus sign. *)
Definition parse_decimal (s : string) : option Z :=
  match s with
  | EmptyString => None
  | String "-" EmptyString => None
  | String "-" t => option_map Z.opp (digits_value 0 t)
  | _ => digits_value 0 s
  end.

(** [float(s)] on the texts evaluated below: a plain decimal literal, or one
    of the names of the special values. *)
Definition parse_float (s : string) : option float :=
  if String.eqb s "nan" then Some S754_nan
  else if String.eqb s "inf" then Some (S754_infinity false)
  else if String.eqb s "-inf" then Some (S754_infinity true)
  else option_map of_Z (parse_decimal s).

(** Builtins that know the text the code itself passes to the decoder, read
    plain decimal literals and the names of the special floats, and print a
    float with one decimal; enough for the inputs evaluated below, none of
    which prints a container. *)
#[export] Instance sample_builtins : Builtins := {|
  json_loads := fun s => if String.eqb s "[]" then Some (JList []) else None;
  json_loads_empty_list := eq_refl;
  int_of_str := parse_decimal;
  float_of_str := parse_float;
  repr_container := fun _ => "[...]";
  repr_float := format_float 1
|}.

#[export] Instance sample_events : AmplitudeEvents := {|
  user_submit_prompt := "user_submit_prompt";
  user_click_prompt_suggest := "user_click_prompt_suggest";
  file_export_succeeded := "file_export_succeeded"
|}.

#[export] Instance sample_enums : Enums := {|
  MetricCategory := string;
  category_eq_dec := string_dec;
  category_value := fun c => c;
  MetricsName := string;
  name_eq_dec := string_dec;
  name_str := fun n => n;
  total_video_duration := "Total video duration";
  export_mp4_landscape_with_captions := "MP4 landscape with captions";
  export_mp4_landscape_without_captions := "MP4 landscape without captions";
  export_mp4_vertical_with_captions := "MP4 vertical with captions";
  export_mp4_vertical_without_captions := "MP4 vertical without captions"
|}.

(** The double 60.25. *)
Definition sixty_and_a_quarter : float := fdiv (of_Z 241) (of_Z 4).

(** A short text with one newline. *)
Definition sample_text : list ascii :=
  (list_ascii_of_string "line one" ++ [ascii_of_nat 10]
     ++ list_ascii_of_string "line two")%list.

(** A prompt event on project [pid] carrying [extra] properties. *)
Definition prompt_event (user : list (string * json)) (pid prompt : string)
           (extra : obj) : obj :=
  ([("data_type", JStr "event")] ++ user
     ++ [("event_type", JStr "user_submit_prompt");
         ("event_properties",
          JObj ([("projectId", JStr pid); ("projectName", JStr "Demo");
                 ("prompt", JStr prompt)] ++ extra))])%list.

(** An export event on project [pid] carrying [extra] properties. *)
Definition export_event (user : list (string * json)) (pid : string)
           (extra : obj) : obj :=
  ([("data_type", JStr "event")] ++ user
     ++ [("event_type", JStr "file_export_succeeded");
         ("event_properties",
          JObj ([("projectId", JStr pid); ("projectName", JStr "Demo");
                 ("exportType", JStr "mp4"); ("exportFileName", JStr "out.mp4")]
                  ++ extra))])%list.

(** An event of a kind the aggregation ignores. *)
Definition other_event (user : list (string * json)) : obj :=
  ([("data_type", JStr "event")] ++ user
     ++ [("event_type", JStr "page_viewed");
         ("event_properties", JObj [("projectId", JStr "p1")])])%list.

Definition file_list (name : string) (size : Z) : json :=
  JList [JObj [("filename", JStr name); ("filesize", JInt size)]].

(** A comparison period in which the total of exports is 0. *)
Definition sample_previous : ReportMetrics :=
  {| data := [("Exports", {| metrics := [("Total exports", Some (PInt 0))] |})] |}.

Definition alice : list (string * json) := [("user_id", JStr "alice@example.com")].
Definition bob : list (string * json) := [("user_id", JStr "bob@example.com")].

(** One file: Alice submits a prompt, Bob only views a page. *)
Definition sample_files : list (list obj) :=
  [[prompt_event alice "p1" "make it shorter" []; other_event bob]].

(** One file: three events of Alice on the same project, each with its own
    file list. *)
Definition three_events : list (list obj) :=
  [[prompt_event alice "p1" "first" [("projectFileInfo", file_list "a.mp4" 2048)];
    export_event alice "p1" [("projectFileInfo", file_list "b.mp4" 500)];
    prompt_event alice "p1" "second" [("projectFileInfo", file_list "c.mp4" 1073741824)]]].

(** One file: an event with a file list, then one without. *)
Definition info_then_none : list (list obj) :=
  [[prompt_event alice "p1" "first" [("projectFileInfo", file_list "a.mp4" 2048)];
    prompt_event alice "p1" "second" []]].

(** A record with neither [user_id] nor [amplitude_id]. *)
Definition nameless : obj := prompt_event [] "p1" "hi" [].






End Samples.

(** ** [utils]: the week of a given offset

    [get_start_end_of_week_by_offset].  A [datetime] is the proleptic
    Gregorian ordinal of its date (1 is 0001-01-01, a Monday) together with
    its time of day, which arithmetic on whole days leaves alone; the clock
    ([datetime.today()]) is an argument. *)
Module Calendar.
Local Open Scope Z_scope.

Record datetime : Type := {
  ordinal : Z;
  time_of_day : Z        (* microseconds since midnight *)
}.

(** [date.min.toordinal()], [date.max.toordinal()] and the largest number of
    days a [timedelta] holds. *)
Definition MIN_ORDINAL : Z := 1.
Definition MAX_ORDINAL : Z := 3652059.
Definition MAX_DELTA_DAYS : Z := 999999999.

Inductive error : Type :=
| OverflowError
| UnpackError.          (* the TypeError of unpacking [None] *)

Inductive outcome (A : Type) : Type :=
| Returned (a : A)
| Failed (e : error).
Arguments Returned {A} a.
Arguments Failed {A} e.

Definition obind {A C} (o : outcome A) (f : A -> outcome C) : outcome C :=
  match o with
  | Returned a => f a
  | Failed e => Failed e
  end.

(** [timedelta(days=n)]. *)
Definition timedelta (days : Z) : outcome Z :=
  if Z.abs days <=? MAX_DELTA_DAYS then Returned days else Failed OverflowError.

(** [d + timedelta] for a delta of [days] whole days. *)
Definition add_days (d : datetime) (days : Z) : outcome datetime :=
  let o := ordinal d + days in
  if (MIN_ORDINAL <=? o) && (o <=? MAX_ORDINAL)
  then Returned {| ordinal := o; time_of_day := time_of_day d |}
  else Failed OverflowError.

(** [d.weekday()]: Monday is 0, Sunday is 6. *)
Definition weekday (d : datetime) : Z := (ordinal d + 6) mod 7.

(** [get_start_end_of_week_by_offset(week_offset)], at an [int] or [None]. *)
Definition get_start_end_of_week_by_offset (today : datetime) (week_offset : option Z)
  : outcome (option (datetime * datetime)) :=
  match week_offset with
  | None => Returned None
  | Some k =>
      if k =? 0 then Returned None
      else
        obind (timedelta (weekday today)) (fun back =>
        obind (add_days today (- back)) (fun monday =>
        obind (timedelta (7 * k)) (fun weeks =>
        obind (add_days monday (- weeks)) (fun start_of_week =>
        obind (timedelta 6) (fun six =>
        obind (add_days start_of_week six) (fun end_of_week =>
        Returned (Some (start_of_week, end_of_week))))))))
  end.

End Calendar.

(** ** The prompting-time report

    [get_prompting_time_data], [build_prompting_time_message] and the two
    handlers that wrap them.  The analytics query, the chat template and
    [strftime] belong to collaborators outside the sources and are
    parameters; a query answers a number or [None], or raises (shown here as
    no answer at all). *)
Module PromptingTime.
Import Py Utils Json Calendar.
Local Open Scope string_scope.

(** The two event filters [get_prompting_time_data] queries with. *)
Inductive response_query : Type :=
| FirstResponse       (* nth_time_performed is 1 *)
| AllResponses.

Definition nl : string := String (ascii_of_nat 10) EmptyString.

(** [v / 1000]. *)
Definition div_1000 (v : option pynum) : result pynum :=
  match v with
  | None => Raise TypeError
  | Some x => py_truediv x (PInt 1000)
  end.

(** [build_prompting_time_message(avg_first_res_in_ms, avg_all_res_in_ms)]. *)
Definition build_prompting_time_message (avg_first_res_in_ms avg_all_res_in_ms : option pynum)
  : result string :=
  let white_space := "            " in
  let message_str := "> 📝 *Average time taken for*:" ++ nl in
  let* all_s := div_1000 avg_all_res_in_ms in
  let* all_t := seconds_to_readable_time (Some all_s) in
  let message_str :=
    message_str ++ ">" ++ white_space ++ "- *All eddie responses*: "
      ++ str_of_opt all_t ++ nl in
  let* first_s := div_1000 avg_first_res_in_ms in
  let* first_t := seconds_to_readable_time (Some first_s) in
  Ok (message_str ++ ">" ++ white_space
        ++ "- *First eddie response for new users*: "
        ++ str_of_opt first_t ++ nl).

Definition is_none {A} (v : option A) : bool :=
  match v with None => true | Some _ => false end.

Section Reports.
Context {T : Type}.
Variable build_slack_template : string -> string -> T.
Variable strftime : string -> datetime -> string.
Variable sum_filtered_amplitude_events :
  response_query -> string -> string -> option (option pynum).

(** [get_prompting_time_data(start_date, end_date)]; [None] when a query
    raises. *)
Definition get_prompting_time_data (start_date end_date : string)
  : option (option pynum * option pynum) :=
  match sum_filtered_amplitude_events FirstResponse start_date end_date with
  | None => None
  | Some avg_first_res_in_ms =>
      match sum_filtered_amplitude_events AllResponses start_date end_date with
      | None => None
      | Some avg_all_res_in_ms => Some (avg_first_res_in_ms, avg_all_res_in_ms)
      end
  end.

(** The [message] of [handle_daily_prompting_time_report] for the day
    [yesterday]: the [try] ... [except Exception] statement. *)
Definition daily_prompting_message (yesterday : datetime) : string :=
  let formated_date := strftime "%Y-%m-%d" yesterday in
  match get_prompting_time_data (strftime "%Y%m%d" yesterday)
                                (strftime "%Y%m%d" yesterday) with
  | None => "> - *Error when preparing daily prompting time report*"
  | Some (avg_first_res_in_ms, avg_all_res_in_ms) =>
      if is_none avg_first_res_in_ms && is_none avg_all_res_in_ms
      then "> - *No daily metrics found for Date: " ++ formated_date ++ "*"
      else
        match build_prompting_time_message avg_first_res_in_ms avg_all_res_in_ms with
        | Ok message => message
        | Raise _ => "> - *Error when preparing daily prompting time report*"
        end
  end.

(** [handle_daily_prompting_time_report()], the clock reading [now]. *)
Definition handle_daily_prompting_time_report (now : datetime) : outcome T :=
  obind (timedelta 1) (fun one =>
  obind (add_days now (- one)) (fun yesterday =>
    let formated_date := strftime "%Y-%m-%d" yesterday in
    let header := "⏰ (" ++ formated_date ++ ") Eddie Prompting Time Analytics Report" in
    Returned (build_slack_template header (daily_prompting_message yesterday)))).

(** The [message] of [handle_weekly_prompting_time_report] for the week
    from [monday] to [sunday]. *)
Definition weekly_prompting_message (monday sunday : datetime) : string :=
  let formatted_monday := strftime "%Y-%m-%d" monday in
  let formatted_sunday := strftime "%Y-%m-%d" sunday in
  match get_prompting_time_data (strftime "%Y%m%d" monday)
                                (strftime "%Y%m%d" sunday) with
  | None => "> - *Error when preparing weekly prompting time report*"
  | Some (avg_first_res_in_ms, avg_all_res_in_ms) =>
      if is_none avg_first_res_in_ms && is_none avg_all_res_in_ms
      then "> - *No weekly metrics found for Date: " ++ formatted_monday
             ++ " -> " ++ formatted_sunday ++ "*"
      else
        match build_prompting_time_message avg_first_res_in_ms avg_all_res_in_ms with
        | Ok message => message
        | Raise _ => "> - *Error when preparing weekly prompting time report*"
        end
  end.

(** [handle_weekly_prompting_time_report()], the clock reading [now]. *)
Definition handle_weekly_prompting_time_report (now : datetime) : outcome T :=
  obind (get_start_end_of_week_by_offset now (Some 1%Z)) (fun week =>
    match week with
    | None => Failed UnpackError
    | Some (monday_of_prev_week, sunday_of_prev_week) =>
        let formatted_monday := strftime "%Y-%m-%d" monday_of_prev_week in
        let formatted_sunday := strftime "%Y-%m-%d" sunday_of_prev_week in
        let header := "⏰ (" ++ formatted_monday ++ " -> " ++ formatted_sunday
                        ++ ") Eddie Prompting Time Analytics Report" in
        Returned (build_slack_template header
                    (weekly_prompting_message monday_of_prev_week sunday_of_prev_week))
    end).

End Reports.

End PromptingTime.

(** ** The text sent for one user

    The part of [handle_send_message_by_thread] that builds [message_str]
    from the projects of a [UserActivity], before the chunking loop. *)
Module ThreadMessage.
Import Py Utils Json Aggregator.
Local Open Scope string_scope.

Definition nl : string := String (ascii_of_nat 10) EmptyString.
Definition whitespace : string := "        ".

(** [enumerate(l, start=start)]. *)
Definition enumerate {A} (l : list A) (start : nat) : list (nat * A) :=
  combine (seq start (length l)) l.

(** [bool(s)] for a string or [None]. *)
Definition truthy_text (o : option string) : bool :=
  match o with
  | None => false
  | Some s => negb (String.eqb s "")
  end.

Definition str_of_nat (n : nat) : string := str_of_Z (Z.of_nat n).

Section Build.
Context {B : Builtins}.

Definition prompt_line (ip : nat * json) : string :=
  whitespace ++ whitespace ++ " - #" ++ str_of_nat (fst ip) ++ ": "
    ++ py_str (snd ip) ++ nl.

Definition export_line (ie : nat * ExportInfo) : string :=
  let export := snd ie in
  let export_msg :=
    if truthy (export_layout export)
    then whitespace ++ whitespace ++ " - #" ++ str_of_nat (fst ie) ++ ":  Format: "
           ++ py_str (export_layout export) ++ "-" ++ py_str (export_type export)
    else whitespace ++ whitespace ++ " - #" ++ str_of_nat (fst ie) ++ ":  Format: "
           ++ py_str (export_type export) in
  let export_msg :=
    if truthy_text (output_duration export)
    then export_msg ++ ", duration: " ++ str_of_opt (output_duration export)
    else export_msg in
  export_msg ++ nl.

(** What one project appends to [parsed_str]. *)
Definition project_lines (ip : nat * ProjectInfo) : list string :=
  let project := snd ip in
  let project_line :=
    ":movie_camera: #" ++ str_of_nat (fst ip) ++ ". *Project name:* "
      ++ py_str (project_name project) ++ nl in
  let file_info_line :=
    whitespace ++ whitespace ++ "- *File info:* "
      ++ str_of_opt (file_info project) ++ nl in
  let prompts_header := whitespace ++ ":man-raising-hand: *Prompts:*" ++ nl in
  let exports_header := whitespace ++ ":inbox_tray: *Exports:*" ++ nl in
  List.app [project_line]
    (List.app (if truthy_text (file_info project) then [file_info_line] else [])
       (List.app
          (if (0 <? length (prompts project))%nat
           then prompts_header :: map prompt_line (enumerate (prompts project) 1)
           else [])
          (if (0 <? length (exports project))%nat
           then exports_header :: map export_line (enumerate (exports project) 1)
           else []))).

(** [parsed_str] for one user. *)
Definition parsed_str (user_activity : UserActivity) : list string :=
  flat_map project_lines (enumerate (map snd (projects user_activity)) 1).

(** ["".join(parsed_str)]. *)
Definition message_str (user_activity : UserActivity) : string :=
  join "" (parsed_str user_activity).

End Build.

End ThreadMessage.

(** ** Notions the further statements use *)
Module MoreNotions.
Import Py Utils Json Aggregator AggregatorNotions Report Calendar.
Local Open Scope string_scope.

(** A segment of a rendered duration: nothing for zero. *)
Definition segment (v : Z) (unit : string) : string :=
  if (v =? 0)%Z then "" else str_of_Z v ++ unit.

(** [seconds_to_readable_time(x / 1000)]: how the prompting-time message
    renders an average given in milliseconds. *)
Definition readable_milliseconds (x : pynum) : result (option string) :=
  let* s := py_truediv x (PInt 1000) in seconds_to_readable_time (Some s).

(** The body of the prompting-time message, the two averages rendered. *)
Definition prompting_lines (all_t first_t : option string) : string :=
  let nl := String (ascii_of_nat 10) EmptyString in
  "> 📝 *Average time taken for*:" ++ nl
    ++ ">            - *All eddie responses*: " ++ str_of_opt all_t ++ nl
    ++ ">            - *First eddie response for new users*: "
    ++ str_of_opt first_t ++ nl.

(** The text holds a full stop. *)
Fixpoint has_dot (s : string) : bool :=
  match s with
  | EmptyString => false
  | String c t => Ascii.eqb c "."%char || has_dot t
  end.

Section Lines.
Context {char : Type}.
Variable is_newline : char -> bool.

(** The text ends with a newline. *)
Definition ends_with_newline (l : list char) : Prop :=
  exists pre c, l = (pre ++ [c])%list /\ is_newline c = true.

End Lines.

Section Accumulation.
Context {B : Builtins} {E : AmplitudeEvents}.

Definition event_props (event : obj) : obj :=
  match get "event_properties" event with
  | JObj props => props
  | _ => []
  end.



Definition prompts_of (o : option ProjectInfo) : list json :=
  match o with Some p => prompts p | None => [] end.

Definition exports_of (o : option ProjectInfo) : list ExportInfo :=
  match o with Some p => exports p | None => [] end.

(** No activity without a project, no project without a prompt or an
    export. *)
Definition store_populated (user_store : UserActivityStore) : Prop :=
  forall k ua, In (k, ua) user_store ->
    projects ua <> []
    /\ forall kp p, In (kp, p) (projects ua) -> prompts p <> [] \/ exports p <> [].

End Accumulation.

(** The keys of a dictionary are pairwise different. *)
Inductive distinct_keys {V : Type} : pydict V -> Prop :=
| distinct_nil : distinct_keys []
| distinct_cons (k : json) (v : V) (d : pydict V) :
    (forall k' v', In (k', v') d -> key_eqb k k' = false) ->
    distinct_keys d -> distinct_keys ((k, v) :: d).

(** The identities of the store are pairwise different, and so are the
    project ids of every activity. *)
Definition store_distinct (st : UserActivityStore) : Prop :=
  distinct_keys st /\ forall k ua, In (k, ua) st -> distinct_keys (projects ua).

End MoreNotions.

(** ** Further sample inputs *)
Module MoreSamples.
Import Py Utils Json Aggregator Calendar Samples.
Local Open Scope string_scope.

(** Wednesday 2024-05-15, at noon. *)
Definition a_wednesday : datetime :=
  {| ordinal := 739021; time_of_day := 43200000000 |}.

(** One file: two prompts and an export of Alice on one project, a prompt of
    Bob on another. *)
Definition busy_day : list (list obj) :=
  [[prompt_event alice "p1" "first" [];
    prompt_event bob "p2" "hello" [];
    export_event alice "p1" [("outputDuration", JStr "90")];
    prompt_event alice "p1" "second" []]].

(** A project with a prompt and an export, as the aggregation leaves it. *)
Definition a_project : ProjectInfo :=
  {| project_id := JStr "p1"; project_name := JStr "Demo";
     file_info := Some "a.mp4 (2.00 KB)";
     prompts := [JStr "first"];
     exports := [{| export_layout := JNull; export_type := JStr "mp4";
                    export_file_name := JStr "out.mp4";
                    output_duration := Some "1m30s" |}] |}.

Definition a_user : UserActivity :=
  {| email := JStr "alice@example.com"; projects := [(JStr "p1", a_project)] |}.

(** Lines of at most eight characters, newline included. *)
Definition short_lines : list ascii :=
  (list_ascii_of_string "one" ++ [ascii_of_nat 10]
     ++ list_ascii_of_string "two" ++ [ascii_of_nat 10]
     ++ list_ascii_of_string "three" ++ [ascii_of_nat 10])%list.

(** A file list whose second descriptor has a null size. *)
Definition null_size_props : obj :=
  [("projectFileInfo",
    JList [JObj [("filename", JStr "a.mp4"); ("filesize", JInt 2048)];
           JObj [("filename", JStr "b.mp4"); ("filesize", JNull)]])].

End MoreSamples.

(* ===================================================================== *)
(** * Part II: properties                                                 *)
(* ===================================================================== *)

(** ** Facts about the Python arithmetic *)
Module PyFacts.
Import Py.

Lemma Qltb_lt (a b : Q) : Qltb a b = true <-> a < b.
Proof.
  unfold Qltb. rewrite negb_true_iff.
  split; intro H.
  - apply Qnot_le_lt. intro Hle. apply Qle_bool_iff in Hle. congruence.
  - destruct (Qle_bool b a) eqn:E; [|reflexivity].
    apply Qle_bool_iff in E. exfalso. apply (Qlt_not_le _ _ H E).
Qed.

Lemma Qltb_ge (a b : Q) : Qltb a b = false <-> b <= a.
Proof.
  unfold Qltb. rewrite negb_false_iff. apply Qle_bool_iff.
Qed.

Lemma rbind_ok {A C} (r : result A) (f : A -> result C) (c : C) :
  rbind r f = Ok c -> exists a, r = Ok a /\ f a = Ok c.
Proof. destruct r as [a|e]; simpl; [eauto | discriminate]. Qed.

(** On [int]s the operations are those of [Z]. *)
Lemma floordiv_int (n : Z) : floordiv (PInt n) (PInt 60) = Ok (PInt (n / 60)).
Proof. reflexivity. Qed.

Lemma pymod_int (n : Z) : pymod (PInt n) (PInt 60) = Ok (PInt (n mod 60)).
Proof. reflexivity. Qed.

Lemma py_gt_int (a b : Z) : py_gt (PInt a) (PInt b) = (b <? a)%Z.
Proof.
  unfold py_gt, num_compare, Z.ltb. rewrite (Z.compare_antisym a b).
  now destruct (a ?= b)%Z.
Qed.

Lemma py_lt_int (a b : Z) : py_lt (PInt a) (PInt b) = (a <? b)%Z.
Proof. reflexivity. Qed.

Lemma py_eq_int (a b : Z) : py_eq (PInt a) (PInt b) = (a =? b)%Z.
Proof. unfold py_eq, num_compare. now rewrite Z.eqb_compare. Qed.

(** A finite float stands for a rational with the sign of its sign bit. *)
Lemma float_val_sign (s : bool) (m : positive) (e : Z) :
  (float_val (S754_finite s m e) ?= 0) = if s then Lt else Gt.
Proof.
  unfold Qcompare. change (Qnum 0) with 0%Z. rewrite Z.mul_0_l.
  change (QDen 0) with 1%Z. rewrite Z.mul_1_r.
  destruct e as [|p|p]; simpl float_val.
  - destruct s; reflexivity.
  - change (Qnum (inject_Z ?z)) with z.
    unfold Qnum, inject_Z.
    assert (Hp : (0 < Z.pow_pos 2 p)%Z).
    { rewrite Z.pow_pos_fold. apply Z.pow_pos_nonneg; lia. }
    destruct s.
    + apply Z.compare_lt_iff. apply Z.mul_neg_pos; [reflexivity | exact Hp].
    + apply Z.compare_gt_iff. apply Z.mul_pos_pos; [reflexivity | exact Hp].
  - destruct s; reflexivity.
Qed.

(** How a float compares with the [int] 0. *)
Lemma float_compare_zero (f : float) :
  num_compare (PFloat f) (PInt 0)
  = match f with
    | S754_nan => None
    | S754_zero _ => Some Eq
    | S754_infinity s | S754_finite s _ _ => Some (if s then Lt else Gt)
    end.
Proof.
  destruct f as [s|s| |s m e]; try reflexivity.
  - now destruct s.
  - unfold num_compare, float_ext, ext_compare.
    change (inject_Z 0) with 0. now rewrite float_val_sign.
Qed.

(** A number is truthy exactly when it differs from 0. *)
Lemma num_truthy_ne (x : pynum) : num_truthy x = py_ne x (PInt 0).
Proof.
  destruct x as [z|f]; unfold py_ne, py_eq.
  - unfold num_truthy, num_compare. rewrite Z.eqb_compare.
    now destruct (z ?= 0)%Z.
  - rewrite float_compare_zero.
    destruct f as [s|s| |s m e]; try reflexivity; now destruct s.
Qed.

Lemma string_app_assoc (a b c : string) :
  ((a ++ b) ++ c = a ++ (b ++ c))%string.
Proof. induction a as [|ch a IH]; simpl; [reflexivity | now rewrite IH]. Qed.

Lemma string_app_nil_r (a : string) : (a ++ "" = a)%string.
Proof. induction a as [|ch a IH]; simpl; [reflexivity | now rewrite IH]. Qed.

Lemma string_app_nonempty (a b : string) (c : ascii) :
  String.eqb (a ++ String c b) "" = false.
Proof. destruct a; reflexivity. Qed.

End PyFacts.

Module UtilsFacts.
Import Py Utils PyFacts Samples.
Local Open Scope string_scope.

Example readable_45 : seconds_to_readable_time (Some (PInt 45)) = Ok (Some "45s").
Proof. vm_compute. reflexivity. Qed.

Example readable_90 : seconds_to_readable_time (Some (PInt 90)) = Ok (Some "1m30s").
Proof. vm_compute. reflexivity. Qed.

Example readable_3661 :
  seconds_to_readable_time (Some (PInt 3661)) = Ok (Some "1h1m1s").
Proof. vm_compute. reflexivity. Qed.

Example readable_neg :
  seconds_to_readable_time (Some (PInt (-5))) = Ok (Some "59m55s").
Proof. vm_compute. reflexivity. Qed.

Example readable_frac :
  seconds_to_readable_time (Some (PFloat sixty_and_a_quarter)) = Ok (Some "1m0s").
Proof. vm_compute. reflexivity. Qed.

Example readable_large_float :
  seconds_to_readable_time (Some (PFloat (of_Z (10 ^ 20))))
  = Ok (Some "27777777777777780h12m40s").
Proof. vm_compute. reflexivity. Qed.

Example readable_float_values :
  seconds_to_readable_time (Some (PFloat (of_Z 90))) = Ok (Some "1m30s")
  /\ seconds_to_readable_time (Some (PFloat (of_Z 3661))) = Ok (Some "1h1m1s")
  /\ seconds_to_readable_time (Some (PFloat f_0_5)) = Ok (Some "0s")
  /\ seconds_to_readable_time (Some (PFloat (fdiv (of_Z 7199) (of_Z 2))))
     = Ok (Some "59m60s")
  /\ seconds_to_readable_time (Some (PFloat (of_Z (10 ^ 16))))
     = Ok (Some "2777777777777h46m40s").
Proof. repeat split; vm_compute; reflexivity. Qed.

Example pct_110_100 :
  format_percentage_change (Some (PInt 110)) (Some (PInt 100))
  = Ok (Some "(➚10.0%)").
Proof. vm_compute. reflexivity. Qed.

Example pct_90_100 :
  format_percentage_change (Some (PInt 90)) (Some (PInt 100))
  = Ok (Some "(➘10.0%)").
Proof. vm_compute. reflexivity. Qed.

Example pct_103_80 :
  format_percentage_change (Some (PInt 103)) (Some (PInt 80))
  = Ok (Some "(➚28.7%)").
Proof. vm_compute. reflexivity. Qed.

Example pct_rounded_up_to_threshold :
  format_percentage_change (Some (PInt 20020000000000001))
    (Some (PInt 20000000000000001))
  = Ok (Some "(➚0.1%)").
Proof. vm_compute. reflexivity. Qed.

Example bytes_500 : format_bytes 500 = Ok (Some "500 B").
Proof. vm_compute. reflexivity. Qed.

Example bytes_2048 : format_bytes 2048 = Ok (Some "2.00 KB").
Proof. vm_compute. reflexivity. Qed.

Example bytes_gb : format_bytes 1073741824 = Ok (Some "1.00 GB").
Proof. vm_compute. reflexivity. Qed.

Example bytes_1536 : format_bytes 1536 = Ok (Some "1.50 KB").
Proof. vm_compute. reflexivity. Qed.

Example bytes_10_pow_30 :
  format_bytes (10 ^ 30) = Ok (Some "909494701772928256.00 TB").
Proof. vm_compute. reflexivity. Qed.

(** The text the code builds from three components that are not negative is
    the text the specification describes. *)
Lemma segments_agree (H M S : Z) :
  (0 <= H)%Z -> (0 <= M)%Z -> (0 <= S)%Z ->
  (let time_string := "" in
   let time_string :=
     if (0 <? H)%Z then time_string ++ str_of_Z H ++ "h" else time_string in
   let time_string :=
     if (0 <? M)%Z then time_string ++ str_of_Z M ++ "m" else time_string in
   if (0 <? S)%Z || String.eqb time_string ""
   then time_string ++ str_of_Z S ++ "s"
   else time_string)
  = (if (H =? 0)%Z then "" else str_of_Z H ++ "h")
      ++ (if (M =? 0)%Z then "" else str_of_Z M ++ "m")
      ++ (if negb (S =? 0)%Z || ((H =? 0)%Z && (M =? 0)%Z)
          then str_of_Z S ++ "s" else "").
Proof.
  intros HH HM HS.
  assert (E : forall k, (0 <= k)%Z -> (0 <? k)%Z = negb (k =? 0)%Z).
  { intros k Hk. destruct (Z.eqb_spec k 0) as [->|Hn]; simpl; [reflexivity|].
    apply Z.ltb_lt. lia. }
  rewrite (E H HH), (E M HM), (E S HS). cbv zeta.
  generalize (str_of_Z H) (str_of_Z M) (str_of_Z S).
  intros sh sm sr.
  destruct (H =? 0)%Z, (M =? 0)%Z, (S =? 0)%Z; simpl;
    rewrite ?string_app_nonempty, ?string_app_assoc, ?string_app_nil_r;
    simpl; rewrite ?string_app_nonempty; reflexivity.
Qed.

(** [seconds_to_readable_time] at an [int] that is not zero. *)
Lemma readable_time_int (n : Z) :
  n <> 0%Z ->
  seconds_to_readable_time (Some (PInt n))
  = Ok (Some
          (let H := (n / 60 / 60)%Z in
           let M := ((n / 60) mod 60)%Z in
           let S := (n mod 60)%Z in
           let time_string := "" in
           let time_string :=
             if (0 <? H)%Z then time_string ++ str_of_Z H ++ "h" else time_string in
           let time_string :=
             if (0 <? M)%Z then time_string ++ str_of_Z M ++ "m" else time_string in
           if (0 <? S)%Z || String.eqb time_string ""
           then time_string ++ str_of_Z S ++ "s"
           else time_string)).
Proof.
  intro Hn. unfold seconds_to_readable_time.
  assert (Hf : falsy (Some (PInt n)) = false).
  { simpl. destruct (Z.eqb_spec n 0); [contradiction | reflexivity]. }
  rewrite Hf, !floordiv_int. cbn [rbind].
  rewrite !floordiv_int. cbn [rbind].
  rewrite !pymod_int. cbn [rbind]. rewrite !py_gt_int. cbv zeta.
  destruct (0 <? n / 60 / 60)%Z; cbn [py_round rbind];
    destruct (0 <? (n / 60) mod 60)%Z; cbn [py_round rbind];
    match goal with
    | |- context [(?c || ?d)%bool] => destruct (c || d)%bool
    end; reflexivity.
Qed.


Lemma components_nonneg (n : Z) :
  (0 <= n)%Z -> (0 <= n / 60 / 60)%Z /\ (0 <= (n / 60) mod 60)%Z /\ (0 <= n mod 60)%Z.
Proof.
  intro Hn. repeat split.
  - apply Z.div_pos; [apply Z.div_pos|]; lia.
  - apply Z.mod_pos_bound. lia.
  - apply Z.mod_pos_bound. lia.
Qed.



(** The values the specification lists. *)
Lemma seconds_to_readable_time_examples :
  seconds_to_readable_time None = Ok None
  /\ seconds_to_readable_time (Some (PInt 0)) = Ok None
  /\ seconds_to_readable_time (Some (PFloat (S754_zero false))) = Ok None
  /\ seconds_to_readable_time (Some (PInt 45)) = Ok (Some "45s")
  /\ seconds_to_readable_time (Some (PInt 90)) = Ok (Some "1m30s")
  /\ seconds_to_readable_time (Some (PInt 3661)) = Ok (Some "1h1m1s").
Proof. repeat split; vm_compute; reflexivity. Qed.


(** A number that equals 0 is falsy. *)
Lemma zero_is_falsy (x : pynum) : py_eq x (PInt 0) = true -> falsy (Some x) = true.
Proof.
  intro H. simpl. rewrite num_truthy_ne. unfold py_ne. now rewrite H.
Qed.

(** Whatever the current value, a prior value of zero is falsy, and the first
    test of [format_percentage_change] answers [None]. *)
Lemma format_percentage_change_prior_zero (d : option pynum) (p : pynum) :
  py_eq p (PInt 0) = true -> format_percentage_change d (Some p) = Ok None.
Proof.
  intro Hp. unfold format_percentage_change.
  rewrite (zero_is_falsy p Hp), orb_true_r. reflexivity.
Qed.

(** C6 (the code at the failing input).  With a prior value of zero
    [format_percentage_change] never reaches its zero-prior branch: at
    [(5, 0)], and at any current value, it returns [None]. *)
Theorem format_percentage_change_zero_prior_is_none :
  format_percentage_change (Some (PInt 5)) (Some (PInt 0)) = Ok None
  /\ format_percentage_change (Some (PInt (-5))) (Some (PInt 0)) = Ok None
  /\ (forall d, format_percentage_change d (Some (PInt 0)) = Ok None)
  /\ (forall d s, format_percentage_change d (Some (PFloat (S754_zero s))) = Ok None).
Proof.
  repeat split; intros;
    apply format_percentage_change_prior_zero; reflexivity.
Qed.

(** The three markers of the zero-prior branch are never returned for a prior
    value of zero. *)
Lemma format_percentage_change_markers_unreachable (d : option pynum) (p : pynum) :
  py_eq p (PInt 0) = true ->
  format_percentage_change d (Some p) <> Ok (Some up_100)
  /\ format_percentage_change d (Some p) <> Ok (Some down_100)
  /\ format_percentage_change d (Some p) <> Ok (Some approx_0).
Proof.
  intro Hp. rewrite (format_percentage_change_prior_zero d p Hp).
  repeat split; discriminate.
Qed.

End UtilsFacts.

(** ** The chunking loop *)
Module ChunkerFacts.
Import Chunker MoreNotions Samples MoreSamples.
Local Open Scope nat_scope.

Lemma firstn_snoc {char : Type} (l : list char) (n : nat) (c : char) :
  nth_error l n = Some c -> firstn (S n) l = firstn n l ++ [c].
Proof.
  revert l. induction n as [|n IH]; intros [|x l] H; simpl in H; try discriminate.
  - now injection H as <-.
  - simpl. f_equal. now apply IH.
Qed.

Lemma slice_snoc {char : Type} (s : list char) (i j : nat) (c : char) :
  i <= j -> nth_error s j = Some c -> slice s i (S j) = slice s i j ++ [c].
Proof.
  intros Hij Hc. unfold slice.
  replace (S j - i) with (S (j - i)) by lia.
  apply firstn_snoc. rewrite nth_error_skipn.
  now replace (i + (j - i)) with j by lia.
Qed.

Lemma firstn_plus {char : Type} (a b : nat) (l : list char) :
  firstn (a + b) l = firstn a l ++ firstn b (skipn a l).
Proof.
  revert l. induction a as [|a IH]; intros [|x l]; simpl;
    rewrite ?firstn_nil; try reflexivity.
  now rewrite IH.
Qed.

(** Two slices that meet make one. *)
Lemma slice_app {char : Type} (s : list char) (i m j : nat) :
  i <= m -> m <= j -> slice s i m ++ slice s m j = slice s i j.
Proof.
  intros Him Hmj. unfold slice.
  replace (j - i) with ((m - i) + (j - m)) by lia.
  rewrite firstn_plus, skipn_skipn.
  now replace (m - i + i) with m by lia.
Qed.

Section LoopFacts.
Context {char : Type}.
Variable is_newline : char -> bool.
Variable limit : nat.
Hypothesis limit_pos : 0 < limit.

#[local] Abbreviation next_end := (next_end is_newline limit).
#[local] Abbreviation chunk_loop := (chunk_loop is_newline limit).
#[local] Abbreviation last_newline := (last_newline is_newline).

Lemma In_slice (s : list char) (i j : nat) (c : char) :
  In c (slice s i j) -> In c s.
Proof.
  unfold slice. intro H.
  rewrite <- (firstn_skipn i s). apply in_or_app. right.
  rewrite <- (firstn_skipn (j - i) (skipn i s)). apply in_or_app. now left.
Qed.

Lemma slice_length (s : list char) (i j : nat) :
  i <= j -> j <= length s -> length (slice s i j) = j - i.
Proof.
  intros Hij Hj. unfold slice.
  rewrite length_firstn, length_skipn. lia.
Qed.

Lemma slice_nth (s : list char) (i j k : nat) :
  k < j - i -> nth_error (slice s i j) k = nth_error s (i + k).
Proof.
  intro Hk. unfold slice. rewrite nth_error_firstn.
  destruct (Nat.ltb_spec k (j - i)); [|lia].
  apply nth_error_skipn.
Qed.

Lemma slice_skipn (s : list char) (i j : nat) :
  i <= j -> slice s i j ++ skipn j s = skipn i s.
Proof.
  intro Hij. unfold slice.
  rewrite <- (firstn_skipn (j - i) (skipn i s)) at 2.
  rewrite skipn_skipn. replace (j - i + i) with j by lia. reflexivity.
Qed.

Lemma last_newline_found (l : list char) :
  existsb is_newline l = true -> exists k, last_newline l = Some k.
Proof.
  induction l as [|c t IH]; simpl; [discriminate|].
  intro H. destruct (last_newline t) as [k|]; [eauto|].
  destruct (is_newline c); [eauto|].
  simpl in H. destruct (IH H) as [k Hk]. discriminate.
Qed.

Lemma last_newline_none (l : list char) :
  last_newline l = None -> existsb is_newline l = false.
Proof.
  intro H. destruct (existsb is_newline l) eqn:E; [|reflexivity].
  destruct (last_newline_found l E) as [k Hk]. congruence.
Qed.

(** [last_newline] answers a position of the list that holds a newline,
    after which the list holds none. *)
Lemma last_newline_spec (l : list char) (k : nat) :
  last_newline l = Some k ->
  k < length l
  /\ (exists c, nth_error l k = Some c /\ is_newline c = true)
  /\ (forall k' c', k < k' -> nth_error l k' = Some c' -> is_newline c' = false).
Proof.
  revert k. induction l as [|c t IH]; simpl; [discriminate|].
  intros k H. destruct (last_newline t) as [k0|] eqn:E.
  - injection H as <-. destruct (IH k0 eq_refl) as (Hlt & Hnl & Hafter).
    repeat split; [lia | exact Hnl |].
    intros k' c' Hk' Hn. destruct k' as [|k']; [lia|].
    simpl in Hn. apply (Hafter k' c'); [lia | exact Hn].
  - destruct (is_newline c) eqn:Ec; [|discriminate].
    injection H as <-. repeat split; [lia | exists c; auto |].
    intros k' c' Hk' Hn. destruct k' as [|k']; [lia|].
    simpl in Hn. pose proof (last_newline_none t E) as Hnone.
    destruct (is_newline c') eqn:Ec'; [|reflexivity].
    assert (Hex : existsb is_newline t = true).
    { apply existsb_exists. exists c'. split; [|exact Ec'].
      eapply nth_error_In; eauto. }
    congruence.
Qed.

(** What [next_end] is, case by case. *)
Lemma next_end_cases (s : list char) (i : nat) :
  i < length s ->
  (i + limit < length s ->
   existsb is_newline (window limit s i) = true ->
   exists j c,
     next_end s i = S j /\ i <= j < i + limit
     /\ nth_error s j = Some c /\ is_newline c = true
     /\ forall k c', j < k < i + limit ->
                     nth_error s k = Some c' -> is_newline c' = false)
  /\ (existsb is_newline (window limit s i) = false ->
      next_end s i = Nat.min (i + limit) (length s))
  /\ (length s <= i + limit -> next_end s i = length s).
Proof.
  intro Hi. unfold next_end, Chunker.next_end, window.
  set (e := Nat.min (i + limit) (length s)).
  repeat split.
  - intros Hlong Hex. assert (He : e = i + limit) by (unfold e; lia).
    destruct (Nat.ltb_spec e (length s)) as [_|]; [|lia].
    rewrite Hex. simpl. unfold rfind.
    destruct (last_newline_found _ Hex) as [k Hk]. rewrite Hk.
    destruct (last_newline_spec _ _ Hk) as (Hlt & (c & Hc & Hnl) & Hafter).
    rewrite slice_length in Hlt by lia.
    rewrite slice_nth in Hc by lia.
    exists (i + k), c. repeat split; try lia; try assumption.
    intros k' c' Hk' Hn.
    apply (Hafter (k' - i) c'); [lia|].
    rewrite slice_nth by lia.
    replace (i + (k' - i)) with k' by lia. exact Hn.
  - intros Hnone. rewrite Hnone, andb_false_r. reflexivity.
  - intros Hshort. assert (He : e = length s) by (unfold e; lia).
    rewrite He, Nat.ltb_irrefl. reflexivity.
Qed.

(** Each pass moves the position strictly forward, and by at most [limit]. *)
Lemma next_end_bounds (s : list char) (i : nat) :
  i < length s ->
  i < next_end s i /\ next_end s i <= Nat.min (i + limit) (length s).
Proof.
  intro Hi.
  destruct (next_end_cases s i Hi) as (Hcut & Hnone & Hshort).
  destruct (Nat.le_gt_cases (length s) (i + limit)) as [Hle|Hgt].
  - rewrite (Hshort Hle). lia.
  - destruct (existsb is_newline (window limit s i)) eqn:E.
    + destruct (Hcut Hgt eq_refl) as (j & c & -> & Hj & _). lia.
    + rewrite (Hnone eq_refl). lia.
Qed.

Lemma chunk_loop_step (fuel : nat) (s : list char) (i : nat) :
  i < length s ->
  chunk_loop (S fuel) s i
  = option_map (cons (slice s i (next_end s i))) (chunk_loop fuel s (next_end s i)).
Proof.
  intro Hi. simpl. destruct (Nat.ltb_spec i (length s)); [reflexivity | lia].
Qed.

Lemma chunk_loop_done (fuel : nat) (s : list char) (i : nat) :
  length s <= i -> chunk_loop fuel s i = Some [].
Proof.
  intro Hi. destruct fuel; simpl;
    destruct (Nat.ltb_spec i (length s)); try reflexivity; lia.
Qed.

(** The loop ends: [length s - i] passes are enough from position [i]. *)
Lemma chunk_loop_total (fuel : nat) (s : list char) (i : nat) :
  length s - i <= fuel -> exists cs, chunk_loop fuel s i = Some cs.
Proof.
  revert i. induction fuel as [|fuel IH]; intros i Hf.
  - exists []. apply chunk_loop_done. lia.
  - destruct (Nat.le_gt_cases (length s) i) as [Hle|Hgt].
    + exists []. now apply chunk_loop_done.
    + rewrite chunk_loop_step by exact Hgt.
      destruct (next_end_bounds s i Hgt) as [Hlo Hhi].
      destruct (IH (next_end s i)) as [cs Hcs]; [lia|].
      rewrite Hcs. simpl. eauto.
Qed.

(** More fuel does not change a result. *)
Lemma chunk_loop_fuel (fuel fuel' : nat) (s : list char) (i : nat) (cs : list (list char)) :
  chunk_loop fuel s i = Some cs -> fuel <= fuel' -> chunk_loop fuel' s i = Some cs.
Proof.
  revert fuel' i cs. induction fuel as [|fuel IH]; intros fuel' i cs H Hle.
  - simpl in H. destruct (Nat.ltb_spec i (length s)); [discriminate|].
    injection H as <-. now apply chunk_loop_done.
  - destruct (Nat.le_gt_cases (length s) i) as [Hdone|Hgt].
    + rewrite chunk_loop_done in H by exact Hdone. injection H as <-.
      now apply chunk_loop_done.
    + destruct fuel' as [|fuel']; [lia|].
      rewrite chunk_loop_step in * by exact Hgt.
      destruct (chunk_loop fuel s (next_end s i)) as [cs'|] eqn:E; [|discriminate].
      rewrite (IH fuel' _ _ E) by lia. exact H.
Qed.

(** The chunks, put end to end, are the text from position [i] on. *)
Lemma chunk_loop_concat (fuel : nat) (s : list char) (i : nat) (cs : list (list char)) :
  chunk_loop fuel s i = Some cs -> concat cs = skipn i s.
Proof.
  revert i cs. induction fuel as [|fuel IH]; intros i cs H.
  - simpl in H. destruct (Nat.ltb_spec i (length s)); [discriminate|].
    injection H as <-. simpl. symmetry. now apply skipn_all2.
  - destruct (Nat.le_gt_cases (length s) i) as [Hdone|Hgt].
    + rewrite chunk_loop_done in H by exact Hdone. injection H as <-.
      simpl. symmetry. now apply skipn_all2.
    + rewrite chunk_loop_step in H by exact Hgt.
      destruct (chunk_loop fuel s (next_end s i)) as [cs'|] eqn:E; [|discriminate].
      injection H as <-. simpl. rewrite (IH _ _ E).
      apply slice_skipn. destruct (next_end_bounds s i Hgt). lia.
Qed.

(** No chunk is empty, none is longer than [limit]. *)
Lemma chunk_loop_sizes (fuel : nat) (s : list char) (i : nat) (cs : list (list char)) :
  chunk_loop fuel s i = Some cs ->
  Forall (fun c => 0 < length c <= limit) cs.
Proof.
  revert i cs. induction fuel as [|fuel IH]; intros i cs H.
  - simpl in H. destruct (Nat.ltb_spec i (length s)); [discriminate|].
    injection H as <-. constructor.
  - destruct (Nat.le_gt_cases (length s) i) as [Hdone|Hgt].
    + rewrite chunk_loop_done in H by exact Hdone. injection H as <-. constructor.
    + rewrite chunk_loop_step in H by exact Hgt.
      destruct (chunk_loop fuel s (next_end s i)) as [cs'|] eqn:E; [|discriminate].
      injection H as <-. constructor; [|exact (IH _ _ E)].
      destruct (next_end_bounds s i Hgt) as [Hlo Hhi].
      rewrite slice_length by lia. lia.
Qed.

(** A text without newline is cut every [limit] characters. *)
Lemma next_end_no_newline (s : list char) (i : nat) :
  i < length s -> existsb is_newline s = false ->
  next_end s i = Nat.min (i + limit) (length s).
Proof.
  intros Hi Hs.
  destruct (next_end_cases s i Hi) as (_ & Hnone & _). apply Hnone.
  destruct (existsb is_newline (window limit s i)) eqn:E; [|reflexivity].
  apply existsb_exists in E. destruct E as (c & Hin & Hc).
  assert (Hex : existsb is_newline s = true).
  { apply existsb_exists. exists c. split; [|exact Hc].
    unfold window in Hin. exact (In_slice _ _ _ _ Hin). }
  congruence.
Qed.

(** A non-empty text no longer than [limit] goes out as one message. *)
Lemma chunk_loop_short (s : list char) :
  s <> [] -> length s <= limit -> chunk_loop (length s) s 0 = Some [s].
Proof.
  intros Hne Hlen.
  assert (Hpos : 0 < length s) by (destruct s; [contradiction | simpl; lia]).
  apply (chunk_loop_fuel 1); [|lia].
  rewrite chunk_loop_step by exact Hpos.
  destruct (next_end_cases s 0 Hpos) as (_ & _ & Hshort).
  rewrite Hshort by lia.
  rewrite chunk_loop_done by lia. simpl. unfold slice.
  rewrite Nat.sub_0_r. simpl. now rewrite firstn_all.
Qed.

(** Seven thousand characters without newline, three thousand at a time. *)
Lemma chunk_loop_three_chunks (s : list char) :
  limit = 3000 -> length s = 7 * 1000 -> existsb is_newline s = false ->
  chunk_loop (length s) s 0
  = Some [slice s 0 3000; slice s 3000 (2 * 3000); slice s (2 * 3000) (length s)].
Proof.
  intros Hl Hs Hnl. apply (chunk_loop_fuel 3); [|lia].
  rewrite chunk_loop_step by lia.
  rewrite next_end_no_newline by (lia || assumption).
  replace (Nat.min (0 + limit) (length s)) with 3000 by lia.
  rewrite chunk_loop_step by lia.
  rewrite next_end_no_newline by (lia || assumption).
  replace (Nat.min (3000 + limit) (length s)) with (2 * 3000) by lia.
  rewrite chunk_loop_step by lia.
  rewrite next_end_no_newline by (lia || assumption).
  replace (Nat.min (2 * 3000 + limit) (length s)) with (length s) by lia.
  rewrite chunk_loop_done by lia. reflexivity.
Qed.

(** A stretch of the text without newline. *)
Lemma existsb_slice_false (s : list char) (a b : nat) :
  (forall k c, a <= k < b -> nth_error s k = Some c -> is_newline c = false) ->
  existsb is_newline (slice s a b) = false.
Proof.
  intro H. destruct (existsb is_newline (slice s a b)) eqn:E; [|reflexivity].
  apply existsb_exists in E. destruct E as (x & Hin & Hx).
  apply In_nth_error in Hin. destruct Hin as [t Ht].
  assert (Hlt : t < length (slice s a b))
    by (apply nth_error_Some; congruence).
  assert (Hlen : length (slice s a b) <= b - a)
    by (unfold slice; rewrite length_firstn; lia).
  rewrite slice_nth in Ht by lia.
  rewrite (H (a + t) x) in Hx; [discriminate | lia | exact Ht].
Qed.

(** The first chunk and the run that gives the others. *)
Lemma chunk_loop_nonempty (fuel : nat) (s : list char) (i : nat)
      (c : list char) (cs : list (list char)) :
  chunk_loop fuel s i = Some (c :: cs) ->
  i < length s /\ c = slice s i (next_end s i)
  /\ exists fuel', chunk_loop fuel' s (next_end s i) = Some cs.
Proof.
  destruct fuel as [|fuel].
  - simpl. destruct (i <? length s); discriminate.
  - destruct (Nat.le_gt_cases (length s) i) as [Hdone|Hgt].
    + rewrite chunk_loop_done by exact Hdone. discriminate.
    + rewrite chunk_loop_step by exact Hgt.
      destruct (chunk_loop fuel s (next_end s i)) as [cs'|] eqn:E; [|discriminate].
      intro H. injection H as <- <-. eauto.
Qed.

(** The chunk that follows the chunks [pre] starts where they end. *)
Lemma chunk_loop_split (pre : list (list char)) (c : list char)
      (post : list (list char)) (fuel : nat) (s : list char) (i : nat) :
  chunk_loop fuel s i = Some (pre ++ c :: post) ->
  let j := i + length (concat pre) in
  j < length s /\ c = slice s j (next_end s j)
  /\ exists fuel', chunk_loop fuel' s (next_end s j) = Some post.
Proof.
  revert fuel i. induction pre as [|c0 pre IH]; intros fuel i H; cbv zeta.
  - simpl concat. simpl length. rewrite Nat.add_0_r.
    now apply (chunk_loop_nonempty fuel).
  - simpl app in H.
    destruct (chunk_loop_nonempty _ _ _ _ _ H) as (Hi & Hc0 & fuel' & Hrest).
    destruct (next_end_bounds s i Hi) as [Hlo Hhi].
    assert (Hlen : length c0 = next_end s i - i)
      by (rewrite Hc0; apply slice_length; lia).
    replace (i + length (concat (c0 :: pre)))
      with (next_end s i + length (concat pre))
      by (simpl concat; rewrite length_app; lia).
    exact (IH fuel' (next_end s i) Hrest).
Qed.

(** C4.  The loop cuts every text into chunks that, in order, spell the text
    again; no chunk is longer than the limit; and every boundary between two
    chunks falls right after the last newline of the window of [limit]
    characters that starts where the chunk starts, when that window holds a
    newline (the chunk ends with a newline and the rest of the window holds
    none), and at the end of the window when it holds none (the chunk is the
    window).  Seven thousand characters without newline, with a limit of
    three thousand, go out as chunks of 3000, 3000 and 1000 characters. *)
Theorem chunks_cover_text (s : list char) :
  exists cs,
    chunk_loop (length s) s 0 = Some cs
    /\ concat cs = s
    /\ Forall (fun c => length c <= limit) cs
    /\ (forall pre c post,
          cs = pre ++ c :: post -> post <> [] ->
          let w := firstn limit (skipn (length (concat pre)) s) in
          length w = limit
          /\ (existsb is_newline w = true ->
              exists rest,
                w = c ++ rest
                /\ ends_with_newline is_newline c
                /\ existsb is_newline rest = false)
          /\ (existsb is_newline w = false -> c = w))
    /\ (limit = 3000 -> length s = 7 * 1000 -> existsb is_newline s = false ->
        map (@length char) cs = [3000; 3000; 1000]).
Proof.
  destruct (chunk_loop_total (length s) s 0) as [cs Hcs]; [lia|].
  exists cs. split; [exact Hcs|]. split; [|split; [|split]].
  - now rewrite (chunk_loop_concat _ _ _ _ Hcs).
  - eapply Forall_impl; [|exact (chunk_loop_sizes _ _ _ _ Hcs)].
    simpl. intros c Hc. lia.
  - intros pre c post -> Hpost.
    destruct (chunk_loop_split pre c post _ _ _ Hcs) as (Hj & Hc & fuel' & Hrest).
    simpl Nat.add in Hj, Hc, Hrest.
    set (j := length (concat pre)) in *.
    destruct (next_end_cases s j Hj) as (Hcut & Hnone & Hshort).
    assert (Hlong : j + limit < length s).
    { destruct (Nat.le_gt_cases (length s) (j + limit)) as [Hle|Hgt]; [|exact Hgt].
      exfalso. rewrite (Hshort Hle), chunk_loop_done in Hrest by lia.
      injection Hrest as <-. now apply Hpost. }
    assert (Hw : window limit s j = firstn limit (skipn j s)).
    { unfold window, slice.
      now replace (Nat.min (j + limit) (length s) - j) with limit by lia. }
    cbv zeta. rewrite <- Hw. split; [|split].
    + unfold window. rewrite slice_length by lia. lia.
    + intro Hex.
      destruct (Hcut Hlong Hex) as (k & ch & Hk & Hjk & Hnth & Hnl & Hafter).
      exists (slice s (S k) (j + limit)). split; [|split].
      * rewrite Hc, Hk. unfold window.
        replace (Nat.min (j + limit) (length s)) with (j + limit) by lia.
        symmetry. apply slice_app; lia.
      * exists (slice s j k), ch. split; [|exact Hnl].
        rewrite Hc, Hk. apply slice_snoc; [lia | exact Hnth].
      * apply existsb_slice_false. intros k' c' Hk' Hn.
        apply (Hafter k' c'); [lia | exact Hn].
    + intro Hno. rewrite Hc, (Hnone Hno). reflexivity.
  - intros Hl Hs Hnl.
    rewrite (chunk_loop_three_chunks s Hl Hs Hnl) in Hcs.
    injection Hcs as <-. simpl.
    rewrite !slice_length by lia. repeat f_equal; lia.
Qed.

(** C5 (as amended).  The loop ends on every text: each pass leaves
    [end_index] strictly above the position [i] it started from, so
    [length s] passes are enough and further fuel changes nothing; a
    non-empty text no longer than the limit is sent as one chunk, and the
    empty text as none. *)
Theorem chunking_terminates (s : list char) :
  (forall i, i < length s -> i < next_end s i)
  /\ (exists cs, forall fuel, length s <= fuel -> chunk_loop fuel s 0 = Some cs)
  /\ (s <> [] -> length s <= limit -> chunk_loop (length s) s 0 = Some [s])
  /\ (s = [] -> chunk_loop (length s) s 0 = Some []).
Proof.
  split; [|split; [|split]].
  - intros i Hi. now destruct (next_end_bounds s i Hi).
  - destruct (chunk_loop_total (length s) s 0) as [cs Hcs]; [lia|].
    exists cs. intros fuel Hf. now apply (chunk_loop_fuel (length s)).
  - apply chunk_loop_short.
  - intros ->. reflexivity.
Qed.

End LoopFacts.

Lemma chunks_cover_text_witness :
  0 < 8
  /\ exists cs,
       chunk_loop ascii_newline 8 (length short_lines) short_lines 0 = Some cs
       /\ length cs = 2
       /\ concat cs = short_lines
       /\ forall pre c post,
            cs = pre ++ c :: post -> post <> [] ->
            let w := firstn 8 (skipn (length (concat pre)) short_lines) in
            length w = 8
            /\ (existsb ascii_newline w = true ->
                exists rest,
                  w = c ++ rest
                  /\ ends_with_newline ascii_newline c
                  /\ existsb ascii_newline rest = false)
            /\ (existsb ascii_newline w = false -> c = w).
Proof.
  assert (H : 0 < 8) by lia.
  split; [exact H|].
  destruct (chunks_cover_text ascii_newline 8 H short_lines)
    as (cs & Hcs & Hcat & _ & Hcut & _).
  exists cs. split; [exact Hcs|]. split; [|split; [exact Hcat | exact Hcut]].
  assert (E : chunk_loop ascii_newline 8 (length short_lines) short_lines 0
              = Some [list_ascii_of_string "one" ++ [ascii_of_nat 10]
                        ++ list_ascii_of_string "two" ++ [ascii_of_nat 10];
                      list_ascii_of_string "three" ++ [ascii_of_nat 10]])
    by (vm_compute; reflexivity).
  rewrite E in Hcs. injection Hcs as <-. reflexivity.
Defined.

Lemma chunking_terminates_witness :
  0 < SLACK_MESSAGE_LIMIT
  /\ exists cs, forall fuel,
       length sample_text <= fuel ->
       chunk_loop ascii_newline SLACK_MESSAGE_LIMIT fuel sample_text 0 = Some cs.
Proof.
  assert (H : 0 < SLACK_MESSAGE_LIMIT) by (unfold SLACK_MESSAGE_LIMIT; lia).
  split; [exact H|].
  exact (proj1 (proj2 (chunking_terminates ascii_newline SLACK_MESSAGE_LIMIT H sample_text))).
Defined.

(** The chunks of the seven-thousand-character text, computed. *)
Example seven_thousand_chars :
  option_map (map (@length ascii))
    (chunk_loop ascii_newline SLACK_MESSAGE_LIMIT (7 * 1000)
       (repeat "a"%char (7 * 1000)) 0)
  = Some [3000; 3000; 1000].
Proof. vm_compute. reflexivity. Qed.

(** C5, as stated, fails: the empty text is no longer than the limit, and the
    loop sends no chunk for it, not one. *)
Lemma empty_text_no_chunk :
  length (@nil ascii) <= SLACK_MESSAGE_LIMIT
  /\ (forall fuel, chunk_loop ascii_newline SLACK_MESSAGE_LIMIT fuel [] 0 = Some [])
  /\ ~ (exists fuel c, chunk_loop ascii_newline SLACK_MESSAGE_LIMIT fuel [] 0 = Some [c]).
Proof.
  split; [simpl; lia|]. split.
  - intros [|fuel]; reflexivity.
  - intros (fuel & c & H). destruct fuel; discriminate.
Qed.

End ChunkerFacts.

(** ** The report lines *)
Module ReportFacts.
Import Py Utils Json Report Samples PyFacts UtilsFacts.
Local Open Scope string_scope.

Section RenderFacts.
Context {B : Builtins} {En : Enums}.

(** The test "falsy and not equal to 0" singles out [None]. *)
Lemma no_data_test (v : option pynum) :
  falsy v && ne_zero v = true <-> v = None.
Proof.
  destruct v as [x|]; simpl.
  - rewrite num_truthy_ne. destruct (py_ne x (PInt 0)); simpl;
      split; discriminate.
  - split; reflexivity.
Qed.

Lemma no_data_test_number (x : pynum) : falsy (Some x) && ne_zero (Some x) = false.
Proof.
  simpl. rewrite num_truthy_ne. now destruct (py_ne x (PInt 0)).
Qed.

Lemma compare_str_cases (value pv : option pynum) :
  compare_str value pv
  = match pv with
    | None => Ok (Some no_previous)
    | Some p => format_percentage_change value (Some p)
    end.
Proof.
  unfold compare_str. destruct pv as [p|]; [|reflexivity].
  now rewrite no_data_test_number.
Qed.

(** The inner loop over two stretches of metrics, one after the other. *)
Lemma metric_lines_app (prev : ReportMetrics) (c : MetricCategory)
      (ms1 ms2 : list (MetricsName * option pynum)) :
  metric_lines prev c (ms1 ++ ms2)
  = (let* a := metric_lines prev c ms1 in
     let* b := metric_lines prev c ms2 in
     Ok (a ++ b)).
Proof.
  induction ms1 as [|[n v] ms1 IH]; simpl.
  - now destruct (metric_lines prev c ms2).
  - destruct (metric_line prev c n v) as [line|e]; simpl; [|reflexivity].
    rewrite IH.
    destruct (metric_lines prev c ms1) as [a|e]; simpl; [|reflexivity].
    destruct (metric_lines prev c ms2) as [b|e]; simpl; [|reflexivity].
    now rewrite string_app_assoc.
Qed.

(** The outer loop over two stretches of categories. *)
Lemma category_blocks_app (prev : ReportMetrics)
      (cs1 cs2 : list (MetricCategory * MetricsData)) :
  category_blocks prev (cs1 ++ cs2)
  = (let* a := category_blocks prev cs1 in
     let* b := category_blocks prev cs2 in
     Ok (a ++ b)).
Proof.
  induction cs1 as [|[c d] cs1 IH]; simpl.
  - now destruct (category_blocks prev cs2).
  - destruct (metric_lines prev c (metrics d)) as [lines|e]; simpl; [|reflexivity].
    rewrite IH.
    destruct (category_blocks prev cs1) as [a|e]; simpl; [|reflexivity].
    destruct (category_blocks prev cs2) as [b|e]; simpl; [|reflexivity].
    now rewrite !string_app_assoc.
Qed.

(** The message around one metric: what was built up to it, its line, what
    the rest of its category adds, and what the later categories add. *)
Lemma message_around_metric
      (prev : ReportMetrics)
      (cs1 : list (MetricCategory * MetricsData)) (c : MetricCategory)
      (ms1 : list (MetricsName * option pynum)) (n : MetricsName)
      (v : option pynum) (ms2 : list (MetricsName * option pynum))
      (cs2 : list (MetricCategory * MetricsData))
      (pre line rest later : string) :
  build_analytics_message {| data := cs1 ++ [(c, {| metrics := ms1 |})] |} prev
  = Ok pre ->
  metric_line prev c n v = Ok line ->
  metric_lines prev c ms2 = Ok rest ->
  category_blocks prev cs2 = Ok later ->
  build_analytics_message
    {| data := cs1 ++ (c, {| metrics := ms1 ++ (n, v) :: ms2 |}) :: cs2 |} prev
  = Ok (pre ++ line ++ rest ++ later).
Proof.
  unfold build_analytics_message. simpl data.
  intros Hpre Hline Hrest Hlater.
  rewrite category_blocks_app in *.
  destruct (category_blocks prev cs1) as [a|e]; simpl in *; [|discriminate].
  rewrite metric_lines_app. simpl metrics in *.
  destruct (metric_lines prev c ms1) as [l1|e]; simpl in *; [|discriminate].
  rewrite Hline, Hrest, Hlater. simpl.
  injection Hpre as <-. f_equal.
  rewrite !string_app_assoc. simpl.
  now rewrite !string_app_assoc, string_app_nil_r.
Qed.

(** The line of a metric whose current value is [None]. *)
Lemma metric_line_none (prev : ReportMetrics) (c : MetricCategory) (n : MetricsName) :
  metric_line prev c n None = Ok (no_data_line n).
Proof. reflexivity. Qed.

(** The line of a metric whose current value is a number. *)
Lemma metric_line_number (prev : ReportMetrics) (c : MetricCategory)
      (n : MetricsName) (x : pynum) :
  metric_line prev c n (Some x)
  = (let* cmp := compare_str (Some x) (prev_value prev c n) in
     let* shown := rendered_value n (Some x) in
     Ok (value_line n shown cmp)).
Proof. unfold metric_line. now rewrite no_data_test_number. Qed.

(** With a current value of 0 neither the comparison nor the rendering of
    the value can raise: the comparison is [None] or the "no previous data"
    text, and a duration of 0 is rendered as [None]. *)
Lemma zero_parts (prev : ReportMetrics) (c : MetricCategory) (n : MetricsName)
      (x : pynum) :
  py_eq x (PInt 0) = true ->
  compare_str (Some x) (prev_value prev c n)
  = Ok (match prev_value prev c n with
        | None => Some no_previous
        | Some _ => None
        end)
  /\ rendered_value n (Some x)
     = Ok (if name_eqb n total_video_duration then "None" else str_of_num x).
Proof.
  intro Hx. pose proof (zero_is_falsy x Hx) as Hf. split.
  - rewrite compare_str_cases.
    destruct (prev_value prev c n) as [p|]; [|reflexivity].
    unfold format_percentage_change. now rewrite Hf.
  - unfold rendered_value. destruct (name_eqb n total_video_duration); [|reflexivity].
    unfold seconds_to_readable_time. now rewrite Hf.
Qed.

(** C9.  In the message [build_analytics_message] returns, a metric whose
    current value is [None] (falsy and not 0) contributes the "No data found"
    line; a metric whose current value is 0 contributes a value line, holding
    the rendered value and the comparison; and a metric for which the
    comparison period has nothing (its value there is falsy and not 0: the
    category or the metric is missing, or the value is [None]) gets the
    comparison "(No data for previous period)".  The line stands between
    what the message held before the metric and what the later metrics and
    categories add. *)
Theorem zero_is_data_none_is_not
        (prev : ReportMetrics)
        (cs1 : list (MetricCategory * MetricsData)) (c : MetricCategory)
        (ms1 : list (MetricsName * option pynum)) (n : MetricsName)
        (v : option pynum) (ms2 : list (MetricsName * option pynum))
        (cs2 : list (MetricCategory * MetricsData))
        (pre rest later : string) :
  build_analytics_message {| data := cs1 ++ [(c, {| metrics := ms1 |})] |} prev
  = Ok pre ->
  metric_lines prev c ms2 = Ok rest ->
  category_blocks prev cs2 = Ok later ->
  let whole :=
    {| data := cs1 ++ (c, {| metrics := ms1 ++ (n, v) :: ms2 |}) :: cs2 |} in
  (falsy v && ne_zero v = true <-> v = None)
  /\ (v = None ->
      build_analytics_message whole prev
      = Ok (pre
              ++ (newline ++ ">f" ++ whitespace ++ "- *" ++ name_str n
                    ++ ":* No data found")
              ++ rest ++ later))
  /\ (forall x, v = Some x -> py_eq x (PInt 0) = true ->
      exists shown cmp,
        rendered_value n v = Ok shown
        /\ compare_str v (prev_value prev c n) = Ok cmp
        /\ build_analytics_message whole prev
           = Ok (pre
                   ++ (newline ++ ">" ++ indent n ++ "- *" ++ name_str n
                         ++ ":* " ++ shown ++ " " ++ str_of_opt cmp)
                   ++ rest ++ later))
  /\ (forall x shown, v = Some x ->
      prev_value prev c n = None ->
      rendered_value n v = Ok shown ->
      build_analytics_message whole prev
      = Ok (pre
              ++ (newline ++ ">" ++ indent n ++ "- *" ++ name_str n
                    ++ ":* " ++ shown ++ " " ++ "(No data for previous period)")
              ++ rest ++ later)).
Proof.
  intros Hpre Hrest Hlater whole. unfold whole.
  split; [apply no_data_test|]. split; [|split].
  - intros ->.
    exact (message_around_metric prev cs1 c ms1 n None ms2 cs2 _ _ _ _
             Hpre (metric_line_none prev c n) Hrest Hlater).
  - intros x -> Hx.
    destruct (zero_parts prev c n x Hx) as [Hcmp Hshown].
    eexists. eexists. split; [exact Hshown|]. split; [exact Hcmp|].
    apply (message_around_metric prev cs1 c ms1 n (Some x) ms2 cs2 _ _ _ _
             Hpre); [|exact Hrest | exact Hlater].
    rewrite metric_line_number, Hcmp, Hshown. reflexivity.
  - intros x shown -> Hprev Hshown.
    apply (message_around_metric prev cs1 c ms1 n (Some x) ms2 cs2 _ _ _ _
             Hpre); [|exact Hrest | exact Hlater].
    rewrite metric_line_number, compare_str_cases, Hprev. simpl rbind.
    rewrite Hshown. reflexivity.
Qed.

(** C10.  In the message [build_analytics_message] returns, a metric whose
    current value is truthy and whose value in the comparison period is 0
    contributes a line that ends with the text "None": the comparison is the
    [None] that [format_percentage_change] answers, no percentage and no 100%
    marker. *)
Theorem zero_previous_prints_None
        (prev : ReportMetrics)
        (cs1 : list (MetricCategory * MetricsData)) (c : MetricCategory)
        (ms1 : list (MetricsName * option pynum)) (n : MetricsName)
        (v : option pynum) (ms2 : list (MetricsName * option pynum))
        (cs2 : list (MetricCategory * MetricsData))
        (pre rest later shown : string) (p : pynum) :
  build_analytics_message {| data := cs1 ++ [(c, {| metrics := ms1 |})] |} prev
  = Ok pre ->
  metric_lines prev c ms2 = Ok rest ->
  category_blocks prev cs2 = Ok later ->
  falsy v = false ->
  prev_value prev c n = Some p ->
  py_eq p (PInt 0) = true ->
  rendered_value n v = Ok shown ->
  compare_str v (Some p) = Ok None
  /\ build_analytics_message
       {| data := cs1 ++ (c, {| metrics := ms1 ++ (n, v) :: ms2 |}) :: cs2 |} prev
     = Ok (pre
             ++ (newline ++ ">" ++ indent n ++ "- *" ++ name_str n
                   ++ ":* " ++ shown ++ " " ++ "None")
             ++ rest ++ later).
Proof.
  intros Hpre Hrest Hlater Hv Hp Hz Hshown.
  assert (Hc : compare_str v (Some p) = Ok None).
  { rewrite compare_str_cases.
    now apply format_percentage_change_prior_zero. }
  split; [exact Hc|].
  apply (message_around_metric prev cs1 c ms1 n v ms2 cs2 _ _ _ _ Hpre);
    [|exact Hrest | exact Hlater].
  unfold metric_line. rewrite Hv. simpl andb. cbv iota zeta.
  rewrite Hp, Hc. simpl rbind. rewrite Hshown. reflexivity.
Qed.

End RenderFacts.

Lemma zero_is_data_none_is_not_witness :
  build_analytics_message
    {| data := [] ++ [("Exports", {| metrics := [("Total exports", Some (PInt 5))] |})] |}
    sample_previous
  = Ok (newline ++ ">*Exports:*" ++ newline ++ ">          - *Total exports:* 5 None")
  /\ build_analytics_message
       {| data := [] ++ ("Exports",
                         {| metrics := [("Total exports", Some (PInt 5))]
                                         ++ ("Adobe exports", None) :: [] |}) :: [] |}
       sample_previous
     = Ok ((newline ++ ">*Exports:*" ++ newline
              ++ ">          - *Total exports:* 5 None")
             ++ (newline ++ ">f" ++ whitespace ++ "- *" ++ "Adobe exports"
                   ++ ":* No data found")
             ++ "" ++ "").
Proof.
  assert (H1 : build_analytics_message
                 {| data := [] ++ [("Exports",
                                    {| metrics := [("Total exports", Some (PInt 5))] |})] |}
                 sample_previous
               = Ok (newline ++ ">*Exports:*" ++ newline
                       ++ ">          - *Total exports:* 5 None"))
    by (vm_compute; reflexivity).
  split; [exact H1|].
  exact (proj1 (proj2 (zero_is_data_none_is_not sample_previous [] "Exports"
                         [("Total exports", Some (PInt 5))] "Adobe exports" None
                         [] [] _ "" "" H1 eq_refl eq_refl))
           eq_refl).
Defined.

Lemma zero_previous_prints_None_witness :
  falsy (Some (PInt 5)) = false
  /\ prev_value sample_previous "Exports" "Total exports" = Some (PInt 0)
  /\ py_eq (PInt 0) (PInt 0) = true
  /\ build_analytics_message
       {| data := [] ++ ("Exports",
                         {| metrics := [] ++ ("Total exports", Some (PInt 5)) :: [] |})
                    :: [] |}
       sample_previous
     = Ok ((newline ++ ">*Exports:*")
             ++ (newline ++ ">" ++ indent "Total exports" ++ "- *" ++ "Total exports"
                   ++ ":* " ++ "5" ++ " " ++ "None")
             ++ "" ++ "").
Proof.
  assert (H0 : build_analytics_message
                 {| data := [] ++ [("Exports", {| metrics := [] |})] |} sample_previous
               = Ok (newline ++ ">*Exports:*")) by reflexivity.
  assert (H1 : falsy (Some (PInt 5)) = false) by reflexivity.
  assert (H2 : prev_value sample_previous "Exports" "Total exports" = Some (PInt 0))
    by reflexivity.
  assert (H3 : py_eq (PInt 0) (PInt 0) = true) by reflexivity.
  split; [exact H1|]. split; [exact H2|]. split; [exact H3|].
  exact (proj2 (zero_previous_prints_None sample_previous [] "Exports" []
                  "Total exports" (Some (PInt 5)) [] [] _ "" "" "5" (PInt 0)
                  H0 eq_refl eq_refl H1 H2 H3 eq_refl)).
Defined.

(** A whole message, computed: a zero, a missing value, a zero in the
    comparison period and a metric the comparison period lacks. *)
Example build_analytics_message_sample :
  build_analytics_message
    {| data := [("Exports",
                 {| metrics := [("Total exports", Some (PInt 5));
                                ("Adobe exports", Some (PInt 0));
                                ("Resolve exports", None);
                                ("FCP exports", Some (PInt 3))] |})] |}
    {| data := [("Exports",
                 {| metrics := [("Total exports", Some (PInt 0));
                                ("Adobe exports", Some (PInt 2));
                                ("Resolve exports", Some (PInt 1))] |})] |}
  = Ok (newline ++ ">*Exports:*"
          ++ newline ++ ">          - *Total exports:* 5 None"
          ++ newline ++ ">          - *Adobe exports:* 0 None"
          ++ newline ++ ">f          - *Resolve exports:* No data found"
          ++ newline ++ ">          - *FCP exports:* 3 (No data for previous period)").
Proof. vm_compute. reflexivity. Qed.

(** A duration that is not a number stops the whole message. *)
Example build_analytics_message_nan :
  build_analytics_message
    {| data := [("Usage",
                 {| metrics := [("Total video duration", Some (PFloat S754_nan))] |})] |}
    {| data := [] |}
  = Raise ValueError.
Proof. vm_compute. reflexivity. Qed.

End ReportFacts.


(** ** Python dictionaries and the printing/raising computations *)
Module DictFacts.
Import Py Json Aggregator.

Ltac key_cases :=
  simpl; try discriminate; try reflexivity;
  try (intros; repeat match goal with
                      | H : String.eqb _ _ = true |- _ => apply String.eqb_eq in H
                      | H : Z.eqb _ _ = true |- _ => apply Z.eqb_eq in H
                      end;
       subst; try (apply String.eqb_eq); try (apply Z.eqb_eq); congruence).

Lemma key_eqb_refl (k : json) : hashable k = true -> key_eqb k k = true.
Proof.
  destruct k; simpl; try discriminate; intros _;
    try reflexivity; try apply Z.eqb_refl; try apply String.eqb_refl.
Qed.

Lemma key_eqb_sym (a b : json) : key_eqb a b = key_eqb b a.
Proof.
  destruct a, b; simpl; try reflexivity;
    try apply Z.eqb_sym; try apply String.eqb_sym.
Qed.

Lemma key_eqb_trans (a b c : json) :
  key_eqb a b = true -> key_eqb b c = true -> key_eqb a c = true.
Proof. destruct a, b, c; key_cases. Qed.

(** A key that equals something can be hashed. *)
Lemma key_eqb_hashable (a b : json) : key_eqb a b = true -> hashable a = true.
Proof. destruct a, b; simpl; try discriminate; reflexivity. Qed.

(** Equal keys compare alike with every third key. *)
Lemma key_eqb_congr (a b c : json) :
  key_eqb a b = true -> key_eqb a c = key_eqb b c.
Proof.
  intro Hab.
  destruct (key_eqb a c) eqn:Hac, (key_eqb b c) eqn:Hbc; try reflexivity.
  - rewrite key_eqb_sym in Hab.
    rewrite (key_eqb_trans _ _ _ Hab Hac) in Hbc. discriminate.
  - rewrite (key_eqb_trans _ _ _ Hab Hbc) in Hac. discriminate.
Qed.

Lemma key_eqb_congr_r (a b c : json) :
  key_eqb a b = true -> key_eqb c a = key_eqb c b.
Proof.
  intro Hab. rewrite (key_eqb_sym c a), (key_eqb_sym c b).
  now apply key_eqb_congr.
Qed.

Section Dict.
Context {V : Type}.

Lemma dict_lookup_congr (k k' : json) (d : pydict V) :
  key_eqb k k' = true -> dict_lookup k d = dict_lookup k' d.
Proof.
  intro H. induction d as [|[k0 v0] t IH]; simpl; [reflexivity|].
  rewrite (key_eqb_congr_r _ _ k0 H). now rewrite IH.
Qed.

Lemma dict_lookup_store_same (k : json) (v : V) (d : pydict V) :
  hashable k = true -> dict_lookup k (dict_store k v d) = Some v.
Proof.
  intro Hk. induction d as [|[k0 v0] t IH]; simpl.
  - now rewrite key_eqb_refl.
  - destruct (key_eqb k0 k) eqn:E; simpl; rewrite E; [reflexivity | exact IH].
Qed.

Lemma dict_lookup_store_other (k k' : json) (v : V) (d : pydict V) :
  key_eqb k k' = false -> dict_lookup k' (dict_store k v d) = dict_lookup k' d.
Proof.
  intro Hk. induction d as [|[k0 v0] t IH]; simpl.
  - now rewrite Hk.
  - destruct (key_eqb k0 k) eqn:E; simpl.
    + rewrite (key_eqb_congr _ _ k' E), Hk. reflexivity.
    + destruct (key_eqb k0 k'); [reflexivity | exact IH].
Qed.

(** What a store leaves in the dictionary: the old bindings, and the new
    value under a key equal to the one stored. *)
Lemma dict_store_entries (k : json) (v : V) (d : pydict V) (k0 : json) (v0 : V) :
  hashable k = true ->
  In (k0, v0) (dict_store k v d) ->
  In (k0, v0) d \/ (v0 = v /\ key_eqb k0 k = true).
Proof.
  intros Hk. induction d as [|[k1 v1] t IH]; simpl.
  - intros [H|[]]. injection H as <- <-. right. split; [reflexivity|].
    now apply key_eqb_refl.
  - destruct (key_eqb k1 k) eqn:E; simpl.
    + intros [H|H]; [|left; now right].
      injection H as <- <-. right. split; [reflexivity | exact E].
    + intros [H|H]; [left; now left|].
      destruct (IH H) as [H'|H']; [left; now right | now right].
Qed.

(** Looking a key up finds a binding of the dictionary under an equal key. *)
Lemma dict_lookup_In (k : json) (d : pydict V) (v : V) :
  dict_lookup k d = Some v -> exists k0, In (k0, v) d /\ key_eqb k0 k = true.
Proof.
  induction d as [|[k1 v1] t IH]; simpl; [discriminate|].
  destruct (key_eqb k1 k) eqn:E.
  - intro H. injection H as <-. exists k1. split; [now left | exact E].
  - intro H. destruct (IH H) as (k0 & Hin & Hk0). exists k0. split; [now right | exact Hk0].
Qed.

Lemma dict_lookup_none (k : json) (d : pydict V) :
  dict_lookup k d = None -> forall k0 v, In (k0, v) d -> key_eqb k0 k = false.
Proof.
  induction d as [|[k1 v1] t IH]; simpl; [intros _ k0 v []|].
  destruct (key_eqb k1 k) eqn:E; [discriminate|].
  intros H k0 v [Hin|Hin].
  - injection Hin as <- <-. exact E.
  - exact (IH H k0 v Hin).
Qed.

End Dict.

(** The laws of the printing/raising computations that the proofs use. *)
Lemma bind_ok {A C} (m : M A) (f : A -> M C) (l : list log_line) (c : C) :
  bind m f = (l, Ok c) ->
  exists l1 a l2, m = (l1, Ok a) /\ f a = (l2, Ok c) /\ l = (l1 ++ l2)%list.
Proof.
  unfold bind. destruct m as [l1 [a|e]]; [|discriminate].
  destruct (f a) as [l2 r] eqn:E. intro H. injection H as <- ->.
  exists l1, a, l2. auto.
Qed.

Lemma bind_assoc {A C D} (m : M A) (f : A -> M C) (g : C -> M D) :
  bind (bind m f) g = bind m (fun a => bind (f a) g).
Proof.
  unfold bind. destruct m as [l1 [a|e]]; [|reflexivity].
  destruct (f a) as [l2 [c|e]]; [|reflexivity].
  destruct (g c) as [l3 r]. now rewrite app_assoc.
Qed.

Lemma bind_ret_l {A C} (a : A) (f : A -> M C) : bind (ret a) f = f a.
Proof. unfold bind, ret. now destruct (f a). Qed.

Lemma bind_ret_r {A} (m : M A) : bind m ret = m.
Proof.
  unfold bind, ret. destruct m as [l [a|e]]; [|reflexivity].
  now rewrite app_nil_r.
Qed.

Lemma lift_ok {A} (r : result A) (l : list log_line) (a : A) :
  lift r = (l, Ok a) -> r = Ok a /\ l = [].
Proof. unfold lift. intro H. injection H as <- ->. auto. Qed.

End DictFacts.


(** ** The export aggregation *)
Module AggregatorFacts.
Import Py Utils Json Aggregator AggregatorNotions Samples DictFacts.
Local Open Scope string_scope.

Section EventFacts.
Context {B : Builtins} {E : AmplitudeEvents}.


(** What [handle_export_event] has done when it returns. *)
Lemma handle_export_event_inv (e : obj) (ua : UserActivity)
      (l : list log_line) (r : option ProjectInfo) :
  handle_export_event e ua = (l, Ok r) ->
  exists props fi,
    get "event_properties" e = JObj props
    /\ project_files_info props = (l, Ok fi)
    /\ ((recognized e = false /\ r = None)
        \/ (recognized e = true
            /\ hashable (get "projectId" props) = true
            /\ exists p,
                r = Some p /\ file_info p = fi
                /\ project_id p
                   = match dict_lookup (get "projectId" props) (projects ua) with
                     | Some old => project_id old
                     | None => get "projectId" props
                     end)).
Proof.
  unfold handle_export_event, recognized.
  destruct (get "event_properties" e) as [| | | | |props]; try discriminate.
  intro H. apply bind_ok in H. destruct H as (l1 & fi & l2 & Hpfi & Hrest & ->).
  exists props, fi. split; [reflexivity|].
  destruct (hashable (get "event_type" e)); simpl in Hrest; [|discriminate].
  destruct (is_prompt_event (get "event_type" e)) eqn:Hp; simpl.
  - apply bind_ok in Hrest. destruct Hrest as (la & ex & lb & Hget & Hret & ->).
    apply lift_ok in Hget. destruct Hget as [Hget ->].
    unfold dict_get in Hget.
    destruct (hashable (get "projectId" props)) eqn:Hh; [|discriminate].
    injection Hget as <-.
    destruct (dict_lookup (get "projectId" props) (projects ua)) as [old|];
      injection Hret as <- <-; rewrite !app_nil_r;
      (split; [exact Hpfi|]); right; repeat split; eexists; repeat split.
  - destruct (is_export_event (get "event_type" e)) eqn:He; simpl.
    + apply bind_ok in Hrest. destruct Hrest as (la & rd & lb & Hdur & Hrest & ->).
      apply lift_ok in Hdur. destruct Hdur as [_ ->].
      apply bind_ok in Hrest. destruct Hrest as (lc & ex & ld & Hget & Hret & ->).
      apply lift_ok in Hget. destruct Hget as [Hget ->].
      unfold dict_get in Hget.
      destruct (hashable (get "projectId" props)) eqn:Hh; [|discriminate].
      injection Hget as <-.
      destruct (dict_lookup (get "projectId" props) (projects ua)) as [old|];
        injection Hret as <- <-; rewrite !app_nil_r;
        (split; [exact Hpfi|]); right; repeat split; eexists; repeat split.
    + injection Hrest as <- <-. rewrite app_nil_r.
      split; [exact Hpfi|]. left. auto.
Qed.


(** What one pass of the loop has done when it returns. *)
Lemma process_event_inv (i : nat) (e : obj) (st st' : UserActivityStore)
      (l : list log_line) :
  process_event i e st = (l, Ok st') ->
  (is_event e && recognized e = false /\ st' = st)
  \/ (is_event e = true /\ recognized e = true
      /\ exists p props,
          let ua := activity_of st (identity_key i e) in
          hashable (identity_key i e) = true
          /\ get "event_properties" e = JObj props
          /\ hashable (get "projectId" props) = true
          /\ project_files_info props = (l, Ok (file_info p))
          /\ project_id p
             = match dict_lookup (get "projectId" props) (projects ua) with
               | Some old => project_id old
               | None => get "projectId" props
               end
          /\ hashable (project_id p) = true
          /\ hashable (email ua) = true
          /\ st' = dict_store (email ua)
                     {| email := email ua;
                        projects := dict_store (project_id p) p (projects ua) |}
                     st).
Proof.
  unfold process_event, is_event.
  destruct (is_str (get "data_type" e) "event") eqn:Hev; simpl negb; cbv iota.
  2:{ intro H. injection H as <- <-. left. auto. }
  intro H. apply bind_ok in H. destruct H as (l1 & ua & l2 & Hget & H & ->).
  apply lift_ok in Hget. destruct Hget as [Hget ->].
  unfold get_activity, dict_get in Hget.
  destruct (hashable (identity_key i e)) eqn:Hid; [|discriminate].
  simpl in Hget.
  assert (Hua : ua = activity_of st (identity_key i e)).
  { unfold activity_of.
    destruct (dict_lookup (identity_key i e) st); now injection Hget as <-. }
  clear Hget.
  apply bind_ok in H. destruct H as (l3 & r & l4 & Hh & H & ->).
  destruct (handle_export_event_inv _ _ _ _ Hh)
    as (props & fi & Hprops & Hpfi & [[Hrec ->] | (Hrec & Hpid & p & -> & Hfi & Hpidp)]).
  - injection H as <- <-. left. rewrite Hrec. auto.
  - right. split; [reflexivity|]. split; [exact Hrec|].
    apply bind_ok in H. destruct H as (l5 & ua' & l6 & Hadd & Hstore & ->).
    apply lift_ok in Hadd. destruct Hadd as [Hadd ->].
    apply lift_ok in Hstore. destruct Hstore as [Hstore ->].
    unfold add_project, dict_set in Hadd.
    destruct (hashable (project_id p)) eqn:Hhp; [|discriminate].
    simpl in Hadd. injection Hadd as <-.
    unfold add_activity, dict_set in Hstore. simpl in Hstore.
    destruct (hashable (email ua)) eqn:Hhe; [|discriminate].
    injection Hstore as <-.
    exists p, props. cbv zeta. rewrite <- Hua, Hfi.
    simpl. rewrite !app_nil_r. repeat split; assumption.
Qed.

(** The activity a pass works on is filed, if at all, under a key equal to
    the identity, and its projects are in order. *)
Lemma activity_of_ok (st : UserActivityStore) (k : json) :
  store_ok st -> hashable k = true ->
  key_eqb (email (activity_of st k)) k = true
  /\ projects_ok (activity_of st k).
Proof.
  intros Hst Hk. unfold activity_of.
  destruct (dict_lookup k st) as [ua|] eqn:El.
  - destruct (dict_lookup_In _ _ _ El) as (k0 & Hin & Hk0).
    destruct (Hst _ _ Hin) as [Hem Hpr]. split; [|exact Hpr].
    rewrite key_eqb_sym in Hem. exact (key_eqb_trans _ _ _ Hem Hk0).
  - simpl. split; [now apply key_eqb_refl | intros k0 p []].
Qed.

(** The id of the project a pass files equals the [projectId] of the event. *)
Lemma filed_project_id (ua : UserActivity) (pid : json) (p : ProjectInfo) :
  projects_ok ua -> hashable pid = true ->
  project_id p
  = match dict_lookup pid (projects ua) with
    | Some old => project_id old
    | None => pid
    end ->
  key_eqb (project_id p) pid = true.
Proof.
  intros Hpr Hh Hp. rewrite Hp.
  destruct (dict_lookup pid (projects ua)) as [old|] eqn:El.
  - destruct (dict_lookup_In _ _ _ El) as (k0 & Hin & Hk0).
    pose proof (Hpr _ _ Hin) as Hk. rewrite key_eqb_sym in Hk.
    exact (key_eqb_trans _ _ _ Hk Hk0).
  - now apply key_eqb_refl.
Qed.

Lemma process_event_store_ok (i : nat) (e : obj) (st st' : UserActivityStore)
      (l : list log_line) :
  store_ok st -> process_event i e st = (l, Ok st') -> store_ok st'.
Proof.
  intros Hst H.
  destruct (process_event_inv _ _ _ _ _ H)
    as [[_ ->] | (_ & _ & p & props & Hid & _ & Hpid & _ & Hp & Hhp & Hhe & ->)];
    [exact Hst|].
  destruct (activity_of_ok st _ Hst Hid) as [Hem Hpr].
  intros k ua Hin.
  destruct (dict_store_entries _ _ _ _ _ Hhe Hin) as [Hold | [-> Hk]].
  - exact (Hst _ _ Hold).
  - simpl. split; [exact Hk|].
    intros k1 p1 Hin1. simpl in Hin1.
    destruct (dict_store_entries _ _ _ _ _ Hhp Hin1) as [Hold | [-> Hk1]].
    + exact (Hpr _ _ Hold).
    + exact Hk1.
Qed.

(** The identities in the store after a pass: the ones before, and the
    identity of the record if it is a recognized event. *)
Lemma process_event_keys (i : nat) (e : obj) (st st' : UserActivityStore)
      (l : list log_line) (k : json) :
  store_ok st -> process_event i e st = (l, Ok st') ->
  ((exists ua, dict_lookup k st' = Some ua)
   <-> (is_event e && recognized e && key_eqb (identity_key i e) k = true
        \/ exists ua, dict_lookup k st = Some ua)).
Proof.
  intros Hst H.
  destruct (process_event_inv _ _ _ _ _ H)
    as [[Hno ->] | (Hev & Hrec & p & props & Hid & _ & _ & _ & _ & _ & Hhe & ->)].
  - rewrite Hno. simpl. split; [auto | intros [Hf|Hx]; [discriminate | exact Hx]].
  - rewrite Hev, Hrec. simpl.
    destruct (activity_of_ok st _ Hst Hid) as [Hem _].
    set (ua := activity_of st (identity_key i e)) in *.
    rewrite <- (key_eqb_congr _ _ k Hem).
    destruct (key_eqb (email ua) k) eqn:Ek.
    + rewrite <- (dict_lookup_congr _ _ _ Ek).
      rewrite dict_lookup_store_same by exact Hhe.
      split; [auto | eauto].
    + rewrite dict_lookup_store_other by exact Ek.
      split; [auto | intros [Hf|Hx]; [discriminate | exact Hx]].
Qed.

(** The project filed for an identity and a project id after a pass: the one
    the event produced if the event touches them, else the one before. *)
Lemma process_event_project (i : nat) (e : obj) (st st' : UserActivityStore)
      (l : list log_line) (k pid : json) :
  store_ok st -> process_event i e st = (l, Ok st') ->
  if touches k pid (i, e)
  then exists p props,
         stored_project k pid st' = Some p
         /\ get "event_properties" e = JObj props
         /\ project_files_info props = (l, Ok (file_info p))
  else stored_project k pid st' = stored_project k pid st.
Proof.
  intros Hst H. unfold touches. simpl fst. simpl snd.
  destruct (process_event_inv _ _ _ _ _ H)
    as [[Hno ->] | (Hev & Hrec & p & props & Hid & Hprops & Hpid & Hpfi
                    & Hp & Hhp & Hhe & ->)].
  - rewrite Hno. reflexivity.
  - rewrite Hev, Hrec. simpl andb.
    destruct (activity_of_ok st _ Hst Hid) as [Hem Hpr].
    pose proof (filed_project_id _ _ _ Hpr Hpid Hp) as Hpp.
    set (ua := activity_of st (identity_key i e)) in *.
    unfold event_project_id. rewrite Hprops.
    rewrite <- (key_eqb_congr _ _ k Hem).
    rewrite <- (key_eqb_congr _ _ pid Hpp).
    unfold stored_project.
    destruct (key_eqb (email ua) k) eqn:Ek; simpl andb.
    + rewrite <- !(dict_lookup_congr _ _ _ Ek).
      rewrite dict_lookup_store_same by exact Hhe. simpl projects.
      destruct (key_eqb (project_id p) pid) eqn:Epid.
      * rewrite <- (dict_lookup_congr _ _ _ Epid).
        rewrite dict_lookup_store_same by exact Hhp.
        exists p, props. auto.
      * rewrite dict_lookup_store_other by exact Epid.
        rewrite (dict_lookup_congr _ _ st Hem).
        unfold ua, activity_of.
        destruct (dict_lookup (identity_key i e) st); reflexivity.
    + now rewrite dict_lookup_store_other by exact Ek.
Qed.

Lemma bind_ext {A C} (m : M A) (f g : A -> M C) :
  (forall a, f a = g a) -> bind m f = bind m g.
Proof.
  intro H. unfold bind. destruct m as [l0 [a|e]]; [|reflexivity].
  now rewrite H.
Qed.

Lemma process_indexed_app (r1 r2 : list (nat * obj)) (st : UserActivityStore) :
  process_indexed (r1 ++ r2) st
  = bind (process_indexed r1 st) (process_indexed r2).
Proof.
  revert st. induction r1 as [|[i e] r1 IH]; intro st; simpl.
  - now rewrite bind_ret_l.
  - rewrite bind_assoc. apply bind_ext. intro st1. apply IH.
Qed.

(** The inner loop gives the records of a file the indices [index],
    [index + 1], ... *)
Lemma process_file_indexed (index : nat) (data : list obj) (st : UserActivityStore) :
  process_file index data st
  = process_indexed (combine (seq index (length data)) data) st.
Proof.
  revert index st. induction data as [|e data IH]; intros index st; simpl.
  - reflexivity.
  - apply bind_ext. intro st1. apply IH.
Qed.

(** The two loops together run the loop body over the records numbered file
    by file. *)
Lemma process_files_indexed (files : list (list obj)) (st : UserActivityStore) :
  process_files files st = process_indexed (numbered files) st.
Proof.
  revert st. induction files as [|data files IH]; intro st; simpl.
  - reflexivity.
  - unfold numbered in *. simpl. rewrite process_indexed_app.
    rewrite process_file_indexed. apply bind_ext. intro st1. apply IH.
Qed.

Lemma combine_seq_In (a : nat) (data : list obj) (i : nat) (e : obj) :
  In (i, e) (combine (seq a (length data)) data)
  <-> exists j, nth_error data j = Some e /\ i = (a + j)%nat.
Proof.
  revert a. induction data as [|e0 data IH]; intro a; simpl.
  - split; [intros [] | intros (j & Hj & _); destruct j; discriminate].
  - split.
    + intros [H|H].
      * injection H as <- <-. exists O. split; [reflexivity | lia].
      * apply IH in H. destruct H as (j & Hj & ->).
        exists (S j). split; [exact Hj | lia].
    + intros (j & Hj & ->). destruct j as [|j]; simpl in Hj.
      * injection Hj as <-. left. f_equal. lia.
      * right. apply IH. exists j. split; [exact Hj | lia].
Qed.

(** A numbered record is a record of some file with its 1-based position in
    that file. *)
Lemma numbered_In (files : list (list obj)) (i : nat) (e : obj) :
  In (i, e) (numbered files)
  <-> exists data j, In data files /\ nth_error data j = Some e /\ i = S j.
Proof.
  unfold numbered. rewrite in_flat_map. split.
  - intros (data & Hd & Hin). apply combine_seq_In in Hin.
    destruct Hin as (j & Hj & ->). exists data, j. auto.
  - intros (data & j & Hd & Hj & ->). exists data. split; [exact Hd|].
    apply combine_seq_In. exists j. auto.
Qed.

Lemma process_indexed_store_ok (records : list (nat * obj))
      (st st' : UserActivityStore) (l : list log_line) :
  store_ok st -> process_indexed records st = (l, Ok st') -> store_ok st'.
Proof.
  revert st l. induction records as [|[i e] records IH]; intros st l Hst H; simpl in H.
  - injection H as <- <-. exact Hst.
  - apply bind_ok in H. destruct H as (l1 & st1 & l2 & H1 & H2 & ->).
    eapply IH; [|exact H2]. eapply process_event_store_ok; eauto.
Qed.

(** The identities in the store after the loops: the ones before, and the
    identities of the recognized events. *)
Lemma process_indexed_keys (records : list (nat * obj))
      (st st' : UserActivityStore) (l : list log_line) (k : json) :
  store_ok st -> process_indexed records st = (l, Ok st') ->
  ((exists ua, dict_lookup k st' = Some ua)
   <-> ((exists i e, In (i, e) records /\ is_event e = true /\ recognized e = true
                     /\ key_eqb (identity_key i e) k = true)
        \/ exists ua, dict_lookup k st = Some ua)).
Proof.
  revert st l. induction records as [|[i e] records IH]; intros st l Hst H; simpl in H.
  - injection H as <- <-. split; [auto|].
    intros [(i & e & [] & _) | Hx]. exact Hx.
  - apply bind_ok in H. destruct H as (l1 & st1 & l2 & H1 & H2 & ->).
    pose proof (process_event_store_ok _ _ _ _ _ Hst H1) as Hst1.
    rewrite (IH _ _ Hst1 H2), (process_event_keys _ _ _ _ _ k Hst H1).
    split.
    + intros [(i0 & e0 & Hin & Hrest) | [Hnow | Hold]].
      * left. exists i0, e0. split; [now right | exact Hrest].
      * left. apply andb_prop in Hnow. destruct Hnow as [Hnow Hk].
        apply andb_prop in Hnow. destruct Hnow as [Hev Hrec].
        exists i, e. split; [now left | auto].
      * now right.
    + intros [(i0 & e0 & [Hin|Hin] & Hev & Hrec & Hk) | Hold].
      * injection Hin as <- <-. right. left. now rewrite Hev, Hrec, Hk.
      * left. exists i0, e0. auto.
      * right. now right.
Qed.

(** The identity of every recognized event that went through the loops can
    be hashed. *)
Lemma process_indexed_hashable (records : list (nat * obj))
      (st st' : UserActivityStore) (l : list log_line) (i : nat) (e : obj) :
  process_indexed records st = (l, Ok st') ->
  In (i, e) records -> is_event e = true -> recognized e = true ->
  hashable (identity_key i e) = true.
Proof.
  revert st l. induction records as [|[i0 e0] records IH]; intros st l H Hin Hev Hrec;
    simpl in H; [destruct Hin|].
  apply bind_ok in H. destruct H as (l1 & st1 & l2 & H1 & H2 & ->).
  destruct Hin as [Hin|Hin].
  - injection Hin as -> ->.
    destruct (process_event_inv _ _ _ _ _ H1)
      as [[Hno _] | (_ & _ & p & props & Hid & _)]; [|exact Hid].
    rewrite Hev, Hrec in Hno. discriminate.
  - exact (IH _ _ H2 Hin Hev Hrec).
Qed.

Lemma find_app {A} (f : A -> bool) (l1 l2 : list A) :
  find f (l1 ++ l2) = match find f l1 with Some x => Some x | None => find f l2 end.
Proof.
  induction l1 as [|a l1 IH]; simpl; [reflexivity|].
  destruct (f a); [reflexivity | exact IH].
Qed.

(** Last write wins: after the loops, the project filed for an identity and
    a project id carries the file-info of the last record that touches them;
    without such a record the store is as before. *)
Lemma process_indexed_last_touch (records : list (nat * obj))
      (st st' : UserActivityStore) (l : list log_line) (k pid : json) :
  store_ok st -> process_indexed records st = (l, Ok st') ->
  match last_touch k pid records with
  | Some (i, e) =>
      exists p props l',
        stored_project k pid st' = Some p
        /\ get "event_properties" e = JObj props
        /\ project_files_info props = (l', Ok (file_info p))
  | None => stored_project k pid st' = stored_project k pid st
  end.
Proof.
  revert st l. induction records as [|[i e] records IH]; intros st l Hst H; simpl in H.
  - injection H as <- <-. reflexivity.
  - apply bind_ok in H. destruct H as (l1 & st1 & l2 & H1 & H2 & ->).
    pose proof (process_event_store_ok _ _ _ _ _ Hst H1) as Hst1.
    specialize (IH _ _ Hst1 H2).
    unfold last_touch in *. simpl rev. rewrite find_app.
    destruct (find (touches k pid) (rev records)) as [[i0 e0]|]; [exact IH|].
    simpl find.
    pose proof (process_event_project _ _ _ _ _ k pid Hst H1) as Hstep.
    destruct (touches k pid (i, e)).
    + destruct Hstep as (p & props & Hp & Hprops & Hpfi).
      exists p, props, l1. rewrite IH. auto.
    + now rewrite IH.
Qed.

Lemma store_ok_new : store_ok new_store.
Proof. intros k ua []. Qed.

(** In a store in order, the activities listed are the identities filed. *)
Lemma appears_iff_lookup (st : UserActivityStore) (k : json) :
  store_ok st ->
  ((exists ua, In ua (get_all_activities st) /\ key_eqb (email ua) k = true)
   <-> exists ua, dict_lookup k st = Some ua).
Proof.
  intro Hst. unfold get_all_activities. split.
  - intros (ua & Hin & Hk). apply in_map_iff in Hin.
    destruct Hin as ([k0 ua0] & Heq & Hin). simpl in Heq. subst ua0.
    destruct (Hst _ _ Hin) as [Hem _].
    destruct (dict_lookup k st) as [ua1|] eqn:El; [eauto|].
    pose proof (dict_lookup_none _ _ El _ _ Hin) as Hno.
    rewrite (key_eqb_trans _ _ _ Hem Hk) in Hno. discriminate.
  - intros (ua & Hl). destruct (dict_lookup_In _ _ _ Hl) as (k0 & Hin & Hk0).
    exists ua. split; [apply in_map_iff; exists (k0, ua); auto|].
    destruct (Hst _ _ Hin) as [Hem _]. rewrite key_eqb_sym in Hem.
    exact (key_eqb_trans _ _ _ Hem Hk0).
Qed.

Lemma parse_export_data_inv (files : list (list obj)) (l : list log_line)
      (out : list UserActivity) :
  parse_export_data files = (l, Ok out) ->
  exists st, process_indexed (numbered files) new_store = (l, Ok st)
             /\ out = get_all_activities st /\ store_ok st.
Proof.
  unfold parse_export_data. intro H.
  apply bind_ok in H. destruct H as (l1 & st & l2 & H1 & H2 & ->).
  injection H2 as <- <-. rewrite app_nil_r.
  rewrite process_files_indexed in H1.
  exists st. split; [exact H1|]. split; [reflexivity|].
  exact (process_indexed_store_ok _ _ _ _ store_ok_new H1).
Qed.


(** C2 (as amended).  The identity key of a record is its [user_id] when
    that is truthy (present and not empty); otherwise it is the text
    "Anonymous (Amplitude ID-<x>)" where <x> is the record's [amplitude_id]
    if the record has one and otherwise the index of the record; the index
    the loops hand to a record is its 1-based position within its own file,
    the count starting again at 1 for every file; and when
    [parse_export_data] returns, every recognized event is listed under the
    key so computed. *)
Theorem identity_key_per_file
        (files : list (list obj)) (st : UserActivityStore) (index : nat) (e : obj) :
  identity_key index e
  = (if truthy (get "user_id" e) then get "user_id" e
     else JStr ("Anonymous (Amplitude ID-"
                  ++ py_str (match obj_get "amplitude_id" e with
                             | Some a => a
                             | None => JInt (Z.of_nat index)
                             end)
                  ++ ")"))
  /\ process_files files st = process_indexed (numbered files) st
  /\ (forall i e', In (i, e') (numbered files)
                   <-> exists data j, In data files
                                      /\ nth_error data j = Some e' /\ i = S j)
  /\ (forall l out data j e',
        parse_export_data files = (l, Ok out) ->
        In data files -> nth_error data j = Some e' ->
        is_event e' = true -> recognized e' = true ->
        exists ua, In ua out /\ key_eqb (email ua) (identity_key (S j) e') = true).
Proof.
  split; [reflexivity|]. split; [apply process_files_indexed|].
  split; [intros i e'; apply numbered_In|].
  intros l out data j e' H Hd Hj Hev Hrec.
  destruct (parse_export_data_inv _ _ _ H) as (st1 & Hrun & -> & Hst).
  assert (Hin : In (S j, e') (numbered files))
    by (apply numbered_In; exists data, j; auto).
  pose proof (process_indexed_hashable _ _ _ _ _ _ Hrun Hin Hev Hrec) as Hh.
  apply (appears_iff_lookup st1 _ Hst).
  apply (process_indexed_keys _ _ _ _ (identity_key (S j) e') store_ok_new Hrun).
  left. exists (S j), e'. repeat split; try assumption.
  now apply key_eqb_refl.
Qed.

(** C3 (as amended).  When [parse_export_data] returns, the project filed
    for an identity and a project id carries the file-info summary of the
    most recent recognized event of that identity on that project, computed
    from that event alone: the summary of the last event replaces what was
    there, also when it is [None]. *)
Theorem file_info_last_write_wins
        (files : list (list obj)) (l : list log_line) (out : list UserActivity)
        (k pid : json) (i : nat) (e : obj) :
  parse_export_data files = (l, Ok out) ->
  last_touch k pid (numbered files) = Some (i, e) ->
  exists ua p props l',
    In ua out /\ key_eqb (email ua) k = true
    /\ dict_lookup pid (projects ua) = Some p
    /\ get "event_properties" e = JObj props
    /\ project_files_info props = (l', Ok (file_info p)).
Proof.
  intros H Hlast.
  destruct (parse_export_data_inv _ _ _ H) as (st & Hrun & -> & Hst).
  pose proof (process_indexed_last_touch _ _ _ _ k pid store_ok_new Hrun) as Hw.
  rewrite Hlast in Hw. destruct Hw as (p & props & l' & Hp & Hprops & Hpfi).
  unfold stored_project in Hp.
  destruct (dict_lookup k st) as [ua|] eqn:El; [|discriminate].
  destruct (dict_lookup_In _ _ _ El) as (k0 & Hin & Hk0).
  exists ua, p, props, l'. repeat split; try assumption.
  - unfold get_all_activities. apply in_map_iff. exists (k0, ua). auto.
  - destruct (Hst _ _ Hin) as [Hem _]. rewrite key_eqb_sym in Hem.
    exact (key_eqb_trans _ _ _ Hem Hk0).
Qed.


End EventFacts.


(** The run of the sample: Alice is listed, Bob is not. *)
Example sample_run :
  parse_export_data sample_files
  = ([], Ok [ {| email := JStr "alice@example.com";
                 projects := [(JStr "p1",
                               {| project_id := JStr "p1";
                                  project_name := JStr "Demo";
                                  file_info := None;
                                  prompts := [JStr "make it shorter"];
                                  exports := [] |})] |} ]).
Proof. vm_compute. reflexivity. Qed.

Lemma identity_key_per_file_witness :
  identity_key 1 nameless = JStr "Anonymous (Amplitude ID-1)"
  /\ exists l out,
       parse_export_data sample_files = (l, Ok out)
       /\ exists ua,
            In ua out
            /\ key_eqb (email ua)
                 (identity_key 1 (prompt_event alice "p1" "make it shorter" []))
               = true.
Proof.
  split; [reflexivity|].
  eexists. eexists. split; [vm_compute; reflexivity|].
  refine (proj2 (proj2 (proj2 (identity_key_per_file sample_files new_store 1 nameless)))
            [] _ [prompt_event alice "p1" "make it shorter" []; other_event bob]
            0%nat _ _ _ _ _ _);
    try reflexivity.
  left. reflexivity.
Defined.

(** C2, as stated, fails: two files of one record each, the records with
    neither [user_id] nor [amplitude_id].  The second record is at position 2
    of the overall input, yet the loops give it the index 1 again, and both
    records land in the one activity "Anonymous (Amplitude ID-1)". *)
Lemma index_restarts_in_each_file :
  numbered [[nameless]; [nameless]] = [(1%nat, nameless); (1%nat, nameless)]
  /\ spec_numbered [[nameless]; [nameless]] = [(1%nat, nameless); (2%nat, nameless)]
  /\ identity_key 1 nameless <> identity_key 2 nameless
  /\ parse_export_data [[nameless]; [nameless]]
     = ([], Ok [ {| email := JStr "Anonymous (Amplitude ID-1)";
                    projects := [(JStr "p1",
                                  {| project_id := JStr "p1";
                                     project_name := JStr "Demo";
                                     file_info := None;
                                     prompts := [JStr "hi"; JStr "hi"];
                                     exports := [] |})] |} ]).
Proof.
  repeat split; try (vm_compute; reflexivity).
  vm_compute. discriminate.
Qed.

Lemma file_info_last_write_wins_witness :
  exists l out i e,
    parse_export_data three_events = (l, Ok out)
    /\ last_touch (JStr "alice@example.com") (JStr "p1") (numbered three_events)
       = Some (i, e)
    /\ exists ua p props l',
         In ua out /\ key_eqb (email ua) (JStr "alice@example.com") = true
         /\ dict_lookup (JStr "p1") (projects ua) = Some p
         /\ get "event_properties" e = JObj props
         /\ project_files_info props = (l', Ok (file_info p)).
Proof.
  eexists. eexists. eexists. eexists.
  split; [vm_compute; reflexivity|].
  split; [vm_compute; reflexivity|].
  apply (file_info_last_write_wins three_events []
           _ (JStr "alice@example.com") (JStr "p1") 3%nat).
  - vm_compute. reflexivity.
  - vm_compute. reflexivity.
Defined.

(** Three events on one project, each with its own file list: the last
    list is the one that stays. *)
Example three_events_run :
  option_map (map (fun ua => map (fun kp => file_info (snd kp)) (projects ua)))
    (match snd (parse_export_data three_events) with
     | Ok out => Some out
     | Raise _ => None
     end)
  = Some [[Some "c.mp4 (1.00 GB)"]].
Proof. vm_compute. reflexivity. Qed.

(** C3, as stated, fails: the first of two events on a project carries a
    file list, the second carries none.  The most recent event that carried
    file metadata is the first one, with summary "a.mp4 (2.00 KB)"; the
    project ends with no file-info at all. *)
Lemma file_info_reset_by_event_without_files :
  spec_last_file_info (JStr "alice@example.com") (JStr "p1") (numbered info_then_none)
  = Some (1%nat, prompt_event alice "p1" "first"
                   [("projectFileInfo", file_list "a.mp4" 2048)])
  /\ project_files_info
       [("projectId", JStr "p1"); ("projectName", JStr "Demo");
        ("prompt", JStr "first"); ("projectFileInfo", file_list "a.mp4" 2048)]
     = ([], Ok (Some "a.mp4 (2.00 KB)"))
  /\ parse_export_data info_then_none
     = ([], Ok [ {| email := JStr "alice@example.com";
                    projects := [(JStr "p1",
                                  {| project_id := JStr "p1";
                                     project_name := JStr "Demo";
                                     file_info := None;
                                     prompts := [JStr "first"; JStr "second"];
                                     exports := [] |})] |} ]).
Proof. repeat split; vm_compute; reflexivity. Qed.



End AggregatorFacts.


(** ** More about the formatters *)
Module UtilsMore.
Import Py Utils PyFacts UtilsFacts MoreNotions Samples.
Local Open Scope string_scope.

Lemma sizes_values :
  sizes = [1099511627776; 1073741824; 1048576; 1024]%Z.
Proof. reflexivity. Qed.

(** What [format_bytes] answers once a unit fits. *)
Lemma scaled_not_none (b size : Z) (unit : string) :
  (let* q := py_truediv (PInt b) (PInt size) in
   let* t := format_num 2 q in
   Ok (Some (t ++ " " ++ unit)))
  <> Ok None.
Proof.
  destruct (py_truediv (PInt b) (PInt size)) as [q|e]; simpl; [|discriminate].
  destruct (format_num 2 q) as [t|e]; simpl; discriminate.
Qed.

Lemma scaled_found (b size : Z) (unit fallback : string) :
  (let* found :=
     (let* q := py_truediv (PInt b) (PInt size) in
      let* t := format_num 2 q in
      Ok (Some (t ++ " " ++ unit))) in
   match found with
   | Some s => Ok (Some s)
   | None => Ok (Some fallback)
   end)
  = (let* q := py_truediv (PInt b) (PInt size) in
     let* t := format_num 2 q in
     Ok (Some (t ++ " " ++ unit))).
Proof.
  destruct (py_truediv (PInt b) (PInt size)) as [q|e]; simpl; [|reflexivity].
  destruct (format_num 2 q) as [t|e]; reflexivity.
Qed.

(** [format_bytes] answers [None] at 0 only; below 1024 (and below 0) it
    prints the count itself; from 1024 on it divides by the largest unit
    that fits, so that the quotient is at least 1 and, for every unit but the
    last, TB, below 1024, and prints the quotient with two decimals.  The
    two decimals can still round up to 1024. *)
Theorem format_bytes_largest_unit (b : Z) :
  (format_bytes b = Ok None <-> b = 0%Z)
  /\ (b <> 0%Z -> (b < 1024)%Z -> format_bytes b = Ok (Some (str_of_Z b ++ " B")))
  /\ ((1024 <= b)%Z ->
      exists size unit,
        In (size, unit) (combine sizes units)
        /\ (size <= b)%Z
        /\ ((b < 1024 * size)%Z \/ unit = "TB")
        /\ format_bytes b
           = (let* q := py_truediv (PInt b) (PInt size) in
              let* t := format_num 2 q in
              Ok (Some (t ++ " " ++ unit))))
  /\ format_bytes 1048575 = Ok (Some "1024.00 KB").
Proof.
  split; [|split; [|split]]; [| | |vm_compute; reflexivity];
    unfold format_bytes, units; rewrite sizes_values.
  - destruct (Z.eqb_spec b 0) as [->|Hnz]; [split; reflexivity|].
    split; [|contradiction]. intro H. exfalso. revert H.
    cbn [format_bytes_loop].
    repeat match goal with
           | |- context [(?k <=? b)%Z] => destruct (k <=? b)%Z
           end;
      try (intro H; apply rbind_ok in H; destruct H as ([t|] & H1 & H2);
           [discriminate H2 | exact (scaled_not_none _ _ _ H1)]).
    simpl. discriminate.
  - intros Hnz Hlt. destruct (Z.eqb_spec b 0) as [->|_]; [contradiction|].
    cbn [format_bytes_loop].
    destruct (Z.leb_spec 1099511627776 b); [lia|].
    destruct (Z.leb_spec 1073741824 b); [lia|].
    destruct (Z.leb_spec 1048576 b); [lia|].
    destruct (Z.leb_spec 1024 b); [lia|]. reflexivity.
  - intro Hge. destruct (Z.eqb_spec b 0) as [->|_]; [lia|].
    cbn [format_bytes_loop combine].
    destruct (Z.leb_spec 1099511627776 b) as [H4|H4].
    { exists 1099511627776%Z, "TB". rewrite scaled_found.
      cbn [In]. intuition lia. }
    destruct (Z.leb_spec 1073741824 b) as [H3|H3].
    { exists 1073741824%Z, "GB". rewrite scaled_found.
      cbn [In]. intuition lia. }
    destruct (Z.leb_spec 1048576 b) as [H2|H2].
    { exists 1048576%Z, "MB". rewrite scaled_found.
      cbn [In]. intuition lia. }
    destruct (Z.leb_spec 1024 b) as [H1|H1]; [|lia].
    exists 1024%Z, "KB". rewrite scaled_found.
    cbn [In]. intuition lia.
Qed.

Lemma format_bytes_largest_unit_witness :
  (1024 <= 2048)%Z
  /\ exists size unit,
       In (size, unit) (combine sizes units)
       /\ (size <= 2048)%Z
       /\ ((2048 < 1024 * size)%Z \/ unit = "TB")
       /\ format_bytes 2048
          = (let* q := py_truediv (PInt 2048) (PInt size) in
             let* t := format_num 2 q in
             Ok (Some (t ++ " " ++ unit))).
Proof.
  assert (H : (1024 <= 2048)%Z) by lia.
  split; [exact H|].
  exact (proj1 (proj2 (proj2 (format_bytes_largest_unit 2048))) H).
Defined.

Lemma string_app_not_empty_r (a b : string) : b <> "" -> a ++ b <> "".
Proof.
  intros Hb H. destruct a; simpl in H; [contradiction | discriminate].
Qed.

(** What [seconds_to_readable_time] answers when it returns. *)
Lemma seconds_to_readable_time_inv (v : option pynum) (r : option string) :
  seconds_to_readable_time v = Ok r ->
  (falsy v = true /\ r = None)
  \/ (falsy v = false /\ exists s, r = Some s /\ s <> "").
Proof.
  unfold seconds_to_readable_time.
  destruct (falsy v) eqn:Hf.
  - intro H. injection H as <-. now left.
  - destruct v as [x|]; [|discriminate Hf].
    intro H. right. split; [reflexivity|].
    do 4 (apply rbind_ok in H; destruct H as (? & _ & H)).
    cbv zeta in H.
    apply rbind_ok in H. destruct H as (ts1 & _ & H).
    apply rbind_ok in H. destruct H as (ts2 & _ & H).
    apply rbind_ok in H. destruct H as (ts3 & H3 & H).
    injection H as <-. exists ts3. split; [reflexivity|].
    destruct (String.eqb ts2 "") eqn:Ets.
    + rewrite orb_true_r in H3.
      apply rbind_ok in H3. destruct H3 as (r3 & _ & H3). injection H3 as <-.
      apply string_app_not_empty_r, string_app_not_empty_r. discriminate.
    + rewrite orb_false_r in H3.
      match type of H3 with
      | (if ?c then _ else _) = _ => destruct c
      end.
      * apply rbind_ok in H3. destruct H3 as (r3 & _ & H3). injection H3 as <-.
        apply string_app_not_empty_r, string_app_not_empty_r. discriminate.
      * injection H3 as <-. intros ->. discriminate Ets.
Qed.

(** [seconds_to_readable_time] answers [None] exactly on a falsy input, and
    never the empty text: when neither the hours nor the minutes were
    written, the seconds are. *)
Theorem readable_time_never_empty (v : option pynum) :
  (seconds_to_readable_time v = Ok None <-> falsy v = true)
  /\ seconds_to_readable_time v <> Ok (Some "").
Proof.
  split; [split|].
  - intro H. destruct (seconds_to_readable_time_inv v None H)
      as [[Hf _] | (_ & s & Hs & _)]; [exact Hf | discriminate Hs].
  - intro Hf. unfold seconds_to_readable_time. now rewrite Hf.
  - intro H. destruct (seconds_to_readable_time_inv v (Some "") H)
      as [[_ Hr] | (_ & s & Hs & Hne)]; [discriminate Hr|].
    injection Hs as <-. now apply Hne.
Qed.

Lemma readable_time_never_empty_witness :
  falsy (Some (PInt 0)) = true
  /\ seconds_to_readable_time (Some (PInt 0)) = Ok None.
Proof.
  assert (H : falsy (Some (PInt 0)) = true) by reflexivity.
  split; [exact H|].
  exact (proj2 (proj1 (readable_time_never_empty (Some (PInt 0)))) H).
Defined.

(** A whole positive number of seconds is rendered as its hours, minutes and
    seconds, each segment left out when it is zero; the three numbers add up
    to the input, with minutes and seconds below sixty. *)
Theorem readable_time_whole_seconds (n : Z) :
  (0 < n)%Z ->
  seconds_to_readable_time (Some (PInt n))
  = Ok (Some (segment (n / 3600) "h" ++ segment ((n / 60) mod 60) "m"
                ++ segment (n mod 60) "s"))
  /\ (3600 * (n / 3600) + 60 * ((n / 60) mod 60) + n mod 60 = n)%Z
  /\ (0 <= (n / 60) mod 60 < 60)%Z /\ (0 <= n mod 60 < 60)%Z.
Proof.
  intro Hn.
  assert (Hdiv : (n / 60 / 60 = n / 3600)%Z)
    by (rewrite Z.div_div by lia; reflexivity).
  pose proof (Z.div_mod n 60 ltac:(lia)) as D1.
  pose proof (Z.div_mod (n / 60) 60 ltac:(lia)) as D2.
  pose proof (Z.mod_pos_bound n 60 ltac:(lia)) as B1.
  pose proof (Z.mod_pos_bound (n / 60) 60 ltac:(lia)) as B2.
  split; [|repeat split; lia].
  rewrite (readable_time_int n) by lia. do 2 f_equal.
  destruct (components_nonneg n ltac:(lia)) as (HH & HM & HS).
  etransitivity; [exact (segments_agree _ _ _ HH HM HS)|].
  rewrite Hdiv. unfold segment.
  destruct (Z.eqb_spec (n / 3600) 0) as [H0|H0];
    destruct (Z.eqb_spec ((n / 60) mod 60) 0) as [M0|M0];
    destruct (Z.eqb_spec (n mod 60) 0) as [S0|S0]; simpl; try reflexivity.
  exfalso. lia.
Qed.

Lemma readable_time_whole_seconds_witness :
  (0 < 3661)%Z
  /\ seconds_to_readable_time (Some (PInt 3661))
     = Ok (Some (segment (3661 / 3600) "h" ++ segment ((3661 / 60) mod 60) "m"
                   ++ segment (3661 mod 60) "s")).
Proof.
  assert (H : (0 < 3661)%Z) by lia.
  split; [exact H|].
  exact (proj1 (readable_time_whole_seconds 3661 H)).
Defined.

(** The sign bit of a rounded value is the sign that went in, unless the
    value is no number. *)
Lemma binary_round_aux_sign (s : bool) (m e : Z) (l : location) :
  binary_round_aux prec emax s m e l = S754_nan
  \/ sign_bit (binary_round_aux prec emax s m e l) = s.
Proof.
  unfold binary_round_aux.
  destruct (shr_fexp prec emax m e l) as [mrs' e'].
  destruct (shr_fexp prec emax _ e' loc_Exact) as [mrs'' e''].
  destruct (shr_m mrs'') as [|q|q]; [right | | left]; try reflexivity.
  destruct (e'' <=? emax - prec)%Z; right; reflexivity.
Qed.

(** The quotient of two [int]s, the divisor positive, has the sign of the
    dividend. *)
Lemma int_truediv_sign (a b : Z) (f : float) :
  (0 < b)%Z -> int_truediv a b = Ok f ->
  (a = 0%Z /\ f = S754_zero false)
  \/ (a <> 0%Z /\ sign_bit f = (a <? 0)%Z).
Proof.
  intros Hb. unfold int_truediv.
  destruct (Z.eqb_spec b 0) as [->|_]; [lia|].
  assert (Hs : (b <? 0)%Z = false) by (apply Z.ltb_ge; lia).
  rewrite Hs.
  destruct a as [|a|a].
  - intro H. injection H as <-. now left.
  - match goal with
    | |- (if is_finite ?g then _ else _) = _ -> _ => set (q := g)
    end.
    destruct (is_finite q) eqn:Hq; [|discriminate].
    intro H. injection H as <-. right. split; [discriminate|].
    unfold q, fdiv, SFdiv in *.
    destruct (SFdiv_core_binary _ _ _ _ _ _) as [[mz ez] lz].
    match goal with
    | |- sign_bit (binary_round_aux _ _ ?sg _ _ _) = _ =>
        destruct (binary_round_aux_sign sg mz ez lz) as [E|E];
          [rewrite E in Hq; discriminate Hq | rewrite E; reflexivity]
    end.
  - match goal with
    | |- (if is_finite ?g then _ else _) = _ -> _ => set (q := g)
    end.
    destruct (is_finite q) eqn:Hq; [|discriminate].
    intro H. injection H as <-. right. split; [discriminate|].
    unfold q, fdiv, SFdiv in *.
    destruct (SFdiv_core_binary _ _ _ _ _ _) as [[mz ez] lz].
    match goal with
    | |- sign_bit (binary_round_aux _ _ ?sg _ _ _) = _ =>
        destruct (binary_round_aux_sign sg mz ez lz) as [E|E];
          [rewrite E in Hq; discriminate Hq | rewrite E; reflexivity]
    end.
Qed.

(** A hundred times a finite float is no number, or has its sign. *)
Lemma times_100_sign (f : float) :
  is_finite f = true ->
  fmul f (of_Z 100) = S754_nan \/ sign_bit (fmul f (of_Z 100)) = sign_bit f.
Proof.
  intro Hf. destruct f as [s|s| |s m e]; try discriminate Hf.
  - right. now destruct s.
  - change (of_Z 100) with (S754_finite false 7036874417766400 (-46)).
    unfold fmul, SFmul.
    destruct (binary_round_aux_sign (xorb s false)
                (Zpos (m * 7036874417766400)) (e + -46) loc_Exact) as [E|E];
      [now left | right].
    rewrite E. now destruct s.
Qed.

(** A float whose sign bit is clear is not below 0. *)
Lemma not_below_zero (g : float) :
  g = S754_nan \/ sign_bit g = false -> py_lt (PFloat g) (PInt 0) = false.
Proof.
  intro H. unfold py_lt. rewrite float_compare_zero.
  destruct H as [->|H]; [reflexivity|].
  destruct g as [s|s| |s m e]; simpl in H; subst; reflexivity.
Qed.

(** A float whose sign bit is set does not reach 0.1. *)
Lemma not_up_to_threshold (g : float) :
  g = S754_nan \/ sign_bit g = true -> py_ge (PFloat g) (PFloat f_0_1) = false.
Proof.
  intro H. unfold py_ge, num_compare, float_compare.
  destruct H as [->|H]; [reflexivity|].
  destruct g as [s|s| |s m e]; simpl in H; subst; try reflexivity.
  unfold float_ext, ext_compare.
  assert (Hlt : float_val (S754_finite true m e) < float_val f_0_1).
  { apply Qlt_trans with 0.
    - apply Qlt_alt. apply (float_val_sign true).
    - reflexivity. }
  pose proof (proj1 (Qlt_alt _ _) Hlt) as Hc.
  change (match f_0_1 with
          | S754_infinity true => ext_neg_inf
          | S754_infinity false => ext_pos_inf
          | S754_nan => ext_nan
          | _ => ext_fin (float_val f_0_1)
          end) with (ext_fin (float_val f_0_1)).
  cbv iota. now rewrite Hc.
Qed.

(** For [int] values against a positive prior value the arrow never points
    the wrong way: a current value that is not below the prior one never gets
    the down arrow, a current value below it never gets the up arrow, and a
    current value equal to it gets the "about zero" marker. *)
Theorem percentage_change_direction (d p : Z) :
  (0 < p)%Z -> d <> 0%Z ->
  ((p <= d)%Z ->
   forall t, format_percentage_change (Some (PInt d)) (Some (PInt p))
             <> Ok (Some ("(➘" ++ t ++ "%)")))
  /\ ((d < p)%Z ->
      forall t, format_percentage_change (Some (PInt d)) (Some (PInt p))
                <> Ok (Some ("(➚" ++ t ++ "%)")))
  /\ (d = p ->
      format_percentage_change (Some (PInt d)) (Some (PInt p)) = Ok (Some approx_0)).
Proof.
  intros Hp Hd.
  assert (Hshape :
            forall r, format_percentage_change (Some (PInt d)) (Some (PInt p)) = Ok r ->
            exists f g,
              int_truediv (d - p) p = Ok f
              /\ g = fmul f (of_Z 100)
              /\ r = if py_ge (PFloat g) (PFloat f_0_1)
                     then Some ("(➚" ++ format_float 1 g ++ "%)")
                     else if py_lt (PFloat g) (PInt 0)
                     then Some ("(➘" ++ format_float 1 (fabs g) ++ "%)")
                     else Some approx_0).
  { intro r. unfold format_percentage_change.
    assert (Hfd : falsy (Some (PInt d)) = false).
    { simpl. destruct (Z.eqb_spec d 0); [contradiction | reflexivity]. }
    assert (Hfp : falsy (Some (PInt p)) = false).
    { simpl. destruct (Z.eqb_spec p 0); [lia | reflexivity]. }
    rewrite Hfd, Hfp. simpl orb. cbv iota.
    rewrite py_eq_int. destruct (Z.eqb_spec p 0) as [|_]; [lia|].
    cbn [py_sub rbind py_truediv].
    destruct (int_truediv (d - p) p) as [f|e] eqn:Ef; cbn [rbind]; [|discriminate].
    cbn [py_mul to_float rbind].
    change (int_to_float 100) with (Ok (of_Z 100)). cbn [rbind].
    intro H. exists f, (fmul f (of_Z 100)).
    split; [reflexivity|]. split; [reflexivity|].
    destruct (py_ge (PFloat (fmul f (of_Z 100))) (PFloat f_0_1)).
    - cbn [format_num to_float rbind] in H. now injection H as <-.
    - destruct (py_lt (PFloat (fmul f (of_Z 100))) (PInt 0)).
      + cbn [py_abs format_num to_float rbind] in H. now injection H as <-.
      + now injection H as <-. }
  assert (Hfin : forall f, int_truediv (d - p) p = Ok f -> is_finite f = true).
  { intros f. unfold int_truediv.
    destruct (p =? 0)%Z; [discriminate|].
    destruct (d - p)%Z; [intro H; injection H as <-; reflexivity| |];
      match goal with
      | |- (if is_finite ?g then _ else _) = _ -> _ =>
          destruct (is_finite g) eqn:Hq; [|discriminate]
      end; intro H; injection H as <-; exact Hq. }
  split; [|split].
  - intros Hle t H.
    destruct (Hshape _ H) as (f & g & Ef & Eg & Er).
    assert (Hg : g = S754_nan \/ sign_bit g = false).
    { destruct (times_100_sign f (Hfin f Ef)) as [E|E];
        [left; congruence|]. right. rewrite Eg, E.
      destruct (int_truediv_sign _ _ _ Hp Ef) as [[_ ->] | [_ ->]];
        [reflexivity | apply Z.ltb_ge; lia]. }
    rewrite (not_below_zero g Hg) in Er.
    destruct (py_ge (PFloat g) (PFloat f_0_1)); discriminate Er.
  - intros Hlt t H.
    destruct (Hshape _ H) as (f & g & Ef & Eg & Er).
    assert (Hg : g = S754_nan \/ sign_bit g = true).
    { destruct (times_100_sign f (Hfin f Ef)) as [E|E];
        [left; congruence|]. right. rewrite Eg, E.
      destruct (int_truediv_sign _ _ _ Hp Ef) as [[E0 _] | [_ ->]];
        [lia | apply Z.ltb_lt; lia]. }
    rewrite (not_up_to_threshold g Hg) in Er.
    destruct (py_lt (PFloat g) (PInt 0)); discriminate Er.
  - intros ->. unfold format_percentage_change.
    assert (Hfp : falsy (Some (PInt p)) = false).
    { simpl. destruct (Z.eqb_spec p 0); [lia | reflexivity]. }
    rewrite Hfp. simpl orb. cbv iota.
    rewrite py_eq_int. destruct (Z.eqb_spec p 0) as [|_]; [lia|].
    cbn [py_sub rbind py_truediv]. rewrite Z.sub_diag.
    unfold int_truediv.
    destruct (Z.eqb_spec p 0) as [|_]; [lia|].
    assert (Hs : (p <? 0)%Z = false) by (apply Z.ltb_ge; lia).
    rewrite Hs. reflexivity.
Qed.

Lemma percentage_change_direction_witness :
  (0 < 100)%Z /\ 90%Z <> 0%Z
  /\ forall t, format_percentage_change (Some (PInt 90)) (Some (PInt 100))
               <> Ok (Some ("(➚" ++ t ++ "%)")).
Proof.
  assert (Hp : (0 < 100)%Z) by lia.
  assert (Hd : 90%Z <> 0%Z) by discriminate.
  split; [exact Hp|]. split; [exact Hd|].
  refine (proj1 (proj2 (percentage_change_direction 90 100 Hp Hd)) _).
  lia.
Defined.

Lemma has_dot_app (a b : string) : has_dot (a ++ b) = has_dot a || has_dot b.
Proof.
  induction a as [|c a IH]; simpl; [reflexivity|].
  now rewrite IH, orb_assoc.
Qed.

(** A number printed with one decimal holds a full stop. *)
Lemma format_fixed_1_has_dot (q : Q) : has_dot (format_fixed 1 q) = true.
Proof.
  unfold format_fixed. rewrite !has_dot_app. simpl has_dot at 3.
  now rewrite !orb_true_r.
Qed.

(** A float printed with one decimal is never the text "100". *)
Lemma format_float_1_not_100 (f : float) (rest : string) :
  format_float 1 f ++ "%)" <> "100%)".
Proof.
  destruct f as [s|s| |s m e]; try (destruct s; discriminate);
    try discriminate;
    intro H; apply (f_equal has_dot) in H;
    unfold format_float in H;
    rewrite !has_dot_app, format_fixed_1_has_dot, !orb_true_r in H;
    discriminate H.
Qed.

(** [format_percentage_change] never answers one of the two fixed 100% markers,
    whatever its arguments: the branch that holds them is not reached, and a
    computed change of 100 percent is printed with its decimal. *)
Theorem percentage_change_never_fixed_100 (d p : option pynum) :
  format_percentage_change d p <> Ok (Some up_100)
  /\ format_percentage_change d p <> Ok (Some down_100).
Proof.
  unfold format_percentage_change.
  destruct (falsy d || falsy p) eqn:Hf; [split; discriminate|].
  apply orb_false_elim in Hf. destruct Hf as [Hd Hp].
  destruct d as [d|]; [|discriminate Hd].
  destruct p as [p|]; [|discriminate Hp].
  simpl in Hp. rewrite num_truthy_ne in Hp. unfold py_ne in Hp.
  rewrite negb_involutive in Hp. rewrite Hp.
  destruct (py_sub d p) as [delta|e]; cbn [rbind]; [|split; discriminate].
  destruct (py_truediv delta p) as [ratio|e]; cbn [rbind]; [|split; discriminate].
  destruct (py_mul ratio (PInt 100)) as [difference|e]; cbn [rbind];
    [|split; discriminate].
  unfold up_100, down_100, approx_0, format_num.
  destruct (py_ge difference (PFloat f_0_1)).
  - destruct (to_float difference) as [f|e]; cbn [rbind]; [|split; discriminate].
    split; intro H; try discriminate H.
    injection H as H. exact (format_float_1_not_100 f "" H).
  - destruct (py_lt difference (PInt 0)).
    + destruct (to_float (py_abs difference)) as [f|e]; cbn [rbind];
        [|split; discriminate].
      split; intro H; try discriminate H.
      injection H as H. exact (format_float_1_not_100 f "" H).
    + split; discriminate.
Qed.

End UtilsMore.

(** ** The week of an offset *)
Module CalendarFacts.
Import Calendar MoreSamples.
Local Open Scope Z_scope.

Lemma weekday_range (d : datetime) : 0 <= weekday d <= 6.
Proof. unfold weekday. pose proof (Z.mod_pos_bound (ordinal d + 6) 7). lia. Qed.

Lemma obind_returned {A C} (o : outcome A) (f : A -> outcome C) (c : C) :
  obind o f = Returned c -> exists a, o = Returned a /\ f a = Returned c.
Proof. destruct o as [a|err]; simpl; [eauto | discriminate]. Qed.

Lemma obind_failed {A C} (o : outcome A) (f : A -> outcome C) (err : error) :
  obind o f = Failed err ->
  o = Failed err \/ exists a, o = Returned a /\ f a = Failed err.
Proof.
  destruct o as [a|err']; simpl; intro H.
  - right. exists a. split; [reflexivity | exact H].
  - left. injection H as ->. reflexivity.
Qed.

Lemma timedelta_returned (n r : Z) : timedelta n = Returned r -> r = n.
Proof.
  unfold timedelta. destruct (Z.abs n <=? MAX_DELTA_DAYS); [|discriminate].
  intro H. now injection H as <-.
Qed.

Lemma timedelta_failed (n : Z) (err : error) :
  timedelta n = Failed err -> err = OverflowError.
Proof.
  unfold timedelta. destruct (Z.abs n <=? MAX_DELTA_DAYS); [discriminate|].
  intro H. now injection H as <-.
Qed.

Lemma add_days_returned (d r : datetime) (n : Z) :
  add_days d n = Returned r ->
  ordinal r = ordinal d + n /\ time_of_day r = time_of_day d
  /\ MIN_ORDINAL <= ordinal r <= MAX_ORDINAL.
Proof.
  unfold add_days.
  destruct ((MIN_ORDINAL <=? ordinal d + n) && (ordinal d + n <=? MAX_ORDINAL))
    eqn:E; [|discriminate].
  intro H. injection H as <-. simpl.
  apply andb_prop in E. destruct E as [E1 E2].
  apply Z.leb_le in E1, E2. auto.
Qed.

Lemma add_days_failed (d : datetime) (n : Z) (err : error) :
  add_days d n = Failed err -> err = OverflowError.
Proof.
  unfold add_days.
  destruct ((MIN_ORDINAL <=? ordinal d + n) && (ordinal d + n <=? MAX_ORDINAL));
    [discriminate|].
  intro H. now injection H as <-.
Qed.

(** What the function has computed when it returns a week. *)
Lemma week_inv (today : datetime) (week_offset : option Z) (s e : datetime) :
  get_start_end_of_week_by_offset today week_offset = Returned (Some (s, e)) ->
  exists k,
    week_offset = Some k /\ k <> 0
    /\ ordinal s = ordinal today - weekday today - 7 * k
    /\ ordinal e = ordinal s + 6
    /\ time_of_day s = time_of_day today /\ time_of_day e = time_of_day today
    /\ MIN_ORDINAL <= ordinal s /\ ordinal e <= MAX_ORDINAL.
Proof.
  unfold get_start_end_of_week_by_offset.
  destruct week_offset as [k|]; [|discriminate].
  destruct (Z.eqb_spec k 0) as [->|Hk]; [discriminate|].
  intro H.
  apply obind_returned in H. destruct H as (back & Hb & H).
  apply obind_returned in H. destruct H as (monday & Hm & H).
  apply obind_returned in H. destruct H as (weeks & Hw & H).
  apply obind_returned in H. destruct H as (st & Hst & H).
  apply obind_returned in H. destruct H as (six & H6 & H).
  apply obind_returned in H. destruct H as (en & Hen & H).
  injection H as <- <-.
  apply timedelta_returned in Hb, Hw, H6. subst back weeks six.
  apply add_days_returned in Hm, Hst, Hen.
  destruct Hm as (Hm1 & Hm2 & _). destruct Hst as (Hs1 & Hs2 & Hs3).
  destruct Hen as (He1 & He2 & He3).
  exists k. repeat split; try assumption; try lia; congruence.
Qed.

(** Whatever makes the function fail is an overflow of the calendar. *)
Lemma week_failed (today : datetime) (week_offset : option Z) (err : error) :
  get_start_end_of_week_by_offset today week_offset = Failed err ->
  err = OverflowError.
Proof.
  unfold get_start_end_of_week_by_offset.
  destruct week_offset as [k|]; [|discriminate].
  destruct (k =? 0); [discriminate|].
  intro H.
  repeat (apply obind_failed in H;
          destruct H as [H | (? & _ & H)];
          [first [exact (timedelta_failed _ _ H) | exact (add_days_failed _ _ _ H)]
          | cbv beta in H]).
  discriminate H.
Qed.

(** A week that is returned runs from a Monday to the Sunday six days later,
    at the time of day of the clock, and holds the day [week_offset] weeks
    before today; a week is returned for a non-zero offset only (an offset
    of 0, like [None], gives [None], not the current week). *)
Theorem week_is_monday_to_sunday
        (today : datetime) (week_offset : option Z) (s e : datetime) :
  get_start_end_of_week_by_offset today week_offset = Returned (Some (s, e)) ->
  exists k,
    week_offset = Some k /\ k <> 0
    /\ weekday s = 0 /\ weekday e = 6
    /\ ordinal e = ordinal s + 6
    /\ ordinal s <= ordinal today - 7 * k <= ordinal e
    /\ time_of_day s = time_of_day today /\ time_of_day e = time_of_day today.
Proof.
  intro H. destruct (week_inv _ _ _ _ H) as (k & -> & Hk & Hs & He & Hts & Hte & _).
  pose proof (weekday_range today) as Hw.
  exists k. repeat split; try assumption; try lia.
  - unfold weekday in *. rewrite Hs.
    Z.div_mod_to_equations. lia.
  - unfold weekday in *. rewrite He, Hs.
    Z.div_mod_to_equations. lia.
Qed.

Lemma week_is_monday_to_sunday_witness :
  exists s e,
    get_start_end_of_week_by_offset a_wednesday (Some 1) = Returned (Some (s, e))
    /\ ordinal s = 739012 /\ ordinal e = 739018
    /\ weekday s = 0 /\ weekday e = 6.
Proof.
  eexists. eexists. split; [vm_compute; reflexivity|].
  split; [reflexivity|]. split; [reflexivity|].
  destruct (week_is_monday_to_sunday a_wednesday (Some 1)
              {| ordinal := 739012; time_of_day := 43200000000 |}
              {| ordinal := 739018; time_of_day := 43200000000 |} eq_refl)
    as (k & _ & _ & Hs & He & _).
  split; assumption.
Defined.

(** The offsets 0 and [None] give no week, whatever the day. *)
Lemma week_offset_falsy (today : datetime) :
  get_start_end_of_week_by_offset today None = Returned None
  /\ get_start_end_of_week_by_offset today (Some 0) = Returned None.
Proof. split; reflexivity. Qed.

(** Weeks of consecutive offsets lie side by side: the week one offset
    further back ends on the day before the other one starts. *)
Theorem consecutive_weeks_adjacent
        (today : datetime) (k : Z) (s1 e1 s2 e2 : datetime) :
  get_start_end_of_week_by_offset today (Some k) = Returned (Some (s1, e1)) ->
  get_start_end_of_week_by_offset today (Some (k + 1)) = Returned (Some (s2, e2)) ->
  ordinal e2 + 1 = ordinal s1 /\ ordinal s2 + 7 = ordinal s1.
Proof.
  intros H1 H2.
  destruct (week_inv _ _ _ _ H1) as (k1 & Hk1 & _ & Hs1 & He1 & _).
  destruct (week_inv _ _ _ _ H2) as (k2 & Hk2 & _ & Hs2 & He2 & _).
  injection Hk1 as <-. injection Hk2 as <-. lia.
Qed.

Lemma consecutive_weeks_adjacent_witness :
  exists s1 e1 s2 e2,
    get_start_end_of_week_by_offset a_wednesday (Some 1) = Returned (Some (s1, e1))
    /\ get_start_end_of_week_by_offset a_wednesday (Some (1 + 1))
       = Returned (Some (s2, e2))
    /\ ordinal e2 + 1 = ordinal s1 /\ ordinal s2 + 7 = ordinal s1.
Proof.
  eexists. eexists. eexists. eexists.
  split; [vm_compute; reflexivity|]. split; [vm_compute; reflexivity|].
  apply (consecutive_weeks_adjacent a_wednesday 1 _ _ _ _ eq_refl eq_refl).
Defined.

End CalendarFacts.

(** ** The prompting-time report *)
Module PromptingTimeFacts.
Import Py Utils Json Calendar PromptingTime MoreNotions CalendarFacts MoreSamples.
Local Open Scope string_scope.

(** A query answer of [None] cannot be divided: with one average missing
    the message cannot be built. *)
Lemma build_prompting_time_message_missing (a b : option pynum) :
  a = None \/ b = None ->
  exists e, build_prompting_time_message a b = Raise e.
Proof.
  unfold build_prompting_time_message.
  intros [-> | ->]; [|eexists; reflexivity].
  destruct (div_1000 b) as [all_s|e]; cbn [rbind]; [|eauto].
  destruct (seconds_to_readable_time (Some all_s)) as [all_t|e]; cbn [rbind];
    [|eauto].
  eexists. reflexivity.
Qed.

Lemma build_prompting_time_message_both (a b : pynum) :
  build_prompting_time_message (Some a) (Some b)
  = (let* all_t := readable_milliseconds b in
     let* first_t := readable_milliseconds a in
     Ok (prompting_lines all_t first_t)).
Proof.
  unfold build_prompting_time_message, readable_milliseconds, div_1000.
  destruct (py_truediv b (PInt 1000)) as [all_s|e]; cbn [rbind]; [|reflexivity].
  destruct (seconds_to_readable_time (Some all_s)) as [all_t|e]; cbn [rbind];
    [|reflexivity].
  destruct (py_truediv a (PInt 1000)) as [first_s|e]; cbn [rbind]; [|reflexivity].
  destruct (seconds_to_readable_time (Some first_s)) as [first_t|e]; cbn [rbind];
    [|reflexivity].
  unfold prompting_lines. cbv zeta. f_equal.
  now rewrite !PyFacts.string_app_assoc.
Qed.

(** An average of 0 milliseconds is rendered as [None]. *)
Lemma readable_milliseconds_zero (x : pynum) :
  py_eq x (PInt 0) = true -> readable_milliseconds x = Ok None.
Proof.
  intro Hx. destruct x as [z|f].
  - rewrite PyFacts.py_eq_int in Hx. apply Z.eqb_eq in Hx. subst z. reflexivity.
  - unfold py_eq in Hx. rewrite PyFacts.float_compare_zero in Hx.
    destruct f as [s|s| |s m e]; try discriminate Hx;
      try (destruct s; discriminate Hx).
    destruct s; reflexivity.
Qed.

Section PromptingReportFacts.
Context {T : Type}.
Variable build_slack_template : string -> string -> T.
Variable strftime : string -> datetime -> string.
Variable sum_filtered_amplitude_events :
  response_query -> string -> string -> option (option pynum).

#[local] Abbreviation get_data :=
  (get_prompting_time_data sum_filtered_amplitude_events).
#[local] Abbreviation daily_message :=
  (daily_prompting_message strftime sum_filtered_amplitude_events).
#[local] Abbreviation weekly_message :=
  (weekly_prompting_message strftime sum_filtered_amplitude_events).

(** The message of the two prompting-time reports: the error text when a
    query raises and also when exactly one of the two averages is [None]
    (the division by 1000 raises and is caught); the "no metrics" text when
    both are [None]; and otherwise the two lines, all responses first, or
    the error text again when rendering one of the averages raises.  An
    average that is 0 is printed as None. *)
Theorem prompting_message_cases (day monday sunday : datetime) :
  daily_message day
  = match get_data (strftime "%Y%m%d" day) (strftime "%Y%m%d" day) with
    | None => "> - *Error when preparing daily prompting time report*"
    | Some (None, None) =>
        "> - *No daily metrics found for Date: " ++ strftime "%Y-%m-%d" day ++ "*"
    | Some (Some a, Some b) =>
        match readable_milliseconds b, readable_milliseconds a with
        | Ok all_t, Ok first_t => prompting_lines all_t first_t
        | _, _ => "> - *Error when preparing daily prompting time report*"
        end
    | Some _ => "> - *Error when preparing daily prompting time report*"
    end
  /\ weekly_message monday sunday
     = match get_data (strftime "%Y%m%d" monday) (strftime "%Y%m%d" sunday) with
       | None => "> - *Error when preparing weekly prompting time report*"
       | Some (None, None) =>
           "> - *No weekly metrics found for Date: " ++ strftime "%Y-%m-%d" monday
             ++ " -> " ++ strftime "%Y-%m-%d" sunday ++ "*"
       | Some (Some a, Some b) =>
           match readable_milliseconds b, readable_milliseconds a with
           | Ok all_t, Ok first_t => prompting_lines all_t first_t
           | _, _ => "> - *Error when preparing weekly prompting time report*"
           end
       | Some _ => "> - *Error when preparing weekly prompting time report*"
       end
  /\ (forall x : pynum, py_eq x (PInt 0) = true ->
        readable_milliseconds x = Ok None).
Proof.
  split; [|split].
  - unfold daily_prompting_message.
    destruct (get_data _ _) as [[[a|] [b|]]|]; try reflexivity.
    + unfold is_none. simpl andb. cbv iota.
      rewrite build_prompting_time_message_both.
      destruct (readable_milliseconds b), (readable_milliseconds a); reflexivity.
    + unfold is_none. simpl andb. cbv iota.
      destruct (build_prompting_time_message_missing None (Some b)) as [e ->];
        [now left | reflexivity].
  - unfold weekly_prompting_message.
    destruct (get_data _ _) as [[[a|] [b|]]|]; try reflexivity.
    + unfold is_none. simpl andb. cbv iota.
      rewrite build_prompting_time_message_both.
      destruct (readable_milliseconds b), (readable_milliseconds a); reflexivity.
    + unfold is_none. simpl andb. cbv iota.
      destruct (build_prompting_time_message_missing None (Some b)) as [e ->];
        [now left | reflexivity].
  - exact readable_milliseconds_zero.
Qed.

(** The weekly handler reports on the week before the clock's: when it
    returns, the header and the query are those of a Monday and the Sunday
    six days later, the week that holds the day seven days before [now]; it
    fails with an overflow of the calendar only, never for unpacking [None]
    and never because of what the queries answer. *)
Theorem weekly_report_covers_previous_week (now : datetime) :
  handle_weekly_prompting_time_report build_slack_template strftime
    sum_filtered_amplitude_events now
  <> Failed UnpackError
  /\ forall t,
       handle_weekly_prompting_time_report build_slack_template strftime
         sum_filtered_amplitude_events now = Returned t ->
       exists monday sunday,
         weekday monday = 0%Z /\ weekday sunday = 6%Z
         /\ (ordinal sunday = ordinal monday + 6)%Z
         /\ (ordinal monday <= ordinal now - 7 <= ordinal sunday)%Z
         /\ t = build_slack_template
                  ("⏰ (" ++ strftime "%Y-%m-%d" monday ++ " -> "
                     ++ strftime "%Y-%m-%d" sunday
                     ++ ") Eddie Prompting Time Analytics Report")
                  (weekly_message monday sunday).
Proof.
  unfold handle_weekly_prompting_time_report.
  destruct (get_start_end_of_week_by_offset now (Some 1%Z)) as [[[m s]|]|err] eqn:E;
    simpl obind.
  - split; [discriminate|]. intros t H. injection H as <-.
    pose proof (week_inv _ _ _ _ E) as (k & Hk & _ & Hs & He & _).
    injection Hk as <-.
    pose proof (weekday_range now) as Hw.
    exists m, s. repeat split; try lia.
    + unfold weekday in *. rewrite Hs. Z.div_mod_to_equations. lia.
    + unfold weekday in *. rewrite He, Hs. Z.div_mod_to_equations. lia.
  - exfalso. unfold get_start_end_of_week_by_offset in E. simpl Z.eqb in E.
    cbv iota in E.
    repeat (apply obind_returned in E; destruct E as (? & _ & E); cbv beta in E).
    discriminate E.
  - split; [|discriminate].
    intro H. injection H as ->.
    pose proof (week_failed _ _ _ E) as Herr. discriminate Herr.
Qed.

End PromptingReportFacts.

(** An average that is not a number is caught like any other failure: the
    report carries the error text. *)
Example prompting_nan_average_is_error :
  daily_prompting_message (fun _ d => str_of_Z (ordinal d))
    (fun _ _ _ => Some (Some (PFloat S754_nan))) a_wednesday
  = "> - *Error when preparing daily prompting time report*".
Proof. vm_compute. reflexivity. Qed.

Lemma prompting_message_cases_witness :
  py_eq (PInt 0) (PInt 0) = true
  /\ readable_milliseconds (PInt 0) = Ok None.
Proof.
  assert (Hz : py_eq (PInt 0) (PInt 0) = true) by reflexivity.
  split; [exact Hz|].
  exact (proj2 (proj2 (prompting_message_cases
                         (fun _ d => str_of_Z (ordinal d))
                         (fun _ _ _ => Some (Some (PInt 0)))
                         a_wednesday a_wednesday a_wednesday))
           (PInt 0) Hz).
Defined.

Lemma weekly_report_covers_previous_week_witness :
  handle_weekly_prompting_time_report (@pair string string)
    (fun _ d => str_of_Z (ordinal d)) (fun _ _ _ => Some None) a_wednesday
  = Returned ("⏰ (739012 -> 739018) Eddie Prompting Time Analytics Report",
              "> - *No weekly metrics found for Date: 739012 -> 739018*")
  /\ exists monday sunday,
       weekday monday = 0%Z /\ weekday sunday = 6%Z
       /\ (ordinal sunday = ordinal monday + 6)%Z
       /\ (ordinal monday <= ordinal a_wednesday - 7 <= ordinal sunday)%Z
       /\ ("⏰ (739012 -> 739018) Eddie Prompting Time Analytics Report",
           "> - *No weekly metrics found for Date: 739012 -> 739018*")
          = (("⏰ (" ++ str_of_Z (ordinal monday) ++ " -> "
                ++ str_of_Z (ordinal sunday)
                ++ ") Eddie Prompting Time Analytics Report"),
             weekly_prompting_message (fun _ d => str_of_Z (ordinal d))
               (fun _ _ _ => Some None) monday sunday).
Proof.
  assert (Hrun : handle_weekly_prompting_time_report (@pair string string)
                   (fun _ d => str_of_Z (ordinal d)) (fun _ _ _ => Some None)
                   a_wednesday
                 = Returned
                     ("⏰ (739012 -> 739018) Eddie Prompting Time Analytics Report",
                      "> - *No weekly metrics found for Date: 739012 -> 739018*"))
    by (vm_compute; reflexivity).
  split; [exact Hrun|].
  exact (proj2 (weekly_report_covers_previous_week (@pair string string)
                  (fun _ d => str_of_Z (ordinal d)) (fun _ _ _ => Some None)
                  a_wednesday) _ Hrun).
Defined.


End PromptingTimeFacts.

(** ** More about the chunking loop *)
Module ChunkerMore.
Import Chunker ChunkerFacts MoreNotions Samples MoreSamples.
Local Open Scope nat_scope.

Section MoreLoopFacts.
Context {char : Type}.
Variable is_newline : char -> bool.
Variable limit : nat.
Hypothesis limit_pos : 0 < limit.

#[local] Abbreviation next_end := (next_end is_newline limit).
#[local] Abbreviation chunk_loop := (chunk_loop is_newline limit).

(** No message handed to the chat client is empty. *)
Theorem chunks_never_empty (fuel : nat) (s : list char) (i : nat)
        (cs : list (list char)) :
  chunk_loop fuel s i = Some cs -> Forall (fun c => c <> []) cs.
Proof.
  intro H. eapply Forall_impl; [|exact (chunk_loop_sizes _ _ limit_pos _ _ _ _ H)].
  simpl. intros c [Hc _] ->. simpl in Hc. lia.
Qed.



(** A text without any newline is cut evenly: every chunk but the last is
    exactly [limit] characters long. *)
Theorem chunks_of_one_line (fuel : nat) (s : list char) (i : nat)
        (cs : list (list char)) :
  existsb is_newline s = false ->
  chunk_loop fuel s i = Some cs ->
  Forall (fun c => length c = limit) (removelast cs).
Proof.
  intro Hnl. revert i cs. induction fuel as [|fuel IH]; intros i cs H.
  - simpl in H. destruct (Nat.ltb_spec i (length s)); [discriminate|].
    injection H as <-. constructor.
  - destruct (Nat.le_gt_cases (length s) i) as [Hdone|Hgt].
    + rewrite (chunk_loop_done _ _ limit_pos _ _ _ Hdone) in H. injection H as <-. constructor.
    + rewrite (chunk_loop_step _ _ limit_pos _ _ _ Hgt) in H.
      destruct (chunk_loop fuel s (next_end s i)) as [cs'|] eqn:E; [|discriminate].
      injection H as <-.
      destruct cs' as [|c' cs'']; [constructor|].
      change (removelast (slice s i (next_end s i) :: c' :: cs''))
        with (slice s i (next_end s i) :: removelast (c' :: cs'')).
      constructor; [|exact (IH _ _ E)].
      assert (Hmore : next_end s i < length s).
      { destruct (Nat.le_gt_cases (length s) (next_end s i)) as [Hle|Hlt]; [|exact Hlt].
        rewrite (chunk_loop_done _ _ limit_pos _ _ _ Hle) in E. discriminate E. }
      rewrite (next_end_no_newline _ _ limit_pos s i Hgt Hnl) in *.
      rewrite (slice_length limit limit_pos) by lia. lia.
Qed.

End MoreLoopFacts.

Lemma chunks_never_empty_witness :
  0 < SLACK_MESSAGE_LIMIT
  /\ exists cs,
       chunk_loop ascii_newline SLACK_MESSAGE_LIMIT (length sample_text) sample_text 0
       = Some cs
       /\ Forall (fun c => c <> []) cs.
Proof.
  assert (H : 0 < SLACK_MESSAGE_LIMIT) by (unfold SLACK_MESSAGE_LIMIT; lia).
  split; [exact H|].
  eexists. split; [vm_compute; reflexivity|].
  apply (chunks_never_empty ascii_newline SLACK_MESSAGE_LIMIT H
           (length sample_text) sample_text 0).
  vm_compute. reflexivity.
Defined.


Lemma chunks_of_one_line_witness :
  0 < 3
  /\ existsb ascii_newline (list_ascii_of_string "abcdefgh") = false
  /\ exists cs,
       chunk_loop ascii_newline 3 8 (list_ascii_of_string "abcdefgh") 0 = Some cs
       /\ length cs = 3
       /\ Forall (fun c => length c = 3) (removelast cs).
Proof.
  assert (H : 0 < 3) by lia.
  assert (Hnl : existsb ascii_newline (list_ascii_of_string "abcdefgh") = false)
    by reflexivity.
  split; [exact H|]. split; [exact Hnl|].
  eexists. split; [vm_compute; reflexivity|]. split; [reflexivity|].
  apply (chunks_of_one_line ascii_newline 3 H 8 (list_ascii_of_string "abcdefgh") 0 _ Hnl).
  vm_compute. reflexivity.
Defined.

End ChunkerMore.

(** ** More about the report lines *)
Module ReportMore.
Import Py Utils Json Report Samples UtilsFacts UtilsMore ReportFacts.
Local Open Scope string_scope.

Section MoreRenderFacts.
Context {B : Builtins} {En : Enums}.

(** In the message [build_analytics_message] returns, a metric whose current
    value is 0 gets a value line whose comparison is never a percentage: it
    is "(No data for previous period)" when the comparison period has nothing
    for the metric, and the text None otherwise; and for the total video
    duration the value itself is printed as None. *)
Theorem zero_value_line
        (prev : ReportMetrics)
        (cs1 : list (MetricCategory * MetricsData)) (c : MetricCategory)
        (ms1 : list (MetricsName * option pynum)) (n : MetricsName)
        (x : pynum) (ms2 : list (MetricsName * option pynum))
        (cs2 : list (MetricCategory * MetricsData))
        (pre rest later : string) :
  build_analytics_message {| data := cs1 ++ [(c, {| metrics := ms1 |})] |} prev
  = Ok pre ->
  metric_lines prev c ms2 = Ok rest ->
  category_blocks prev cs2 = Ok later ->
  py_eq x (PInt 0) = true ->
  build_analytics_message
    {| data := cs1 ++ (c, {| metrics := ms1 ++ (n, Some x) :: ms2 |}) :: cs2 |} prev
  = Ok (pre
          ++ (newline ++ ">" ++ indent n ++ "- *" ++ name_str n ++ ":* "
                ++ (if name_eqb n total_video_duration
                    then "None" else str_of_num x)
                ++ " "
                ++ match prev_value prev c n with
                   | None => "(No data for previous period)"
                   | Some _ => "None"
                   end)
          ++ rest ++ later).
Proof.
  intros Hpre Hrest Hlater Hx.
  destruct (zero_parts prev c n x Hx) as [Hcmp Hshown].
  apply (message_around_metric prev cs1 c ms1 n (Some x) ms2 cs2 _ _ _ _ Hpre);
    [|exact Hrest | exact Hlater].
  rewrite metric_line_number, Hcmp, Hshown. cbn [rbind]. unfold value_line.
  now destruct (prev_value prev c n).
Qed.

End MoreRenderFacts.

Lemma zero_value_line_witness :
  py_eq (PInt 0) (PInt 0) = true
  /\ build_analytics_message
       {| data := [] ++ ("Exports",
                         {| metrics := [] ++ ("Total video duration", Some (PInt 0))
                                         :: [] |}) :: [] |}
       sample_previous
     = Ok ((newline ++ ">*Exports:*")
             ++ (newline ++ ">" ++ indent "Total video duration" ++ "- *"
                   ++ "Total video duration" ++ ":* " ++ "None" ++ " "
                   ++ "(No data for previous period)")
             ++ "" ++ "").
Proof.
  assert (H0 : build_analytics_message
                 {| data := [] ++ [("Exports", {| metrics := [] |})] |} sample_previous
               = Ok (newline ++ ">*Exports:*")) by reflexivity.
  assert (H : py_eq (PInt 0) (PInt 0) = true) by reflexivity.
  split; [exact H|].
  exact (zero_value_line sample_previous [] "Exports" [] "Total video duration"
           (PInt 0) [] [] _ "" "" H0 eq_refl eq_refl H).
Defined.

End ReportMore.

(** ** More about the export aggregation *)
Module AggregatorMore.
Import Py Utils Json Aggregator AggregatorNotions MoreNotions Samples MoreSamples
  DictFacts AggregatorFacts.
Local Open Scope string_scope.

Section MoreEventFacts.
Context {B : Builtins} {E : AmplitudeEvents}.

(** The prompts and exports of the project [handle_export_event] returns. *)
Lemma handle_export_event_content (e : obj) (ua : UserActivity)
      (l : list log_line) (p : ProjectInfo) :
  handle_export_event e ua = (l, Ok (Some p)) ->
  let before := dict_lookup (get "projectId" (event_props e)) (projects ua) in
  if is_prompt_event (get "event_type" e)
  then prompts p
       = (prompts_of before ++ [prompt_of (get "event_type" e) (event_props e)])%list
       /\ exports p = exports_of before
  else exports p = (exports_of before ++ [export_of (event_props e)])%list
       /\ prompts p = prompts_of before.
Proof.
  unfold handle_export_event, event_props.
  destruct (get "event_properties" e) as [| | | | |props]; try discriminate.
  intro H. apply bind_ok in H. destruct H as (l1 & fi & l2 & _ & Hrest & _).
  destruct (hashable (get "event_type" e)); simpl in Hrest; [|discriminate].
  cbv zeta. unfold prompt_of, prompts_of, exports_of.
  destruct (is_prompt_event (get "event_type" e)) eqn:Hp.
  - apply bind_ok in Hrest. destruct Hrest as (la & ex & lb & Hget & Hret & _).
    apply lift_ok in Hget. destruct Hget as [Hget _].
    unfold dict_get in Hget.
    destruct (hashable (get "projectId" props)); [|discriminate].
    injection Hget as <-.
    destruct (dict_lookup (get "projectId" props) (projects ua)) as [old|];
      injection Hret as _ <-; simpl; auto.
  - destruct (is_export_event (get "event_type" e)); [|discriminate].
    apply bind_ok in Hrest. destruct Hrest as (la & rd & lb & Hdur & Hrest & _).
    apply lift_ok in Hdur. destruct Hdur as [Hdur _].
    apply bind_ok in Hrest. destruct Hrest as (lc & ex & ld & Hget & Hret & _).
    apply lift_ok in Hget. destruct Hget as [Hget _].
    unfold dict_get in Hget.
    destruct (hashable (get "projectId" props)); [|discriminate].
    injection Hget as <-.
    assert (Hrd : rd = output_duration (export_of props)).
    { change (readable_duration props = Ok rd) in Hdur.
      unfold export_of. cbn [output_duration]. now rewrite Hdur. }
    destruct (dict_lookup (get "projectId" props) (projects ua)) as [old|];
      injection Hret as _ <-; simpl; rewrite Hrd; auto.
Qed.

(** A pass over a recognized event files the project that
    [handle_export_event] returned for the activity of its identity. *)
Lemma process_event_handled (i : nat) (e : obj) (st st' : UserActivityStore)
      (l : list log_line) :
  process_event i e st = (l, Ok st') ->
  is_event e = true -> recognized e = true ->
  exists p,
    let ua := activity_of st (identity_key i e) in
    handle_export_event e ua = (l, Ok (Some p))
    /\ hashable (identity_key i e) = true
    /\ hashable (project_id p) = true
    /\ hashable (email ua) = true
    /\ st' = dict_store (email ua)
               {| email := email ua;
                  projects := dict_store (project_id p) p (projects ua) |}
               st.
Proof.
  unfold process_event, is_event. intros H Hev Hrec. rewrite Hev in H.
  simpl negb in H. cbv iota in H.
  apply bind_ok in H. destruct H as (l1 & ua & l2 & Hget & H & ->).
  apply lift_ok in Hget. destruct Hget as [Hget ->].
  unfold get_activity, dict_get in Hget.
  destruct (hashable (identity_key i e)) eqn:Hid; [|discriminate].
  simpl in Hget.
  assert (Hua : ua = activity_of st (identity_key i e)).
  { unfold activity_of.
    destruct (dict_lookup (identity_key i e) st); now injection Hget as <-. }
  clear Hget.
  apply bind_ok in H. destruct H as (l3 & r & l4 & Hh & H & ->).
  destruct (handle_export_event_inv _ _ _ _ Hh)
    as (props & fi & _ & _ & [[Hno _] | (_ & _ & p & -> & _ & _)]);
    [congruence|].
  apply bind_ok in H. destruct H as (l5 & ua' & l6 & Hadd & Hstore & ->).
  apply lift_ok in Hadd. destruct Hadd as [Hadd ->].
  apply lift_ok in Hstore. destruct Hstore as [Hstore ->].
  unfold add_project, dict_set in Hadd.
  destruct (hashable (project_id p)) eqn:Hhp; [|discriminate].
  simpl in Hadd. injection Hadd as <-.
  unfold add_activity, dict_set in Hstore. simpl in Hstore.
  destruct (hashable (email ua)) eqn:Hhe; [|discriminate].
  injection Hstore as <-.
  exists p. cbv zeta. rewrite <- Hua. simpl. rewrite !app_nil_r.
  repeat split; assumption.
Qed.







Lemma dict_store_distinct {V} (k : json) (v : V) (d : pydict V) :
  hashable k = true -> distinct_keys d -> distinct_keys (dict_store k v d).
Proof.
  intros Hk Hd. induction Hd as [|k0 v0 d Hfresh Hd IH]; simpl.
  - constructor; [intros k' v' [] | constructor].
  - destruct (key_eqb k0 k) eqn:Ek0.
    + constructor; assumption.
    + constructor; [|exact IH].
      intros k' v' Hin.
      destruct (dict_store_entries _ _ _ _ _ Hk Hin) as [Hold | [_ Hk']].
      * exact (Hfresh _ _ Hold).
      * rewrite (key_eqb_congr_r _ _ k0 Hk'). exact Ek0.
Qed.


Lemma distinct_nth {V} (d : pydict V) (i j : nat) (k1 k2 : json) (v1 v2 : V) :
  distinct_keys d ->
  nth_error d i = Some (k1, v1) -> nth_error d j = Some (k2, v2) ->
  key_eqb k1 k2 = true -> i = j.
Proof.
  intro Hd. revert i j.
  induction Hd as [|k0 v0 d Hfresh Hd IH]; intros i j Hi Hj Hk.
  - destruct i; discriminate.
  - destruct i as [|i], j as [|j]; simpl in Hi, Hj.
    + reflexivity.
    + injection Hi as -> ->. apply nth_error_In in Hj.
      rewrite (Hfresh _ _ Hj) in Hk. discriminate.
    + injection Hj as -> ->. apply nth_error_In in Hi.
      rewrite key_eqb_sym, (Hfresh _ _ Hi) in Hk. discriminate.
    + f_equal. exact (IH _ _ Hi Hj Hk).
Qed.

Lemma activity_of_distinct (st : UserActivityStore) (k : json) :
  store_distinct st -> distinct_keys (projects (activity_of st k)).
Proof.
  intros [_ Hpr]. unfold activity_of.
  destruct (dict_lookup k st) as [ua|] eqn:El; [|constructor].
  destruct (dict_lookup_In _ _ _ El) as (k0 & Hin & _). exact (Hpr _ _ Hin).
Qed.

Lemma process_event_distinct (i : nat) (e : obj) (st st' : UserActivityStore)
      (l : list log_line) :
  store_distinct st -> process_event i e st = (l, Ok st') -> store_distinct st'.
Proof.
  intros Hd H.
  destruct (process_event_inv _ _ _ _ _ H)
    as [[_ ->] | (_ & _ & p & props & _ & _ & _ & _ & _ & Hhp & Hhe & ->)];
    [exact Hd|].
  pose proof (activity_of_distinct st (identity_key i e) Hd) as Hua.
  destruct Hd as [Hkeys Hpr]. split.
  - now apply dict_store_distinct.
  - intros k ua Hin.
    destruct (dict_store_entries _ _ _ _ _ Hhe Hin) as [Hold | [-> _]].
    + exact (Hpr _ _ Hold).
    + simpl. now apply dict_store_distinct.
Qed.

Lemma process_indexed_distinct (records : list (nat * obj))
      (st st' : UserActivityStore) (l : list log_line) :
  store_distinct st -> process_indexed records st = (l, Ok st') -> store_distinct st'.
Proof.
  revert st l. induction records as [|[i e] records IH]; intros st l Hd H; simpl in H.
  - injection H as <- <-. exact Hd.
  - apply bind_ok in H. destruct H as (l1 & st1 & l2 & H1 & H2 & ->).
    eapply IH; [|exact H2]. eapply process_event_distinct; eauto.
Qed.

Lemma store_distinct_new : store_distinct new_store.
Proof. split; [constructor | intros k ua []]. Qed.

(** No two activities returned by [parse_export_data] have equal
    identities, and no activity has two projects with equal ids. *)
Theorem one_activity_per_identity
        (files : list (list obj)) (l : list log_line) (out : list UserActivity) :
  parse_export_data files = (l, Ok out) ->
  (forall i j ua1 ua2,
     nth_error out i = Some ua1 -> nth_error out j = Some ua2 ->
     key_eqb (email ua1) (email ua2) = true -> i = j)
  /\ (forall ua i j k1 p1 k2 p2,
        In ua out ->
        nth_error (projects ua) i = Some (k1, p1) ->
        nth_error (projects ua) j = Some (k2, p2) ->
        key_eqb k1 k2 = true -> i = j).
Proof.
  intro H. destruct (parse_export_data_inv _ _ _ H) as (st & Hrun & -> & Hst).
  pose proof (process_indexed_distinct _ _ _ _ store_distinct_new Hrun) as [Hkeys Hpr].
  unfold get_all_activities. split.
  - intros i j ua1 ua2 Hi Hj Hk.
    rewrite nth_error_map in Hi, Hj.
    destruct (nth_error st i) as [[k1 u1]|] eqn:Ei; [|discriminate].
    destruct (nth_error st j) as [[k2 u2]|] eqn:Ej; [|discriminate].
    simpl in Hi, Hj. injection Hi as ->. injection Hj as ->.
    destruct (Hst _ _ (nth_error_In _ _ Ei)) as [He1 _].
    destruct (Hst _ _ (nth_error_In _ _ Ej)) as [He2 _].
    apply (distinct_nth st i j k1 k2 ua1 ua2 Hkeys Ei Ej).
    rewrite key_eqb_sym in He2.
    exact (key_eqb_trans _ _ _ (key_eqb_trans _ _ _ He1 Hk) He2).
  - intros ua i j k1 p1 k2 p2 Hin Hi Hj Hk.
    apply in_map_iff in Hin. destruct Hin as ([k0 ua0] & Heq & Hin).
    simpl in Heq. subst ua0.
    exact (distinct_nth _ i j k1 k2 p1 p2 (Hpr _ _ Hin) Hi Hj Hk).
Qed.


Lemma dict_store_not_empty {V} (k : json) (v : V) (d : pydict V) :
  dict_store k v d <> [].
Proof.
  destruct d as [|[k0 v0] d]; simpl; [discriminate|].
  destruct (key_eqb k0 k); discriminate.
Qed.

Lemma activity_of_populated (st : UserActivityStore) (k : json) :
  store_populated st ->
  forall kp p, In (kp, p) (projects (activity_of st k)) ->
               prompts p <> [] \/ exports p <> [].
Proof.
  intros Hst kp p. unfold activity_of.
  destruct (dict_lookup k st) as [ua|] eqn:El; [|intros []].
  destruct (dict_lookup_In _ _ _ El) as (k0 & Hin & _).
  exact (proj2 (Hst _ _ Hin) kp p).
Qed.

Lemma process_event_populated (i : nat) (e : obj) (st st' : UserActivityStore)
      (l : list log_line) :
  store_populated st -> process_event i e st = (l, Ok st') -> store_populated st'.
Proof.
  intros Hst H.
  destruct (process_event_inv _ _ _ _ _ H) as [[_ ->] | (Hev & Hrec & _)];
    [exact Hst|].
  destruct (process_event_handled _ _ _ _ _ H Hev Hrec)
    as (p & Hh & _ & Hhp & Hhe & ->).
  cbv zeta in Hh, Hhe.
  pose proof (handle_export_event_content _ _ _ _ Hh) as Hc. cbv zeta in Hc.
  assert (Hp : prompts p <> [] \/ exports p <> []).
  { destruct (is_prompt_event (get "event_type" e)); destruct Hc as [Hc _];
      rewrite Hc; [left | right]; intro Hnil; apply app_eq_nil in Hnil;
      destruct Hnil as [_ Hnil]; discriminate Hnil. }
  intros k ua Hin.
  destruct (dict_store_entries _ _ _ _ _ Hhe Hin) as [Hold | [-> _]].
  - exact (Hst _ _ Hold).
  - simpl. split; [apply dict_store_not_empty|].
    intros kp p1 Hin1.
    destruct (dict_store_entries _ _ _ _ _ Hhp Hin1) as [Hold | [-> _]].
    + exact (activity_of_populated st _ Hst kp p1 Hold).
    + exact Hp.
Qed.

Lemma process_indexed_populated (records : list (nat * obj))
      (st st' : UserActivityStore) (l : list log_line) :
  store_populated st -> process_indexed records st = (l, Ok st') ->
  store_populated st'.
Proof.
  revert st l. induction records as [|[i e] records IH]; intros st l Hd H; simpl in H.
  - injection H as <- <-. exact Hd.
  - apply bind_ok in H. destruct H as (l1 & st1 & l2 & H1 & H2 & ->).
    eapply IH; [|exact H2]. eapply process_event_populated; eauto.
Qed.

Lemma parse_export_data_populated
      (files : list (list obj)) (l : list log_line) (out : list UserActivity)
      (ua : UserActivity) :
  parse_export_data files = (l, Ok out) -> In ua out ->
  projects ua <> []
  /\ forall kp p, In (kp, p) (projects ua) -> prompts p <> [] \/ exports p <> [].
Proof.
  intros H Hin. destruct (parse_export_data_inv _ _ _ H) as (st & Hrun & -> & _).
  assert (Hnew : store_populated new_store) by (intros k u []).
  pose proof (process_indexed_populated _ _ _ _ Hnew Hrun) as Hpop.
  unfold get_all_activities in Hin. apply in_map_iff in Hin.
  destruct Hin as ([k0 ua0] & Heq & Hin0). simpl in Heq. subst ua0.
  exact (Hpop _ _ Hin0).
Qed.

(** Nothing empty comes out of [parse_export_data]: every activity returned
    has at least one project, and every project at least one prompt or one
    export. *)
Theorem activities_have_content
        (files : list (list obj)) (l : list log_line) (out : list UserActivity) :
  parse_export_data files = (l, Ok out) ->
  forall ua, In ua out ->
    projects ua <> []
    /\ forall kp p, In (kp, p) (projects ua) -> prompts p <> [] \/ exports p <> [].
Proof.
  intros H ua Hin. exact (parse_export_data_populated files l out ua H Hin).
Qed.

Lemma map_result_first_raise {A C} (f : A -> result C) (l1 : list A) (x : A)
      (l2 : list A) (err : exn) :
  (forall a, In a l1 -> exists c, f a = Ok c) -> f x = Raise err ->
  map_result f (l1 ++ x :: l2) = Raise err.
Proof.
  intros Hok Hx. induction l1 as [|a l1 IH]; simpl.
  - now rewrite Hx.
  - destruct (Hok a (or_introl eq_refl)) as [c Hc]. rewrite Hc. simpl.
    rewrite IH; [reflexivity|]. intros a' Ha'. apply Hok. now right.
Qed.

Lemma map_result_all_ok {A C} (f : A -> result C) (l : list A) :
  (forall a, In a l -> exists c, f a = Ok c) ->
  exists cs, map_result f l = Ok cs /\ length cs = length l.
Proof.
  induction l as [|a l IH]; intro Hok; simpl.
  - exists []. auto.
  - destruct (Hok a (or_introl eq_refl)) as [c Hc]. rewrite Hc. simpl.
    destruct IH as (cs & Hcs & Hlen); [intros a' Ha'; apply Hok; now right|].
    rewrite Hcs. simpl. exists (c :: cs). simpl. auto.
Qed.

(** How one file descriptor can fail: a descriptor that is not an object
    raises AttributeError, a null size TypeError, a size given as text that
    is not a number ValueError; a descriptor without size is rendered with
    the size None. *)
Lemma file_entry_cases :
  (forall x, (forall o, x <> JObj o) -> file_entry x = Raise AttributeError)
  /\ (forall o, obj_get "filesize" o = Some JNull ->
                file_entry (JObj o) = Raise TypeError)
  /\ (forall o s, obj_get "filesize" o = Some (JStr s) -> int_of_str s = None ->
                  file_entry (JObj o) = Raise ValueError)
  /\ (forall o, obj_get "filesize" o = None ->
                file_entry (JObj o) = Ok (py_str (get "filename" o) ++ " (None)")).
Proof.
  repeat split.
  - intros x Hx. destruct x; try reflexivity. exfalso. now apply (Hx o).
  - intros o Ho. unfold file_entry, get_default. now rewrite Ho.
  - intros o s Ho Hs. unfold file_entry, get_default. rewrite Ho. simpl.
    now rewrite Hs.
  - intros o Ho. unfold file_entry, get_default. now rewrite Ho.
Qed.

(** A file list given already decoded: when every descriptor can be
    rendered, the summary joins the renderings with ", " and nothing is
    logged; otherwise the first descriptor that fails decides: a TypeError (a
    null size) is caught and logged and the whole summary is dropped, any
    other exception (a descriptor that is not an object, a size that is not
    a number) leaves [handle_export_event]'s file-info block uncaught. *)
Theorem first_bad_descriptor_decides (props : obj) (files : list json) :
  obj_get "projectFileInfo" props = Some (JList files) -> files <> [] ->
  (forall l1 x l2 err,
     files = (l1 ++ x :: l2)%list ->
     (forall f, In f l1 -> exists t, file_entry f = Ok t) ->
     file_entry x = Raise err ->
     project_files_info props
     = match err with
       | TypeError => ([ErrorParsingProjectFileInfo TypeError], Ok None)
       | JSONDecodeError => ([ErrorParsingProjectFileInfo JSONDecodeError], Ok None)
       | _ => ([], Raise err)
       end)
  /\ ((forall f, In f files -> exists t, file_entry f = Ok t) ->
      exists es,
        map_result file_entry files = Ok es /\ length es = length files
        /\ project_files_info props = ([], Ok (Some (join ", " es)))).
Proof.
  intros Hget Hne.
  assert (Hbody : files_info_body props
                  = rbind (map_result file_entry files)
                          (fun es => Ok (Some (join ", " es)))).
  { unfold files_info_body, get_default. rewrite Hget. simpl.
    destruct files; [contradiction | reflexivity]. }
  split.
  - intros l1 x l2 err -> Hok Hx.
    unfold project_files_info. rewrite Hbody.
    rewrite (map_result_first_raise _ _ _ _ _ Hok Hx). simpl.
    destruct err; reflexivity.
  - intro Hok. destruct (map_result_all_ok _ _ Hok) as (es & Hes & Hlen).
    exists es. split; [exact Hes|]. split; [exact Hlen|].
    unfold project_files_info. rewrite Hbody, Hes. reflexivity.
Qed.

(** A file list given as JSON text is treated as the value it decodes to,
    provided that value is not itself a text. *)
Theorem text_and_decoded_file_info_agree (props1 props2 : obj) (s : string) (v : json) :
  obj_get "projectFileInfo" props1 = Some (JStr s) ->
  json_loads s = Some v ->
  (forall t, v <> JStr t) ->
  obj_get "projectFileInfo" props2 = Some v ->
  project_files_info props1 = project_files_info props2.
Proof.
  intros H1 Hs Hv H2.
  unfold project_files_info, files_info_body, get_default.
  rewrite H1, H2, Hs.
  destruct v; try reflexivity. exfalso. now apply (Hv s0).
Qed.

End MoreEventFacts.

Lemma one_activity_per_identity_witness :
  exists l out,
    parse_export_data busy_day = (l, Ok out)
    /\ length out = 2%nat
    /\ forall i j ua1 ua2,
         nth_error out i = Some ua1 -> nth_error out j = Some ua2 ->
         key_eqb (email ua1) (email ua2) = true -> i = j.
Proof.
  eexists. eexists. split; [vm_compute; reflexivity|]. split; [reflexivity|].
  refine (proj1 (one_activity_per_identity busy_day [] _ _)).
  vm_compute. reflexivity.
Defined.


Lemma activities_have_content_witness :
  exists l out,
    parse_export_data busy_day = (l, Ok out)
    /\ forall ua, In ua out ->
         projects ua <> []
         /\ forall kp p, In (kp, p) (projects ua) ->
                         prompts p <> [] \/ exports p <> [].
Proof.
  eexists. eexists. split; [vm_compute; reflexivity|].
  apply (activities_have_content busy_day []). vm_compute. reflexivity.
Defined.

Lemma first_bad_descriptor_decides_witness :
  obj_get "projectFileInfo" null_size_props
  = Some (JList [JObj [("filename", JStr "a.mp4"); ("filesize", JInt 2048)];
                 JObj [("filename", JStr "b.mp4"); ("filesize", JNull)]])
  /\ project_files_info null_size_props
     = ([ErrorParsingProjectFileInfo TypeError], Ok None).
Proof.
  assert (Hget : obj_get "projectFileInfo" null_size_props
                 = Some (JList [JObj [("filename", JStr "a.mp4"); ("filesize", JInt 2048)];
                                JObj [("filename", JStr "b.mp4"); ("filesize", JNull)]]))
    by reflexivity.
  split; [exact Hget|].
  refine (proj1 (first_bad_descriptor_decides null_size_props _ Hget _)
            [JObj [("filename", JStr "a.mp4"); ("filesize", JInt 2048)]]
            (JObj [("filename", JStr "b.mp4"); ("filesize", JNull)])
            [] TypeError eq_refl _ eq_refl).
  - discriminate.
  - intros f [<- | []]. eexists. vm_compute. reflexivity.
Defined.

Lemma text_and_decoded_file_info_agree_witness :
  obj_get "projectFileInfo" [("projectFileInfo", JStr "[]")] = Some (JStr "[]")
  /\ json_loads "[]" = Some (JList [])
  /\ project_files_info [("projectFileInfo", JStr "[]")]
     = project_files_info [("projectFileInfo", JList [])].
Proof.
  assert (H1 : obj_get "projectFileInfo" [("projectFileInfo", JStr "[]")]
               = Some (JStr "[]")) by reflexivity.
  assert (Hs : json_loads "[]" = Some (JList [])) by reflexivity.
  split; [exact H1|]. split; [exact Hs|].
  apply (text_and_decoded_file_info_agree
           [("projectFileInfo", JStr "[]")] [("projectFileInfo", JList [])]
           "[]" (JList []) H1 Hs).
  - intros t Ht. discriminate Ht.
  - reflexivity.
Defined.

End AggregatorMore.

(* ===================================================================== *)
Module ThreadMessageFacts.
Import Py Utils Chunker Json Aggregator AggregatorNotions MoreNotions ThreadMessage
  Samples MoreSamples PyFacts.
Local Open Scope string_scope.

Lemma list_ascii_of_string_app (a b : string) :
  list_ascii_of_string (a ++ b)
  = (list_ascii_of_string a ++ list_ascii_of_string b)%list.
Proof. induction a as [|c a IH]; simpl; [reflexivity | now rewrite IH]. Qed.

Lemma line_ends_with_newline (t : string) :
  ends_with_newline ascii_newline (list_ascii_of_string (t ++ nl)).
Proof.
  exists (list_ascii_of_string t), (ascii_of_nat 10).
  split; [apply list_ascii_of_string_app | reflexivity].
Qed.

Lemma enumerate_cons {A} (a : A) (l : list A) (start : nat) :
  enumerate (a :: l) start = (start, a) :: enumerate l (S start).
Proof. reflexivity. Qed.

Lemma join_lines (l : list string) :
  Forall (fun s => exists t, s = t ++ nl) l -> l <> [] ->
  exists t, join "" l = t ++ nl.
Proof.
  induction l as [|s l IH]; intros Hall Hne; [contradiction|].
  pose proof (Forall_inv Hall) as (t & ->).
  pose proof (Forall_inv_tail Hall) as Hrest.
  destruct l as [|s' l].
  - exists t. reflexivity.
  - assert (Hcons : s' :: l <> []) by discriminate.
    destruct (IH Hrest Hcons) as (t' & Ht').
    exists ((t ++ nl) ++ t').
    change (join "" ((t ++ nl) :: s' :: l))
      with ((t ++ nl) ++ "" ++ join "" (s' :: l)).
    rewrite Ht'. change ("" ++ (t' ++ nl)) with (t' ++ nl).
    symmetry. apply string_app_assoc.
Qed.

Lemma is_line_app (a s : string) :
  (exists t, s = t ++ nl) -> exists t, a ++ s = t ++ nl.
Proof.
  intros (t & ->). exists (a ++ t). symmetry. apply string_app_assoc.
Qed.

Ltac line :=
  lazymatch goal with
  | |- exists t, ?a ++ nl = _ => exists a; reflexivity
  | |- exists t, ?a ++ ?s = _ => apply is_line_app; line
  end.

Section MessageFacts.
Context {B : Builtins}.

Lemma prompt_line_is_line (ip : nat * json) : exists t, prompt_line ip = t ++ nl.
Proof.
  unfold prompt_line. line.
Qed.

Lemma export_line_is_line (ie : nat * ExportInfo) :
  exists t, export_line ie = t ++ nl.
Proof. unfold export_line. cbv zeta. eexists. reflexivity. Qed.

Lemma project_lines_are_lines (ip : nat * ProjectInfo) :
  Forall (fun s => exists t, s = t ++ nl) (project_lines ip).
Proof.
  unfold project_lines. cbv zeta.
  apply Forall_app; split;
    [|apply Forall_app; split; [|apply Forall_app; split]].
  - constructor; [|constructor]. line.
  - destruct (truthy_text _); constructor; [|constructor].
    line.
  - destruct (0 <? _)%nat; constructor.
    + line.
    + apply Forall_forall. intros s Hs. apply in_map_iff in Hs.
      destruct Hs as (ip' & <- & _). apply prompt_line_is_line.
  - destruct (0 <? _)%nat; constructor.
    + line.
    + apply Forall_forall. intros s Hs. apply in_map_iff in Hs.
      destruct Hs as (ie & <- & _). apply export_line_is_line.
Qed.

Lemma parsed_str_lines (ua : UserActivity) :
  Forall (fun s => exists t, s = t ++ nl) (parsed_str ua).
Proof.
  unfold parsed_str. apply Forall_forall. intros s Hs.
  apply in_flat_map in Hs. destruct Hs as (ip & _ & Hs).
  exact (proj1 (Forall_forall _ _) (project_lines_are_lines ip) s Hs).
Qed.

Lemma parsed_str_first (k : json) (p : ProjectInfo) (ps : pydict ProjectInfo)
      (ua : UserActivity) :
  projects ua = (k, p) :: ps ->
  exists rest,
    parsed_str ua
    = (":movie_camera: #" ++ str_of_nat 1 ++ ". *Project name:* "
         ++ py_str (project_name p) ++ nl) :: rest.
Proof.
  intro Hps. unfold parsed_str. rewrite Hps.
  change (map snd ((k, p) :: ps)) with (p :: map snd ps).
  rewrite enumerate_cons.
  change (flat_map project_lines ((1%nat, p) :: enumerate (map snd ps) 2))
    with (project_lines (1%nat, p)
            ++ flat_map project_lines (enumerate (map snd ps) 2))%list.
  unfold project_lines at 1. cbv zeta.
  eexists. reflexivity.
Qed.

Lemma message_str_shape (ua : UserActivity) :
  (message_str ua = "" <-> projects ua = [])
  /\ (projects ua <> [] ->
      ends_with_newline ascii_newline (list_ascii_of_string (message_str ua))).
Proof.
  destruct (projects ua) as [|[k p] ps] eqn:Hps.
  - split; [|intro H; now contradiction H].
    split; [reflexivity|]. intros _. unfold message_str, parsed_str.
    rewrite Hps. reflexivity.
  - destruct (parsed_str_first k p ps ua Hps) as (rest & Hfirst).
    split.
    + split; [|discriminate]. intro Hempty. exfalso.
      unfold message_str in Hempty. rewrite Hfirst in Hempty.
      destruct rest; simpl in Hempty; discriminate Hempty.
    + intros _. unfold message_str.
      destruct (join_lines (parsed_str ua) (parsed_str_lines ua)) as (t & ->).
      * rewrite Hfirst. discriminate.
      * apply line_ends_with_newline.
Qed.

(** The text built for one user is made of whole lines: it is empty exactly
    when the user has no project, and otherwise it ends with a newline. *)
Theorem message_is_whole_lines (ua : UserActivity) :
  (message_str ua = "" <-> projects ua = [])
  /\ (projects ua <> [] ->
      ends_with_newline ascii_newline (list_ascii_of_string (message_str ua))).
Proof. exact (message_str_shape ua). Qed.

Context {E : AmplitudeEvents}.

(** Composition of [parse_export_data] with the message building of
    [handle_send_message_by_thread]: every user it returns gets a text that
    is not empty and ends with a newline, so the sending loop runs at least
    once for each of them. *)
Theorem listed_users_have_messages
        (files : list (list obj)) (l : list log_line) (out : list UserActivity)
        (ua : UserActivity) :
  parse_export_data files = (l, Ok out) -> In ua out ->
  message_str ua <> ""
  /\ ends_with_newline ascii_newline (list_ascii_of_string (message_str ua)).
Proof.
  intros H Hin.
  destruct (AggregatorMore.parse_export_data_populated files l out ua H Hin)
    as [Hne _].
  destruct (message_str_shape ua) as [Hiff Hnl].
  split; [|exact (Hnl Hne)].
  intro Hempty. exact (Hne (proj1 Hiff Hempty)).
Qed.

End MessageFacts.

Lemma message_is_whole_lines_witness :
  projects a_user <> []
  /\ ends_with_newline ascii_newline (list_ascii_of_string (message_str a_user)).
Proof.
  assert (Hne : projects a_user <> []) by discriminate.
  split; [exact Hne|].
  exact (proj2 (message_is_whole_lines a_user) Hne).
Defined.

Lemma listed_users_have_messages_witness :
  exists l out ua,
    parse_export_data busy_day = (l, Ok out) /\ In ua out
    /\ message_str ua <> ""
    /\ ends_with_newline ascii_newline (list_ascii_of_string (message_str ua)).
Proof.
  eexists. eexists. eexists.
  split; [vm_compute; reflexivity|].
  split; [left; reflexivity|].
  refine (listed_users_have_messages busy_day [] _ _ _ _).
  - vm_compute. reflexivity.
  - left. reflexivity.
Defined.

End ThreadMessageFacts.
